(** * Warehouse dashboard (HackGen-X/app.py): a shallow embedding

    The development follows [app.py] top to bottom:

    - Python values, exceptions and the handful of built-in operations the
      handlers use ([*], [+], [/], [>], subscripts, [in], truthiness,
      [str.split], [float()], [bool()], the [.1f] format);
    - the platform the module imports ([ast.literal_eval], [json] and
      [bson.json_util], [datetime.fromisoformat]) as an interface,
      [Runtime], with one concrete instance used for closed examples;
    - the document store (three collections, a clock and an identifier
      supply) with the [find], [find_one], [count_documents], [distinct],
      [aggregate], [insert_one] and [delete_one] calls the module makes;
    - the functions of [app.py] themselves: [parse_json], [parse_capacity],
      [dashboard], [get_item], [get_warehouse_stats], [add_item] and
      [delete_item];
    - the properties of the specification, one theorem each.

    Python [float]s are IEEE binary64 numbers: they are modelled by Rocq's
    primitive floats, Python [int]s by [Z], a [complex] by its two
    floats. *)

From Stdlib Require Import ZArith NArith List String Ascii Bool Lia.
From Stdlib Require Import PrimFloat SpecFloat FloatOps FloatAxioms.
From Stdlib Require Import DecimalString Permutation Sorted.
From Stdlib.Strings Require Byte.
Import ListNotations.

Set Warnings "-register-all".

Local Open Scope Z_scope.
Local Open Scope string_scope.
Local Open Scope list_scope.

(* ================================================================== *)
(** * Exceptions and results *)
(* ================================================================== *)

(** The exception classes that can arise from the code paths modelled
    here.  [InvalidId] is [bson.errors.InvalidId], [OperationFailure] is
    [pymongo.errors.OperationFailure] (the server refusing a query);
    [HTTPException] stands for the errors Flask raises itself while
    reading a request. *)
Inductive exn : Set :=
| ValueError | SyntaxError | TypeError | KeyError | IndexError
| AttributeError | ZeroDivisionError | OverflowError
| RecursionError | MemoryError | InvalidId | OperationFailure
| HTTPException.

Definition exn_eqb (a b : exn) : bool :=
  match a, b with
  | ValueError, ValueError | SyntaxError, SyntaxError
  | TypeError, TypeError | KeyError, KeyError | IndexError, IndexError
  | AttributeError, AttributeError
  | ZeroDivisionError, ZeroDivisionError
  | OverflowError, OverflowError | RecursionError, RecursionError
  | MemoryError, MemoryError | InvalidId, InvalidId
  | OperationFailure, OperationFailure
  | HTTPException, HTTPException => true
  | _, _ => false
  end.

(** A computation either returns a value or raises. *)
Inductive result (A : Type) : Type :=
| Ok (a : A)
| Raise (e : exn).
Arguments Ok {A} a.
Arguments Raise {A} e.

Definition rbind {A B : Type} (r : result A) (k : A -> result B) : result B :=
  match r with
  | Ok a => k a
  | Raise e => Raise e
  end.

Declare Scope result_scope.
Delimit Scope result_scope with result.
Notation "x <- r ;; k" := (rbind r (fun x => k))
  (at level 61, r at next level, right associativity) : result_scope.

(** [try: r except (classes): h] *)
Definition try_except {A : Type} (r : result A) (caught : exn -> bool)
    (handler : result A) : result A :=
  match r with
  | Ok a => Ok a
  | Raise e => if caught e then handler else Raise e
  end.

(* ================================================================== *)
(** * Python values *)
(* ================================================================== *)

(** Dictionaries keep insertion order, as Python's do; a stored document
    is a dictionary whose keys are strings.  [VDatetime] counts time in
    the store's resolution (BSON dates are whole milliseconds), and
    [VObjectId] holds the bytes of an [ObjectId]: twelve in every
    identifier the driver generates, but [ObjectId(s)] can build one of
    fewer (see [py_ObjectId]). *)
Inductive pyval : Type :=
| VNone
| VBool (b : bool)
| VInt (z : Z)
| VFloat (f : float)
| VComplex (re im : float)
| VStr (s : string)
| VList (l : list pyval)
| VTuple (l : list pyval)
| VSet (l : list pyval)
| VDict (d : list (pyval * pyval))
| VDatetime (t : Z)
| VObjectId (binary : list Byte.byte).

Definition document : Type := list (pyval * pyval).

(** ** Numbers *)

Inductive num : Type :=
| NInt (z : Z)
| NFloat (f : float).

(** [bool] is a subclass of [int]. *)
Definition as_num (v : pyval) : option num :=
  match v with
  | VBool b => Some (NInt (Z.b2z b))
  | VInt z => Some (NInt z)
  | VFloat f => Some (NFloat f)
  | _ => None
  end.

Definition exact_int (z : Z) : spec_float :=
  match z with
  | Z0 => S754_zero false
  | Zpos p => S754_finite false p 0
  | Zneg p => S754_finite true p 0
  end.

(** [int] to [float]: round to nearest, ties to even; an [int] too large
    for a binary64 raises [OverflowError] (CPython's [PyLong_AsDouble]). *)
Definition float_of_int (z : Z) : result float :=
  let f := SF2Prim (binary_normalize prec emax z 0 false) in
  if PrimFloat.is_infinity f then Raise OverflowError else Ok f.

(** The correctly rounded quotient of two integers, [b <> 0]
    (CPython's [long_true_divide]). *)
Definition int_true_divide (a b : Z) : result float :=
  let f := SF2Prim (SFdiv prec emax (exact_int a) (exact_int b)) in
  if PrimFloat.is_infinity f then Raise OverflowError else Ok f.

Definition to_float (n : num) : result float :=
  match n with
  | NInt z => float_of_int z
  | NFloat f => Ok f
  end.

Definition num_binop (fz : Z -> Z -> Z) (ff : float -> float -> float)
    (a b : num) : result pyval :=
  match a, b with
  | NInt x, NInt y => Ok (VInt (fz x y))
  | _, _ =>
      (x <- to_float a ;; y <- to_float b ;; Ok (VFloat (ff x y)))%result
  end.

(** A zero divisor: the integer 0, or a float equal to 0.0. *)
Definition num_is_zero (b : num) : bool :=
  match b with
  | NInt z => Z.eqb z 0
  | NFloat f => PrimFloat.eqb f PrimFloat.zero
  end.

(** True division.  Between two integers the quotient is rounded once;
    otherwise both operands are taken as floats.  (An integer converts to
    0.0 only when it is 0, so the divisor is tested as given.) *)
Definition num_truediv (a b : num) : result pyval :=
  match a, b with
  | NInt x, NInt y =>
      if Z.eqb y 0 then Raise ZeroDivisionError
      else (f <- int_true_divide x y ;; Ok (VFloat f))%result
  | _, _ =>
      (x <- to_float a ;;
       if num_is_zero b then Raise ZeroDivisionError
       else (y <- to_float b ;; Ok (VFloat (PrimFloat.div x y))))%result
  end.

(** Exact comparison of a float with an integer: [f > z]. *)
Definition float_gt_int (f : float) (z : Z) : bool :=
  match Prim2SF f with
  | S754_nan => false
  | S754_infinity s => negb s
  | S754_zero _ => Z.ltb z 0
  | S754_finite s m e =>
      let v := if s then Z.neg m else Z.pos m in
      if Z.leb 0 e then Z.ltb z (v * 2 ^ e)
      else Z.ltb (z * 2 ^ (- e)) v
  end.

Definition num_gt_int (a : num) (k : Z) : bool :=
  match a with
  | NInt z => Z.ltb k z
  | NFloat f => float_gt_int f k
  end.

(** ** Complex numbers

    CPython's [Py_complex] is a pair of doubles; an operation with a
    complex operand converts the other one first ([int] through
    [float]) and works on the pairs ([_Py_c_sum], [_Py_c_prod],
    [_Py_c_quot] in [Objects/complexobject.c]). *)

Definition complex : Type := (float * float)%type.

Definition is_complex (v : pyval) : bool :=
  match v with
  | VComplex _ _ => true
  | _ => false
  end.

Definition as_complex (v : pyval) : option (result complex) :=
  match v with
  | VComplex re im => Some (Ok (re, im))
  | _ =>
      match as_num v with
      | Some n => Some (re <- to_float n ;; Ok (re, PrimFloat.zero))%result
      | None => None
      end
  end.

Definition c_sum (a b : complex) : complex :=
  (PrimFloat.add (fst a) (fst b), PrimFloat.add (snd a) (snd b)).

Definition c_diff (a b : complex) : complex :=
  (PrimFloat.sub (fst a) (fst b), PrimFloat.sub (snd a) (snd b)).

Definition c_prod (a b : complex) : complex :=
  (PrimFloat.sub (PrimFloat.mul (fst a) (fst b))
                 (PrimFloat.mul (snd a) (snd b)),
   PrimFloat.add (PrimFloat.mul (fst a) (snd b))
                 (PrimFloat.mul (snd a) (fst b))).

(** The quotient, for a divisor that is not zero: numerators and
    denominator are divided by the larger of the divisor's two parts. *)
Definition c_quot (a b : complex) : complex :=
  let abs_breal := if PrimFloat.ltb (fst b) PrimFloat.zero
                   then PrimFloat.opp (fst b) else fst b in
  let abs_bimag := if PrimFloat.ltb (snd b) PrimFloat.zero
                   then PrimFloat.opp (snd b) else snd b in
  if PrimFloat.leb abs_bimag abs_breal then
    let ratio := PrimFloat.div (snd b) (fst b) in
    let denom := PrimFloat.add (fst b) (PrimFloat.mul (snd b) ratio) in
    (PrimFloat.div (PrimFloat.add (fst a) (PrimFloat.mul (snd a) ratio)) denom,
     PrimFloat.div (PrimFloat.sub (snd a) (PrimFloat.mul (fst a) ratio)) denom)
  else if PrimFloat.leb abs_breal abs_bimag then
    let ratio := PrimFloat.div (fst b) (snd b) in
    let denom := PrimFloat.add (PrimFloat.mul (fst b) ratio) (snd b) in
    (PrimFloat.div (PrimFloat.add (PrimFloat.mul (fst a) ratio) (snd a)) denom,
     PrimFloat.div (PrimFloat.sub (PrimFloat.mul (snd a) ratio) (fst a)) denom)
  else (PrimFloat.nan, PrimFloat.nan).

(** An operation one of whose operands is complex: both are converted,
    the left one first; an operand that is not a number is a
    [TypeError]. *)
Definition complex_binop (op : complex -> complex -> complex)
    (a b : pyval) : result pyval :=
  match as_complex a, as_complex b with
  | Some ra, Some rb =>
      (x <- ra ;; y <- rb ;;
       Ok (VComplex (fst (op x y)) (snd (op x y))))%result
  | _, _ => Raise TypeError
  end.

(** A zero divisor of a complex division: both parts equal to 0.0; a
    real divisor is tested as given (see [num_is_zero]). *)
Definition divisor_is_zero (b : pyval) : bool :=
  match b with
  | VComplex re im =>
      PrimFloat.eqb re PrimFloat.zero && PrimFloat.eqb im PrimFloat.zero
  | _ =>
      match as_num b with
      | Some n => num_is_zero n
      | None => false
      end
  end.

(** ** Arithmetic and comparison *)

Fixpoint repeat_list {A : Type} (l : list A) (n : nat) : list A :=
  match n with
  | O => []
  | S k => l ++ repeat_list l k
  end.

Fixpoint repeat_string (s : string) (n : nat) : string :=
  match n with
  | O => ""
  | S k => s ++ repeat_string s k
  end.

(** [seq * n] for a sequence; a count below one gives the empty sequence. *)
Definition seq_repeat (v : pyval) (n : Z) : result pyval :=
  match v with
  | VStr s => Ok (VStr (repeat_string s (Z.to_nat n)))
  | VList l => Ok (VList (repeat_list l (Z.to_nat n)))
  | VTuple l => Ok (VTuple (repeat_list l (Z.to_nat n)))
  | _ => Raise TypeError
  end.

(** [a * b] *)
Definition py_mul (a b : pyval) : result pyval :=
  if is_complex a || is_complex b then complex_binop c_prod a b
  else
    match as_num a, as_num b with
    | Some x, Some y => num_binop Z.mul PrimFloat.mul x y
    | Some (NInt n), None => seq_repeat b n
    | None, Some (NInt n) => seq_repeat a n
    | _, _ => Raise TypeError
    end.

(** [a + b] *)
Definition py_add (a b : pyval) : result pyval :=
  if is_complex a || is_complex b then complex_binop c_sum a b
  else
    match as_num a, as_num b with
    | Some x, Some y => num_binop Z.add PrimFloat.add x y
    | _, _ =>
        match a, b with
        | VStr s, VStr t => Ok (VStr (s ++ t))
        | VList l, VList m => Ok (VList (l ++ m))
        | VTuple l, VTuple m => Ok (VTuple (l ++ m))
        | _, _ => Raise TypeError
        end
    end.

(** [a / b]: with a complex operand both are converted, then the
    divisor is tested for zero. *)
Definition py_truediv (a b : pyval) : result pyval :=
  if is_complex a || is_complex b then
    match as_complex a, as_complex b with
    | Some ra, Some rb =>
        (x <- ra ;; y <- rb ;;
         if divisor_is_zero b then Raise ZeroDivisionError
         else Ok (VComplex (fst (c_quot x y)) (snd (c_quot x y))))%result
    | _, _ => Raise TypeError
    end
  else
    match as_num a, as_num b with
    | Some x, Some y => num_truediv x y
    | _, _ => Raise TypeError
    end.

(** [a > k] for an integer literal [k]; a complex number has no order. *)
Definition py_gt_int (a : pyval) (k : Z) : result bool :=
  match as_num a with
  | Some x => Ok (num_gt_int x k)
  | None => Raise TypeError
  end.

(** Truth value of an object, as [if], [not] and [bool()] take it. *)
Definition truthy (v : pyval) : bool :=
  match v with
  | VNone => false
  | VBool b => b
  | VInt z => negb (Z.eqb z 0)
  | VFloat f => negb (PrimFloat.eqb f PrimFloat.zero)
  | VComplex re im =>
      negb (PrimFloat.eqb re PrimFloat.zero && PrimFloat.eqb im PrimFloat.zero)
  | VStr s => negb (String.eqb s "")
  | VList l | VTuple l | VSet l => negb (Nat.eqb (List.length l) 0)
  | VDict d => negb (Nat.eqb (List.length d) 0)
  | VDatetime _ | VObjectId _ => true
  end.

(** ** Dictionaries, subscripts and membership *)

Definition key_is (k : string) (v : pyval) : bool :=
  match v with
  | VStr s => String.eqb k s
  | _ => false
  end.

Fixpoint dict_get (d : document) (k : string) : option pyval :=
  match d with
  | [] => None
  | (k', v) :: rest => if key_is k k' then Some v else dict_get rest k
  end.

(** [d[k] = v]: an existing key keeps its place, a new one goes last. *)
Fixpoint dict_set (d : document) (k : string) (v : pyval) : document :=
  match d with
  | [] => [(VStr k, v)]
  | (k', v') :: rest =>
      if key_is k k' then (k', v) :: rest else (k', v') :: dict_set rest k v
  end.

(** [v[k]] for a string [k]: only a dictionary can be subscripted so. *)
Definition py_getitem (v : pyval) (k : string) : result pyval :=
  match v with
  | VDict d =>
      match dict_get d k with
      | Some x => Ok x
      | None => Raise KeyError
      end
  | _ => Raise TypeError
  end.

(** [v[k] = x] for a string [k]. *)
Definition py_setitem (v : pyval) (k : string) (x : pyval) : result pyval :=
  match v with
  | VDict d => Ok (VDict (dict_set d k x))
  | _ => Raise TypeError
  end.

(** [v.get(k, default)]: of the values modelled only [dict] has [get]. *)
Definition py_get (v : pyval) (k : string) (default : pyval) : result pyval :=
  match v with
  | VDict d =>
      match dict_get d k with
      | Some x => Ok x
      | None => Ok default
      end
  | _ => Raise AttributeError
  end.

Definition is_substring (k s : string) : bool :=
  match String.index 0 k s with
  | Some _ => true
  | None => false
  end.

(** [k in v] for a string [k]. *)
Definition py_contains (k : string) (v : pyval) : result bool :=
  match v with
  | VDict d =>
      Ok (match dict_get d k with Some _ => true | None => false end)
  | VList l | VTuple l | VSet l => Ok (existsb (key_is k) l)
  | VStr s => Ok (is_substring k s)
  | _ => Raise TypeError
  end.

(** [l[i]] on a list, for a non-negative literal index. *)
Definition list_index {A : Type} (l : list A) (i : nat) : result A :=
  match nth_error l i with
  | Some x => Ok x
  | None => Raise IndexError
  end.

(** ** Strings *)

(** [s.split(sep)] for a one-character separator: at least one part. *)
Fixpoint split_on (sep : ascii) (s : string) : list string :=
  match s with
  | EmptyString => [""]
  | String c rest =>
      if Ascii.eqb c sep then "" :: split_on sep rest
      else
        match split_on sep rest with
        | [] => [String c ""]
        | part :: parts => String c part :: parts
        end
  end.

(** [v.split('-')]: of the values modelled only [str] has [split]. *)
Definition py_split (v : pyval) (sep : ascii) : result (list string) :=
  match v with
  | VStr s => Ok (split_on sep s)
  | _ => Raise AttributeError
  end.

Definition decimal (z : Z) : string :=
  NilZero.string_of_uint (N.to_uint (Z.to_N z)).

(** The number of tenths nearest to [m * 2^e], ties to even. *)
Definition tenths (m e : Z) : Z :=
  if Z.leb 0 e then m * 2 ^ e * 10
  else
    let d := 2 ^ (- e) in
    let q := (m * 10) / d in
    let r := (m * 10) mod d in
    match Z.compare (2 * r) d with
    | Lt => q
    | Gt => q + 1
    | Eq => if Z.even q then q else q + 1
    end.

(** [format(f, ".1f")] for a float: the exact binary value rounded to one
    decimal, ties to even. *)
Definition format_float_1f (f : float) : string :=
  match Prim2SF f with
  | S754_nan => "nan"
  | S754_infinity s => if s then "-inf" else "inf"
  | S754_zero s => if s then "-0.0" else "0.0"
  | S754_finite s m e =>
      let n := tenths (Z.pos m) e in
      (if s then "-" else "") ++ decimal (n / 10) ++ "." ++ decimal (n mod 10)
  end.

(** A formatted float with its sign always written. *)
Definition with_sign (s : string) : string :=
  match s with
  | String "-"%char _ => s
  | _ => ("+" ++ s)%string
  end.

(** [format(v, ".1f")]: an [int] is converted to [float] first; a
    complex number shows both parts, the imaginary one with its sign. *)
Definition py_format_1f (v : pyval) : result string :=
  match as_num v with
  | Some n => (f <- to_float n ;; Ok (format_float_1f f))%result
  | None =>
      match v with
      | VComplex re im =>
          Ok (format_float_1f re ++ with_sign (format_float_1f im) ++ "j")%string
      | VStr _ => Raise ValueError
      | _ => Raise TypeError
      end
  end.

(* ================================================================== *)
(** * The platform *)
(* ================================================================== *)

(** What [app.py] imports and calls without defining: the literal
    evaluator of [ast], the string parsers behind [float()] and
    [datetime.fromisoformat], the two halves of the JSON round trip
    ([bson.json_util.dumps], then [json.loads]), the text of an
    exception ([str(e)]), and the database server's reading of a query
    operator expression (an object such as [{"$ne": None}] given as the
    value of a filter: a condition on the field, absent or present, or
    the error the server answers).  The functions of [app.py] are defined
    over any such platform, and their properties hold for every one. *)
Class Runtime : Type := {
  ast_literal_eval : string -> result pyval;
  float_of_str : string -> result float;
  datetime_fromisoformat : string -> result Z;
  json_text : Type;
  json_util_dumps : pyval -> result json_text;
  json_loads : json_text -> result pyval;
  exn_str : exn -> string;
  query_operator : document -> result (option pyval -> bool)
}.

(** [float(v)] *)
Definition py_float `{Runtime} (v : pyval) : result pyval :=
  match v with
  | VStr s => (f <- float_of_str s ;; Ok (VFloat f))%result
  | _ =>
      match as_num v with
      | Some n => (f <- to_float n ;; Ok (VFloat f))%result
      | None => Raise TypeError
      end
  end.

(** [datetime.fromisoformat(v)] *)
Definition py_fromisoformat `{Runtime} (v : pyval) : result pyval :=
  match v with
  | VStr s => (t <- datetime_fromisoformat s ;; Ok (VDatetime t))%result
  | _ => Raise TypeError
  end.

Definition hex_digit (c : ascii) : option N :=
  let n := N_of_ascii c in
  if (48 <=? n)%N && (n <=? 57)%N then Some (n - 48)%N
  else if (97 <=? n)%N && (n <=? 102)%N then Some (n - 87)%N
  else if (65 <=? n)%N && (n <=? 70)%N then Some (n - 55)%N
  else None.

Definition byte_of_N (n : N) : Byte.byte :=
  match Byte.of_N n with
  | Some b => b
  | None => Byte.x00
  end.

(** The characters [bytes.fromhex] skips: space, tab, line feed, vertical
    tab, form feed and carriage return. *)
Definition is_space (c : ascii) : bool :=
  let n := N_of_ascii c in ((9 <=? n)%N && (n <=? 13)%N) || (n =? 32)%N.

(** [bytes.fromhex(s)]: two hexadecimal digits per byte, white space
    skipped before a byte (not between its two digits); [None] stands for
    its [ValueError]. *)
Fixpoint bytes_fromhex (s : string) : option (list Byte.byte) :=
  match s with
  | EmptyString => Some []
  | String c rest =>
      if is_space c then bytes_fromhex rest
      else
        match hex_digit c, rest with
        | Some top, String d rest' =>
            match hex_digit d with
            | Some bot =>
                option_map (cons (byte_of_N (16 * top + bot)))
                           (bytes_fromhex rest')
            | None => None
            end
        | _, _ => None
        end
  end.

(** [ObjectId(v)] for a value that came from a request ([bson.ObjectId],
    [__validate]): a string must have 24 characters and go through
    [bytes.fromhex], or it is an [InvalidId]; the bytes obtained are the
    identifier, so 24 hexadecimal digits give twelve bytes and a string
    with white space in it fewer.  Anything that is neither a string nor
    an [ObjectId] is a [TypeError]. *)
Definition py_ObjectId (v : pyval) : result pyval :=
  match v with
  | VStr s =>
      if Nat.eqb (String.length s) 24 then
        match bytes_fromhex s with
        | Some binary => Ok (VObjectId binary)
        | None => Raise InvalidId
        end
      else Raise InvalidId
  | VObjectId o => Ok (VObjectId o)
  | _ => Raise TypeError
  end.

(** The twelve bytes of the [n]-th identifier of the supply (most
    significant first). *)
Fixpoint be_bytes (count : nat) (n : N) (acc : list Byte.byte)
    : list Byte.byte :=
  match count with
  | O => acc
  | S k => be_bytes k (n / 256)%N (byte_of_N (n mod 256)%N :: acc)
  end.

Definition oid_bytes (n : N) : list Byte.byte := be_bytes 12 n [].

(* ================================================================== *)
(** * The document store *)
(* ================================================================== *)

(** The three collections of [warehouse_db], the clock [datetime.now()]
    reads ([clock n] is the n-th reading taken, [ticks] the number taken
    so far) and the supply of fresh [ObjectId]s.  A collection lists its
    documents in insertion order. *)
Record world : Type := mkWorld {
  inventory : list document;
  warehouse_layout : list document;
  movement_logs : list document;
  clock : nat -> Z;
  ticks : nat;
  oid_supply : N
}.

(** ** Matching

    The store is modelled on the documents of the data model: a field
    holds a scalar, and a filter compares it for equality, applies the
    operators the request smuggled in, or, for the one range filter of
    the module, compares against two dates.  (MongoDB's conventions for
    array-valued fields and for [null] against a missing field lie
    outside the model; the store's own failures, other than a refused
    operator expression, do too.) *)

Fixpoint bytes_eqb (a b : list Byte.byte) : bool :=
  match a, b with
  | [], [] => true
  | x :: a', y :: b' => Byte.eqb x y && bytes_eqb a' b'
  | _, _ => false
  end.

Definition float_eq_int (f : float) (z : Z) : bool :=
  match Prim2SF f with
  | S754_zero _ => Z.eqb z 0
  | S754_finite s m e =>
      let v := if s then Z.neg m else Z.pos m in
      if Z.leb 0 e then Z.eqb z (v * 2 ^ e)
      else Z.eqb (z * 2 ^ (- e)) v
  | _ => false
  end.

Fixpoint bson_eq (a b : pyval) {struct a} : bool :=
  let fix all_eq (l m : list pyval) {struct l} : bool :=
    match l, m with
    | [], [] => true
    | x :: l', y :: m' => bson_eq x y && all_eq l' m'
    | _, _ => false
    end in
  let fix all_eq2 (l m : list (pyval * pyval)) {struct l} : bool :=
    match l, m with
    | [], [] => true
    | (k, x) :: l', (k', y) :: m' =>
        bson_eq k k' && bson_eq x y && all_eq2 l' m'
    | _, _ => false
    end in
  match a, b with
  | VNone, VNone => true
  | VBool x, VBool y => Bool.eqb x y
  | VInt x, VInt y => Z.eqb x y
  | VInt x, VFloat y => float_eq_int y x
  | VFloat x, VInt y => float_eq_int x y
  | VFloat x, VFloat y =>
      PrimFloat.eqb x y || (PrimFloat.is_nan x && PrimFloat.is_nan y)
  | VStr s, VStr t => String.eqb s t
  | (VList l | VTuple l), (VList m | VTuple m) => all_eq l m
  | VDict d, VDict e => all_eq2 d e
  | VDatetime t, VDatetime u => Z.eqb t u
  | VObjectId o, VObjectId p => bytes_eqb o p
  | _, _ => false
  end.

(** A filter on one field: [{field: v}] for a value compared for
    equality, [{field: {"$lt": upper, "$gte": lower}}], or [{field: v}]
    for an operator expression [v], as the server read it. *)
Inductive cond : Type :=
| Equals (v : pyval)
| Range (upper lower : pyval)
| Operator (holds : option pyval -> bool).

Definition query : Type := list (string * cond).

(** Range operators compare values of the bound's type only. *)
Definition bson_lt (v bound : pyval) : bool :=
  match v, bound with
  | VDatetime t, VDatetime b => Z.ltb t b
  | _, _ => false
  end.

Definition bson_gte (v bound : pyval) : bool :=
  match v, bound with
  | VDatetime t, VDatetime b => Z.leb b t
  | _, _ => false
  end.

Definition cond_holds (c : cond) (field : option pyval) : bool :=
  match c with
  | Operator holds => holds field
  | Equals x =>
      match field with
      | Some v => bson_eq v x
      | None => false
      end
  | Range upper lower =>
      match field with
      | Some v => bson_lt v upper && bson_gte v lower
      | None => false
      end
  end.

(** An object whose first key begins with [$]: the server reads it as an
    operator expression, not as a value. *)
Definition operator_document (v : pyval) : option document :=
  match v with
  | VDict (((VStr (String "$"%char _), _) :: _) as d) => Some d
  | _ => None
  end.

(** The condition [{field: v}] puts on a field, for a value [v] the
    handler did not build itself. *)
Definition field_filter `{Runtime} (v : pyval) : result cond :=
  match operator_document v with
  | Some d => (holds <- query_operator d ;; Ok (Operator holds))%result
  | None => Ok (Equals v)
  end.

Definition matches (q : query) (d : document) : bool :=
  forallb (fun fc => cond_holds (snd fc) (dict_get d (fst fc))) q.

(** ** Reading *)

Definition find (q : query) (coll : list document) : list document :=
  filter (matches q) coll.

Definition find_one (q : query) (coll : list document) : option document :=
  List.find (matches q) coll.

Definition count_documents (q : query) (coll : list document) : Z :=
  Z.of_nat (List.length (find q coll)).

(** The key [sort(field, -1)] orders by, for the date fields the module
    sorts on: a date by its value, anything else below every date. *)
Definition date_key (field : string) (d : document) : option Z :=
  match dict_get d field with
  | Some (VDatetime t) => Some t
  | _ => None
  end.

Definition key_le (a b : option Z) : bool :=
  match a, b with
  | None, _ => true
  | Some _, None => false
  | Some x, Some y => Z.leb x y
  end.

Fixpoint insert_desc (field : string) (x : document) (l : list document)
    : list document :=
  match l with
  | [] => [x]
  | y :: rest =>
      if key_le (date_key field y) (date_key field x) then x :: y :: rest
      else y :: insert_desc field x rest
  end.

(** [.sort(field, -1)]: descending, documents with equal keys in stored
    order. *)
Definition sort_desc (field : string) (l : list document) : list document :=
  fold_right (insert_desc field) [] l.

(** [.limit(n)] *)
Definition limit (n : nat) (l : list document) : list document := firstn n l.

Fixpoint dedup (l : list pyval) : list pyval :=
  match l with
  | [] => []
  | x :: rest => x :: filter (fun y => negb (bson_eq y x)) (dedup rest)
  end.

(** [.distinct(field)]: the values of the field, each once. *)
Definition distinct (field : string) (coll : list document) : list pyval :=
  dedup (flat_map (fun d => match dict_get d field with
                            | Some v => [v]
                            | None => []
                            end) coll).

Definition field_or_null (field : string) (d : document) : pyval :=
  match dict_get d field with
  | Some v => v
  | None => VNone
  end.

Definition occurrences (v : pyval) (l : list pyval) : Z :=
  Z.of_nat (List.length (filter (bson_eq v) l)).

Fixpoint insert_by_count (x : pyval * Z) (l : list (pyval * Z))
    : list (pyval * Z) :=
  match l with
  | [] => [x]
  | y :: rest =>
      if Z.leb (snd y) (snd x) then x :: y :: rest
      else y :: insert_by_count x rest
  end.

(** [.aggregate([{"$group": {"_id": "$field", "count": {"$sum": 1}}},
                 {"$sort": {"count": -1}}])] *)
Definition aggregate_count (field : string) (coll : list document)
    : list document :=
  let vals := map (field_or_null field) coll in
  let groups := map (fun v => (v, occurrences v vals)) (dedup vals) in
  map (fun g => [(VStr "_id", fst g); (VStr "count", VInt (snd g))])
      (fold_right insert_by_count [] groups).

(** ** Effects

    A handler runs against the world and may raise part-way: what it wrote
    before stays written (the store has no transactions here). *)

Definition M (A : Type) : Type := world -> result A * world.

Definition ret {A : Type} (a : A) : M A := fun w => (Ok a, w).

Definition bind {A B : Type} (m : M A) (k : A -> M B) : M B :=
  fun w =>
    match m w with
    | (Ok a, w') => k a w'
    | (Raise e, w') => (Raise e, w')
    end.

Definition lift {A : Type} (r : result A) : M A := fun w => (r, w).

Definition gets {A : Type} (f : world -> A) : M A := fun w => (Ok (f w), w).

Declare Scope io_scope.
Delimit Scope io_scope with io.
Notation "x <- m ;; k" := (bind m (fun x => k))
  (at level 61, m at next level, right associativity) : io_scope.

Inductive collection : Set := Inventory | WarehouseLayout | MovementLogs.

Definition docs (c : collection) (w : world) : list document :=
  match c with
  | Inventory => inventory w
  | WarehouseLayout => warehouse_layout w
  | MovementLogs => movement_logs w
  end.

Definition set_docs (c : collection) (l : list document) (w : world) : world :=
  match c with
  | Inventory =>
      mkWorld l (warehouse_layout w) (movement_logs w)
              (clock w) (ticks w) (oid_supply w)
  | WarehouseLayout =>
      mkWorld (inventory w) l (movement_logs w)
              (clock w) (ticks w) (oid_supply w)
  | MovementLogs =>
      mkWorld (inventory w) (warehouse_layout w) l
              (clock w) (ticks w) (oid_supply w)
  end.

(** [datetime.now()]: the next reading of the clock. *)
Definition datetime_now : M pyval :=
  fun w =>
    (Ok (VDatetime (clock w (ticks w))),
     mkWorld (inventory w) (warehouse_layout w) (movement_logs w)
             (clock w) (S (ticks w)) (oid_supply w)).

(** [ObjectId()]: a fresh identifier. *)
Definition fresh_ObjectId : M pyval :=
  fun w =>
    (Ok (VObjectId (oid_bytes (oid_supply w))),
     mkWorld (inventory w) (warehouse_layout w) (movement_logs w)
             (clock w) (ticks w) (oid_supply w + 1)%N).

(** [db.c.insert_one(doc)]: a document without [_id] is given a fresh one,
    written first; the collection grows at its end. *)
Definition insert_one (c : collection) (doc : document) : M unit :=
  (stored <- match dict_get doc "_id" with
             | Some _ => ret doc
             | None => oid <- fresh_ObjectId ;; ret ((VStr "_id", oid) :: doc)
             end ;;
   fun w => (Ok tt, set_docs c (docs c w ++ [stored]) w))%io.

Fixpoint remove_first (p : document -> bool) (l : list document)
    : list document :=
  match l with
  | [] => []
  | d :: rest => if p d then rest else d :: remove_first p rest
  end.

(** [db.c.delete_one(q).deleted_count]: the first match goes, if any. *)
Definition delete_one (c : collection) (q : query) : M Z :=
  fun w =>
    (Ok (if existsb (matches q) (docs c w) then 1 else 0),
     set_docs c (remove_first (matches q) (docs c w)) w).

(* ================================================================== *)
(** * Requests and responses *)
(* ================================================================== *)

(** What a handler reads off [flask.request]: whether the body is declared
    as JSON, what [get_json()] gives (a value, or the error Flask raises),
    and the form fields. *)
Record request : Type := mkRequest {
  is_json : bool;
  get_json : result pyval;
  form : list (string * string)
}.

(** [request.form.get(k)] *)
Fixpoint form_get (f : list (string * string)) (k : string) : pyval :=
  match f with
  | [] => VNone
  | (k', v) :: rest => if String.eqb k k' then VStr v else form_get rest k
  end.

(** What a handler returns: [jsonify(body), code], a rendered template
    with its arguments, or a plain text with its code.  (Rendering and
    serialising the answer belong to the framework and are taken to
    succeed.) *)
Inductive response : Type :=
| Jsonify (code : Z) (body : pyval)
| Rendered (template : string) (context : document)
| Plain (code : Z) (text : string).

Definition status_code (r : response) : Z :=
  match r with
  | Jsonify code _ => code
  | Rendered _ _ => 200
  | Plain code _ => code
  end.

Definition error_body (message : string) : pyval :=
  VDict [(VStr "status", VStr "error"); (VStr "message", VStr message)].

Definition success_message (message : string) : pyval :=
  VDict [(VStr "status", VStr "success"); (VStr "message", VStr message)].

(** [try: body except Exception as e: return on_error(e)] *)
Definition handle (body : M response) (on_error : exn -> response)
    : world -> response * world :=
  fun w =>
    match body w with
    | (Ok r, w') => (r, w')
    | (Raise e, w') => (on_error e, w')
    end.

Definition dict_of (o : option document) : pyval :=
  match o with
  | Some d => VDict d
  | None => VNone
  end.

Definition seven_days : Z := 7 * 24 * 3600 * 1000.

(* ================================================================== *)
(** * app.py *)
(* ================================================================== *)

Section App.

Context {rt : Runtime}.

(** [parse_json] (lines 18-19) *)
Definition parse_json (data : pyval) : result pyval :=
  (text <- json_util_dumps data ;; json_loads text)%result.

Definition zero_capacity : pyval :=
  VDict [(VStr "length", VInt 0); (VStr "width", VInt 0);
         (VStr "height", VInt 0)].

(** [parse_capacity] (lines 21-28) *)
Definition parse_capacity (capacity : pyval) : result pyval :=
  match capacity with
  | VStr s =>
      try_except (ast_literal_eval s)
                 (fun e => exn_eqb e ValueError || exn_eqb e SyntaxError)
                 (Ok zero_capacity)
  | _ => Ok capacity
  end.

(** The body of the loop over bins (lines 43-46 and 101-104), on the two
    running totals. *)
Definition bin_step (acc : pyval * pyval) (b : document)
    : result (pyval * pyval) :=
  (raw <- py_getitem (VDict b) "capacity" ;;
   capacity <- parse_capacity raw ;;
   l <- py_getitem capacity "length" ;;
   w <- py_getitem capacity "width" ;;
   lw <- py_mul l w ;;
   h <- py_getitem capacity "height" ;;
   vol <- py_mul lw h ;;
   total <- py_add (fst acc) vol ;;
   u <- py_get (VDict b) "current_utilization" (VInt 0) ;;
   part <- py_mul vol u ;;
   used <- py_add (snd acc) part ;;
   Ok (total, used))%result.

(** [for b in bins: ...] (lines 42 and 100) *)
Fixpoint accumulate (bins : list document) (acc : pyval * pyval)
    : result (pyval * pyval) :=
  match bins with
  | [] => Ok acc
  | b :: rest => (acc' <- bin_step acc b ;; accumulate rest acc')%result
  end.

(** [(used/total)*100 if total > 0 else 0] (lines 48 and 106) *)
Definition utilization_percent (total used : pyval) : result pyval :=
  (positive <- py_gt_int total 0 ;;
   if positive : bool then
     (ratio <- py_truediv used total ;; py_mul ratio (VInt 100))
   else Ok (VInt 0))%result.

Definition internal_error (e : exn) : response :=
  Jsonify 500 (error_body (exn_str e)).

(** [dashboard] (lines 30-56) *)
Definition dashboard : world -> response * world :=
  handle
    (items <- gets (fun w => limit 10 (sort_desc "entry_date"
                                         (find [] (inventory w)))) ;;
     total_items <- gets (fun w => count_documents [] (inventory w)) ;;
     zones <- gets (fun w => distinct "zone_id" (warehouse_layout w)) ;;
     bins <- gets (fun w => find [] (warehouse_layout w)) ;;
     totals <- lift (accumulate bins (VInt 0, VInt 0)) ;;
     utilization <- lift (utilization_percent (fst totals) (snd totals)) ;;
     items_json <- lift (parse_json (VList (map VDict items))) ;;
     shown <- lift (py_format_1f utilization) ;;
     ret (Rendered "index.html"
            [(VStr "items", items_json);
             (VStr "total_items", VInt total_items);
             (VStr "zones", VList zones);
             (VStr "utilization", VStr (shown ++ "%"))]))%io
    (fun e => Plain 500 ("Error loading dashboard: " ++ exn_str e)).

(** [bin_data['capacity'] = parse_capacity(bin_data['capacity'])] under
    its guard (lines 78-79). *)
Definition normalize_bin (bin_data : pyval) : result pyval :=
  if truthy bin_data then
    (has <- py_contains "capacity" bin_data ;;
     if has : bool then
       (raw <- py_getitem bin_data "capacity" ;;
        parsed <- parse_capacity raw ;;
        py_setitem bin_data "capacity" parsed)
     else Ok bin_data)%result
  else Ok bin_data.

(** [get_item] (lines 58-88) *)
Definition get_item (req : request) : world -> response * world :=
  handle
    (data <- lift (get_json req) ;;
     missing <- lift (if truthy data
                      then (has <- py_contains "item_name" data ;;
                            Ok (negb has))%result
                      else Ok true) ;;
     if missing : bool then
       ret (Jsonify 400 (error_body "Missing item_name parameter"))
     else
       item_name <- lift (py_getitem data "item_name") ;;
       named <- lift (field_filter item_name) ;;
       found <- gets (fun w => find_one [("item_name", named)]
                                        (inventory w)) ;;
       let item := dict_of found in
       if truthy item then
         location <- lift (py_getitem item "current_location") ;;
         loc_parts <- lift (py_split location "-") ;;
         zone <- lift (list_index loc_parts 0) ;;
         rack <- lift (list_index loc_parts 1) ;;
         bin <- lift (list_index loc_parts 2) ;;
         bin_found <- gets (fun w =>
                        find_one [("zone_id", Equals (VStr zone));
                                  ("rack_id", Equals (VStr rack));
                                  ("bin_id", Equals (VStr bin))]
                                 (warehouse_layout w)) ;;
         bin_data <- lift (normalize_bin (dict_of bin_found)) ;;
         item_id <- lift (py_getitem item "item_id") ;;
         of_item <- lift (field_filter item_id) ;;
         movement_history <-
           gets (fun w => limit 5 (sort_desc "timestamp"
                            (find [("item_id", of_item)]
                                  (movement_logs w)))) ;;
         item_data <- lift (parse_json item) ;;
         bin_details <- lift (if truthy bin_data then parse_json bin_data
                              else Ok VNone) ;;
         item_data <- lift (py_setitem item_data "bin_details" bin_details) ;;
         history <- lift (parse_json (VList (map VDict movement_history))) ;;
         item_data <- lift (py_setitem item_data "movement_history" history) ;;
         ret (Jsonify 200 (VDict [(VStr "status", VStr "success");
                                  (VStr "data", item_data)]))
       else ret (Jsonify 404 (error_body "Item not found")))%io
    internal_error.

(** The loop over zones (lines 95-111). *)
Fixpoint zone_stats (zones : list pyval) : M (list pyval) :=
  match zones with
  | [] => ret []
  | zone :: rest =>
      (in_zone <- lift (field_filter zone) ;;
       zone_bins <- gets (fun w => find [("zone_id", in_zone)]
                                        (warehouse_layout w)) ;;
       totals <- lift (accumulate zone_bins (VInt 0, VInt 0)) ;;
       utilization <- lift (utilization_percent (fst totals) (snd totals)) ;;
       shown <- lift (py_format_1f utilization) ;;
       others <- zone_stats rest ;;
       ret (VDict [(VStr "name", zone);
                   (VStr "utilization", VStr shown);
                   (VStr "bins", VInt (Z.of_nat (List.length zone_bins)))]
            :: others))%io
  end.

(** [timedelta(days=7)] added to a [datetime]. *)
Definition plus_seven_days (now : pyval) : result pyval :=
  match now with
  | VDatetime t => Ok (VDatetime (t + seven_days))
  | _ => Raise TypeError
  end.

(** The count of lines 119-124: the upper bound is built first, from one
    reading of the clock, the lower bound from the next. *)
Definition expiring_soon : M Z :=
  (first <- datetime_now ;;
   upper <- lift (plus_seven_days first) ;;
   lower <- datetime_now ;;
   gets (fun w => count_documents [("expiry_date", Range upper lower)]
                                  (inventory w)))%io.

(** [get_warehouse_stats] (lines 90-133) *)
Definition get_warehouse_stats : world -> response * world :=
  handle
    (names <- gets (fun w => distinct "zone_id" (warehouse_layout w)) ;;
     zones <- zone_stats names ;;
     categories <- gets (fun w => aggregate_count "category" (inventory w)) ;;
     soon <- expiring_soon ;;
     categories_json <- lift (parse_json (VList (map VDict categories))) ;;
     total_items <- gets (fun w => count_documents [] (inventory w)) ;;
     ret (Jsonify 200 (VDict [(VStr "zones", VList zones);
                              (VStr "categories", categories_json);
                              (VStr "total_items", VInt total_items);
                              (VStr "expiring_soon", VInt soon)])))%io
    internal_error.

Definition required_fields : list string :=
  ["item_id"; "item_name"; "category"; "dimensions"; "weight";
   "current_location"].

(** [for field in required_fields: if field not in form_data: ...]
    (lines 145-147): the first field found missing, if any. *)
Fixpoint first_missing (fields : list string) (form_data : pyval)
    : result (option string) :=
  match fields with
  | [] => Ok None
  | field :: rest =>
      (has <- py_contains field form_data ;;
       if has : bool then first_missing rest form_data
       else Ok (Some field))%result
  end.

(** [float(form_data['dimensions'][side])] *)
Definition dimension (form_data : pyval) (side : string) : result pyval :=
  (dims <- py_getitem form_data "dimensions" ;;
   raw <- py_getitem dims side ;;
   py_float raw)%result.

(** The dictionary literal of lines 149-163, up to [current_location]. *)
Definition new_item_fields (form_data : pyval) : result document :=
  (item_id <- py_getitem form_data "item_id" ;;
   item_name <- py_getitem form_data "item_name" ;;
   category <- py_getitem form_data "category" ;;
   length <- dimension form_data "length" ;;
   width <- dimension form_data "width" ;;
   height <- dimension form_data "height" ;;
   raw_weight <- py_getitem form_data "weight" ;;
   weight <- py_float raw_weight ;;
   raw_fragility <- py_get form_data "fragility" (VBool false) ;;
   has_expiry <- py_get form_data "expiry_date" VNone ;;
   expiry_date <- (if truthy has_expiry
                   then (raw <- py_getitem form_data "expiry_date" ;;
                         py_fromisoformat raw)
                   else Ok VNone) ;;
   current_location <- py_getitem form_data "current_location" ;;
   Ok [(VStr "item_id", item_id);
       (VStr "item_name", item_name);
       (VStr "category", category);
       (VStr "dimensions", VDict [(VStr "length", length);
                                  (VStr "width", width);
                                  (VStr "height", height)]);
       (VStr "weight", weight);
       (VStr "fragility", VBool (truthy raw_fragility));
       (VStr "expiry_date", expiry_date);
       (VStr "current_location", current_location)])%result.

(** The movement log entry of lines 167-173. *)
Definition system_add_entry (item_id timestamp location : pyval) : document :=
  [(VStr "item_id", item_id);
   (VStr "timestamp", timestamp);
   (VStr "movement_type", VStr "in");
   (VStr "location", location);
   (VStr "order_id", VStr "SYSTEM_ADD")].

(** [add_item] (lines 135-177) *)
Definition add_item (req : request) : world -> response * world :=
  handle
    (if is_json req then
       form_data <- lift (get_json req) ;;
       missing <- lift (first_missing required_fields form_data) ;;
       match missing with
       | Some field =>
           ret (Jsonify 400
                  (error_body ("Missing required field: " ++ field)))
       | None =>
           fields <- lift (new_item_fields form_data) ;;
           entry_date <- datetime_now ;;
           let new_item := fields ++ [(VStr "entry_date", entry_date)] in
           _ <- insert_one Inventory new_item ;;
           item_id <- lift (py_getitem (VDict new_item) "item_id") ;;
           timestamp <- datetime_now ;;
           location <- lift (py_getitem (VDict new_item)
                                        "current_location") ;;
           _ <- insert_one MovementLogs
                  (system_add_entry item_id timestamp location) ;;
           ret (Jsonify 200 (success_message "Item added successfully"))
       end
     else ret (Jsonify 400 (error_body "Request must be JSON")))%io
    internal_error.

(** The identifier a delete request carries (lines 184-188): from the
    JSON body when there is one, from the form otherwise. *)
Definition requested_item_id (req : request) : result pyval :=
  if is_json req
  then (data <- get_json req ;; py_get data "item_id" VNone)%result
  else Ok (form_get (form req) "item_id").

(** [delete_item] (lines 179-200) *)
Definition delete_item (req : request) : world -> response * world :=
  handle
    (item_id <- lift (requested_item_id req) ;;
     if truthy item_id then
       oid <- lift (py_ObjectId item_id) ;;
       deleted_count <- delete_one Inventory [("_id", Equals oid)] ;;
       if Z.eqb deleted_count 0 then
         ret (Jsonify 404 (error_body "Item not found"))
       else ret (Jsonify 200 (success_message "Item deleted"))
     else ret (Jsonify 400 (error_body "Missing item_id parameter")))%io
    internal_error.

End App.

(* ================================================================== *)
(** * A reference platform *)
(* ================================================================== *)

(** One concrete [Runtime], for running the handlers on concrete inputs.
    It models CPython on a fragment and answers with an exception outside
    it (which CPython does not always do); only closed examples use it.

    - [literal_eval]: decimal integers, decimal floats without exponent,
      imaginary numbers ([2j], [1.5j]), quoted strings without backslash,
      prefix or line break, [None],
      [True], [False], other names, unary and binary [+] and [-], tuples,
      lists, sets and dictionaries, spaces and tabs between tokens.  The
      conversion of the parsed expression follows [ast.literal_eval]'s
      [_convert].
    - [float_of_str]: an optional sign and a decimal number without
      exponent, between optional spaces.
    - [fromisoformat]: [YYYY-MM-DD], alone or followed by one separator
      character and [HH:MM:SS]; the result counts milliseconds from
      1970-01-01.
    - the JSON round trip: [json_util.dumps] in its legacy mode, read back
      by [json.loads]; the JSON text is represented by the value it
      denotes.
    - [str(e)]: the class name of the exception.
    - operator expressions: [{"$eq": v}] and [{"$ne": v}] alone, a missing
      field counting as [None]; the server's refusal for any other. *)
Module CPython.

Definition is_digit (c : ascii) : bool :=
  let n := N_of_ascii c in (48 <=? n)%N && (n <=? 57)%N.

Definition is_name_start (c : ascii) : bool :=
  let n := N_of_ascii c in
  ((65 <=? n)%N && (n <=? 90)%N) || ((97 <=? n)%N && (n <=? 122)%N)
  || (n =? 95)%N.

Definition is_name_char (c : ascii) : bool := is_name_start c || is_digit c.

Definition is_blank (c : ascii) : bool :=
  let n := N_of_ascii c in (n =? 32)%N || (n =? 9)%N.

Definition is_punct (c : ascii) : bool :=
  existsb (Ascii.eqb c)
          ["("; ")"; "["; "]"; "{"; "}"; ","; ":"; "+"; "-"]%char.

Definition backslash : ascii := ascii_of_N 92.
Definition double_quote : ascii := ascii_of_N 34.

(** The longest prefix of [s] whose characters satisfy [p], and the rest. *)
Fixpoint span (p : ascii -> bool) (s : string) : string * string :=
  match s with
  | EmptyString => ("", "")
  | String c rest =>
      if p c then let (a, b) := span p rest in (String c a, b)
      else ("", s)
  end.

Fixpoint digits_value (s : string) (acc : Z) : Z :=
  match s with
  | EmptyString => acc
  | String c rest => digits_value rest (10 * acc + Z.of_N (N_of_ascii c - 48))
  end.

Fixpoint all_zero (s : string) : bool :=
  match s with
  | EmptyString => true
  | String c rest => Ascii.eqb c "0"%char && all_zero rest
  end.

(** The float nearest to [whole.frac] read in base ten. *)
Definition decimal_float (whole frac : string) : float :=
  SF2Prim (SFdiv prec emax
             (exact_int (digits_value (whole ++ frac)%string 0))
             (exact_int (10 ^ Z.of_nat (String.length frac)))).

Inductive token : Type :=
| TInt (z : Z)
| TFloat (f : float)
| TImag (f : float)
| TStr (s : string)
| TName (s : string)
| TPunct (c : ascii).

(** What follows the [j] or [J] that ends an imaginary number. *)
Definition imaginary_suffix (s : string) : option string :=
  match s with
  | String c rest =>
      if Ascii.eqb c "j"%char || Ascii.eqb c "J"%char then Some rest else None
  | EmptyString => None
  end.

(** A number at the head of [s]: its token and the rest. *)
Definition lex_number (s : string) : option (token * string) :=
  let (whole, r1) := span is_digit s in
  match r1 with
  | String "."%char r2 =>
      let (frac, r3) := span is_digit r2 in
      if String.eqb whole "" && String.eqb frac "" then None
      else
        match imaginary_suffix r3 with
        | Some r4 => Some (TImag (decimal_float whole frac), r4)
        | None => Some (TFloat (decimal_float whole frac), r3)
        end
  | _ =>
      if String.eqb whole "" then None
      else if match imaginary_suffix r1 with Some _ => true | None => false end
      then
        match imaginary_suffix r1 with
        | Some r2 => Some (TImag (decimal_float whole ""), r2)
        | None => None
        end
      else if all_zero whole
              || negb (Ascii.eqb (match whole with
                                  | String c _ => c
                                  | EmptyString => "0"%char
                                  end) "0"%char)
      then Some (TInt (digits_value whole 0), r1)
      else None
  end.

(** The body of a string literal up to its closing quote, and the rest. *)
Fixpoint lex_string (quote : ascii) (s : string) : option (string * string) :=
  match s with
  | EmptyString => None
  | String c rest =>
      if Ascii.eqb c quote then Some ("", rest)
      else if Ascii.eqb c backslash || (N_of_ascii c <? 32)%N then None
      else
        match lex_string quote rest with
        | Some (body, r) => Some (String c body, r)
        | None => None
        end
  end.

Fixpoint lex (fuel : nat) (s : string) : option (list token) :=
  match s with
  | EmptyString => Some []
  | String c rest =>
      match fuel with
      | O => None
      | S fuel' =>
          let continue (t : token) (r : string) :=
            match lex fuel' r with
            | Some ts => Some (t :: ts)
            | None => None
            end in
          if is_blank c then lex fuel' rest
          else if is_digit c || Ascii.eqb c "."%char then
            match lex_number s with
            | Some (t, r) => continue t r
            | None => None
            end
          else if Ascii.eqb c "'"%char || Ascii.eqb c double_quote then
            match lex_string c rest with
            | Some (body, r) => continue (TStr body) r
            | None => None
            end
          else if is_name_start c then
            let (name, r) := span is_name_char s in continue (TName name) r
          else if is_punct c then continue (TPunct c) rest
          else None
      end
  end.

(** The expressions of the fragment, as [ast.parse] would build them. *)
Inductive expr : Type :=
| Constant (v : pyval)
| Name (id : string)
| Tuple (elts : list expr)
| List_ (elts : list expr)
| Set_ (elts : list expr)
| Dict (items : list (expr * expr))
| UnaryOp (minus : bool) (operand : expr)
| BinOp (lhs : expr) (minus : bool) (rhs : expr).

Definition name_expr (id : string) : expr :=
  if String.eqb id "None" then Constant VNone
  else if String.eqb id "True" then Constant (VBool true)
  else if String.eqb id "False" then Constant (VBool false)
  else Name id.

(** Adjacent string literals are one string. *)
Fixpoint more_strings (ts : list token) : string * list token :=
  match ts with
  | TStr s :: rest => let (t, r) := more_strings rest in ((s ++ t)%string, r)
  | _ => ("", ts)
  end.

(** Recursive descent; every call spends one unit of [fuel] and every
    loop consumes a token, so a fuel linear in the input is enough. *)
Fixpoint p_expr (fuel : nat) (ts : list token) : option (expr * list token) :=
  match fuel with
  | O => None
  | S n =>
      match p_unary n ts with
      | Some (e, rest) => p_binary n e rest
      | None => None
      end
  end
with p_binary (fuel : nat) (lhs : expr) (ts : list token)
    : option (expr * list token) :=
  match fuel with
  | O => None
  | S n =>
      match ts with
      | TPunct c :: rest =>
          if Ascii.eqb c "+"%char || Ascii.eqb c "-"%char then
            match p_unary n rest with
            | Some (operand, rest') =>
                p_binary n (BinOp lhs (Ascii.eqb c "-"%char) operand) rest'
            | None => None
            end
          else Some (lhs, ts)
      | _ => Some (lhs, ts)
      end
  end
with p_unary (fuel : nat) (ts : list token) : option (expr * list token) :=
  match fuel with
  | O => None
  | S n =>
      match ts with
      | TPunct c :: rest =>
          if Ascii.eqb c "+"%char || Ascii.eqb c "-"%char then
            match p_unary n rest with
            | Some (e, rest') => Some (UnaryOp (Ascii.eqb c "-"%char) e, rest')
            | None => None
            end
          else p_atom n ts
      | _ => p_atom n ts
      end
  end
with p_atom (fuel : nat) (ts : list token) : option (expr * list token) :=
  match fuel with
  | O => None
  | S n =>
      match ts with
      | TInt z :: rest => Some (Constant (VInt z), rest)
      | TFloat f :: rest => Some (Constant (VFloat f), rest)
      | TImag f :: rest => Some (Constant (VComplex PrimFloat.zero f), rest)
      | TStr s :: rest =>
          let (t, rest') := more_strings rest in
          Some (Constant (VStr (s ++ t)), rest')
      | TName id :: rest => Some (name_expr id, rest)
      | TPunct c :: rest =>
          if Ascii.eqb c "("%char then
            match p_items n ")"%char rest with
            | Some (elts, trailing, rest') =>
                match elts, trailing with
                | [e], false => Some (e, rest')
                | _, _ => Some (Tuple elts, rest')
                end
            | None => None
            end
          else if Ascii.eqb c "["%char then
            match p_items n "]"%char rest with
            | Some (elts, _, rest') => Some (List_ elts, rest')
            | None => None
            end
          else if Ascii.eqb c "{"%char then
            match rest with
            | TPunct d :: rest' =>
                if Ascii.eqb d "}"%char then Some (Dict [], rest')
                else p_braces n rest
            | _ => p_braces n rest
            end
          else None
      | [] => None
      end
  end
(** Expressions separated by commas up to [close]; whether the last one
    was followed by a comma. *)
with p_items (fuel : nat) (close : ascii) (ts : list token)
    : option (list expr * bool * list token) :=
  match fuel with
  | O => None
  | S n =>
      match ts with
      | TPunct c :: rest =>
          if Ascii.eqb c close then Some ([], false, rest) else p_item n close ts
      | _ => p_item n close ts
      end
  end
with p_item (fuel : nat) (close : ascii) (ts : list token)
    : option (list expr * bool * list token) :=
  match fuel with
  | O => None
  | S n =>
      match p_expr n ts with
      | Some (e, TPunct c :: rest) =>
          if Ascii.eqb c close then Some ([e], false, rest)
          else if Ascii.eqb c ","%char then
            match p_items n close rest with
            | Some ([], _, rest') => Some ([e], true, rest')
            | Some (es, trailing, rest') => Some (e :: es, trailing, rest')
            | None => None
            end
          else None
      | _ => None
      end
  end
(** After an opening brace that is not closed at once: a dictionary when
    the first expression is followed by a colon, a set otherwise. *)
with p_braces (fuel : nat) (ts : list token) : option (expr * list token) :=
  match fuel with
  | O => None
  | S n =>
      match p_expr n ts with
      | Some (k, TPunct c :: rest) =>
          if Ascii.eqb c ":"%char then
            match p_expr n rest with
            | Some (v, rest') =>
                match p_pairs n rest' with
                | Some (kvs, rest'') => Some (Dict ((k, v) :: kvs), rest'')
                | None => None
                end
            | None => None
            end
          else
            match p_items n "}"%char ts with
            | Some (elts, _, rest') => Some (Set_ elts, rest')
            | None => None
            end
      | _ => None
      end
  end
(** The rest of a dictionary display, after one of its pairs. *)
with p_pairs (fuel : nat) (ts : list token)
    : option (list (expr * expr) * list token) :=
  match fuel with
  | O => None
  | S n =>
      match ts with
      | TPunct c :: rest =>
          if Ascii.eqb c "}"%char then Some ([], rest)
          else if Ascii.eqb c ","%char then
            match rest with
            | TPunct d :: rest' =>
                if Ascii.eqb d "}"%char then Some ([], rest')
                else p_pair n rest
            | _ => p_pair n rest
            end
          else None
      | _ => None
      end
  end
with p_pair (fuel : nat) (ts : list token)
    : option (list (expr * expr) * list token) :=
  match fuel with
  | O => None
  | S n =>
      match p_expr n ts with
      | Some (k, TPunct c :: rest) =>
          if Ascii.eqb c ":"%char then
            match p_expr n rest with
            | Some (v, rest') =>
                match p_pairs n rest' with
                | Some (kvs, rest'') => Some ((k, v) :: kvs, rest'')
                | None => None
                end
            | None => None
            end
          else None
      | _ => None
      end
  end.

(** ** [_convert] *)

Definition convert_num (e : expr) : result pyval :=
  match e with
  | Constant (VInt z) => Ok (VInt z)
  | Constant (VFloat f) => Ok (VFloat f)
  | Constant (VComplex re im) => Ok (VComplex re im)
  | _ => Raise ValueError
  end.

Definition negate (v : pyval) : pyval :=
  match v with
  | VInt z => VInt (- z)
  | VFloat f => VFloat (PrimFloat.opp f)
  | VComplex re im => VComplex (PrimFloat.opp re) (PrimFloat.opp im)
  | _ => v
  end.

Definition convert_signed_num (e : expr) : result pyval :=
  match e with
  | UnaryOp minus operand =>
      (n <- convert_num operand ;; Ok (if minus then negate n else n))%result
  | _ => convert_num e
  end.

Fixpoint hashable (v : pyval) : bool :=
  match v with
  | VNone | VBool _ | VInt _ | VFloat _ | VComplex _ _ | VStr _ => true
  | VTuple l => forallb hashable l
  | VDatetime _ | VObjectId _ => true
  | VList _ | VSet _ | VDict _ => false
  end.

(** A float equal to a real number. *)
Definition float_eq_num (f : float) (n : num) : bool :=
  match n with
  | NInt z => float_eq_int f z
  | NFloat g => PrimFloat.eqb f g
  end.

(** A complex number equal to a value: to another complex part by part,
    to a real number when its imaginary part is zero. *)
Definition complex_eq (re im : float) (v : pyval) : bool :=
  match v with
  | VComplex re' im' => PrimFloat.eqb re re' && PrimFloat.eqb im im'
  | _ =>
      match as_num v with
      | Some n => PrimFloat.eqb im PrimFloat.zero && float_eq_num re n
      | None => false
      end
  end.

(** Equality of two hashable values, as a dictionary compares its keys. *)
Fixpoint key_eq (a b : pyval) {struct a} : bool :=
  let fix all_eq (l m : list pyval) {struct l} : bool :=
    match l, m with
    | [], [] => true
    | x :: l', y :: m' => key_eq x y && all_eq l' m'
    | _, _ => false
    end in
  match as_num a, as_num b with
  | Some (NInt x), Some (NInt y) => Z.eqb x y
  | Some (NInt x), Some (NFloat g) => float_eq_int g x
  | Some (NFloat f), Some (NInt y) => float_eq_int f y
  | Some (NFloat f), Some (NFloat g) => PrimFloat.eqb f g
  | _, _ =>
      match a, b with
      | VComplex re im, _ => complex_eq re im b
      | _, VComplex re im => complex_eq re im a
      | VNone, VNone => true
      | VStr s, VStr t => String.eqb s t
      | VTuple l, VTuple m => all_eq l m
      | VDatetime t, VDatetime u => Z.eqb t u
      | VObjectId o, VObjectId p => bytes_eqb o p
      | _, _ => false
      end
  end.

(** [d[k] = v] for any hashable key: a key already there keeps its place
    and its first spelling. *)
Fixpoint dict_put (d : document) (k v : pyval) : document :=
  match d with
  | [] => [(k, v)]
  | (k', v') :: rest =>
      if key_eq k' k then (k', v) :: rest else (k', v') :: dict_put rest k v
  end.

Definition set_add (l : list pyval) (x : pyval) : list pyval :=
  if existsb (fun y => key_eq y x) l then l else l ++ [x].

Fixpoint convert (e : expr) : result pyval :=
  let fix convert_all (es : list expr) : result (list pyval) :=
    match es with
    | [] => Ok []
    | x :: rest =>
        (v <- convert x ;; vs <- convert_all rest ;; Ok (v :: vs))%result
    end in
  let fix convert_set (es : list expr) (acc : list pyval)
      : result (list pyval) :=
    match es with
    | [] => Ok acc
    | x :: rest =>
        (v <- convert x ;;
         if hashable v then convert_set rest (set_add acc v)
         else Raise TypeError)%result
    end in
  let fix convert_dict (items : list (expr * expr)) (acc : document)
      : result document :=
    match items with
    | [] => Ok acc
    | (ke, ve) :: rest =>
        (k <- convert ke ;;
         v <- convert ve ;;
         if hashable k then convert_dict rest (dict_put acc k v)
         else Raise TypeError)%result
    end in
  match e with
  | Constant v => Ok v
  | Tuple elts => (vs <- convert_all elts ;; Ok (VTuple vs))%result
  | List_ elts => (vs <- convert_all elts ;; Ok (VList vs))%result
  | Set_ elts => (vs <- convert_set elts [] ;; Ok (VSet vs))%result
  | Dict items => (d <- convert_dict items [] ;; Ok (VDict d))%result
  | BinOp lhs minus rhs =>
      (left <- convert_signed_num lhs ;;
       right <- convert_num rhs ;;
       match left, right with
       | (VInt _ | VFloat _), VComplex _ _ =>
           complex_binop (if minus then c_diff else c_sum) left right
       | _, _ => Raise ValueError
       end)%result
  | UnaryOp _ _ | Name _ => convert_signed_num e
  end.

Fixpoint lstrip (s : string) : string :=
  match s with
  | String c rest => if is_blank c then lstrip rest else s
  | EmptyString => s
  end.

(** [ast.literal_eval(s)] for a string [s]. *)
Definition literal_eval (s : string) : result pyval :=
  match lex (S (String.length s)) (lstrip s) with
  | None => Raise SyntaxError
  | Some ts =>
      match p_items (8 * List.length ts + 8) ")"%char
                    (ts ++ [TPunct ")"%char]) with
      | Some ([e], false, []) => convert e
      | Some (e :: es, _, []) => convert (Tuple (e :: es))
      | _ => Raise SyntaxError
      end
  end.

(** ** [float(s)] *)

Definition string_rev (s : string) : string :=
  string_of_list_ascii (rev (list_ascii_of_string s)).

Definition strip (s : string) : string :=
  string_rev (lstrip (string_rev (lstrip s))).

Definition unsigned_float (s : string) : result float :=
  let (whole, r1) := span is_digit s in
  let (frac, r2) :=
    match r1 with
    | String "."%char r => span is_digit r
    | _ => ("", r1)
    end in
  if String.eqb r2 "" && negb (String.eqb whole "" && String.eqb frac "")
  then Ok (decimal_float whole frac)
  else Raise ValueError.

Definition parse_float (s : string) : result float :=
  match strip s with
  | String "-"%char r =>
      (f <- unsigned_float r ;; Ok (PrimFloat.opp f))%result
  | String "+"%char r => unsigned_float r
  | r => unsigned_float r
  end.

(** ** [datetime.fromisoformat(s)] *)

Definition number_of (s : string) : option Z :=
  if forallb is_digit (list_ascii_of_string s) then Some (digits_value s 0)
  else None.

Definition is_leap (y : Z) : bool :=
  (Z.eqb (y mod 4) 0 && negb (Z.eqb (y mod 100) 0)) || Z.eqb (y mod 400) 0.

Definition days_in_month (y m : Z) : Z :=
  if Z.eqb m 2 then (if is_leap y then 29 else 28)
  else if existsb (Z.eqb m) [4; 6; 9; 11] then 30 else 31.

(** Days from 1970-01-01 to the given date of the Gregorian calendar. *)
Definition days_from_civil (y m d : Z) : Z :=
  let y' := if Z.leb m 2 then y - 1 else y in
  let era := y' / 400 in
  let yoe := y' - era * 400 in
  let mp := (m + 9) mod 12 in
  let doy := (153 * mp + 2) / 5 + d - 1 in
  let doe := yoe * 365 + yoe / 4 - yoe / 100 + doy in
  era * 146097 + doe - 719468.

Definition date_part (s : string) : option Z :=
  match number_of (substring 0 4 s), number_of (substring 5 2 s),
        number_of (substring 8 2 s) with
  | Some y, Some m, Some d =>
      if String.eqb (substring 4 1 s) "-" && String.eqb (substring 7 1 s) "-"
         && Z.leb 1 y && Z.leb 1 m && Z.leb m 12
         && Z.leb 1 d && Z.leb d (days_in_month y m)
      then Some (days_from_civil y m d * 86400000)
      else None
  | _, _, _ => None
  end.

Definition time_part (s : string) : option Z :=
  match number_of (substring 0 2 s), number_of (substring 3 2 s),
        number_of (substring 6 2 s) with
  | Some h, Some m, Some sec =>
      if String.eqb (substring 2 1 s) ":" && String.eqb (substring 5 1 s) ":"
         && Z.ltb h 24 && Z.ltb m 60 && Z.ltb sec 60
      then Some ((h * 3600 + m * 60 + sec) * 1000)
      else None
  | _, _, _ => None
  end.

Definition fromisoformat (s : string) : result Z :=
  let n := String.length s in
  if Nat.eqb n 10 then
    match date_part s with
    | Some day => Ok day
    | None => Raise ValueError
    end
  else if Nat.eqb n 19 then
    match date_part (substring 0 10 s), time_part (substring 11 8 s) with
    | Some day, Some ms => Ok (day + ms)
    | _, _ => Raise ValueError
    end
  else Raise ValueError.

(** ** The JSON round trip *)

Definition hex_char (d : N) : ascii :=
  if (d <? 10)%N then ascii_of_N (48 + d) else ascii_of_N (87 + d).

(** [str(oid)]: two hexadecimal digits for each byte. *)
Fixpoint hex_string (binary : list Byte.byte) : string :=
  match binary with
  | [] => ""
  | b :: rest =>
      String (hex_char (Byte.to_N b / 16)%N)
             (String (hex_char (Byte.to_N b mod 16)%N) (hex_string rest))
  end.

Definition json_key (k : pyval) : result string :=
  match k with
  | VStr s => Ok s
  | VInt z => Ok (if Z.ltb z 0 then ("-" ++ decimal (- z))%string else decimal z)
  | VBool b => Ok (if b then "true" else "false")
  | VNone => Ok "null"
  | _ => Raise TypeError
  end.

(** The value [json.loads(json_util.dumps(v))] denotes. *)
Fixpoint to_json (v : pyval) : result pyval :=
  let fix all_json (l : list pyval) : result (list pyval) :=
    match l with
    | [] => Ok []
    | x :: rest =>
        (y <- to_json x ;; ys <- all_json rest ;; Ok (y :: ys))%result
    end in
  let fix object_json (d : document) (acc : document) : result document :=
    match d with
    | [] => Ok acc
    | (k, x) :: rest =>
        (y <- to_json x ;;
         key <- json_key k ;;
         object_json rest (dict_set acc key y))%result
    end in
  match v with
  | VNone | VBool _ | VInt _ | VFloat _ | VStr _ => Ok v
  | VComplex _ _ => Raise TypeError
  | VList l | VTuple l | VSet l => (ys <- all_json l ;; Ok (VList ys))%result
  | VDict d => (o <- object_json d [] ;; Ok (VDict o))%result
  | VDatetime t => Ok (VDict [(VStr "$date", VInt t)])
  | VObjectId o => Ok (VDict [(VStr "$oid", VStr (hex_string o))])
  end.

Definition class_name (e : exn) : string :=
  match e with
  | ValueError => "ValueError"
  | SyntaxError => "SyntaxError"
  | TypeError => "TypeError"
  | KeyError => "KeyError"
  | IndexError => "IndexError"
  | AttributeError => "AttributeError"
  | ZeroDivisionError => "ZeroDivisionError"
  | OverflowError => "OverflowError"
  | RecursionError => "RecursionError"
  | MemoryError => "MemoryError"
  | InvalidId => "InvalidId"
  | OperationFailure => "OperationFailure"
  | HTTPException => "HTTPException"
  end.

(** ** Operator expressions *)

(** Equality as [$eq] and [$ne] take it: a missing field is [None]. *)
Definition equal_or_null (x : pyval) (field : option pyval) : bool :=
  match field with
  | Some v => bson_eq v x
  | None => bson_eq VNone x
  end.

Definition operator (d : document) : result (option pyval -> bool) :=
  match d with
  | [(VStr "$eq", x)] => Ok (equal_or_null x)
  | [(VStr "$ne", x)] => Ok (fun field => negb (equal_or_null x field))
  | _ => Raise OperationFailure
  end.

#[export] Instance runtime : Runtime := {
  ast_literal_eval := literal_eval;
  float_of_str := parse_float;
  datetime_fromisoformat := fromisoformat;
  json_text := pyval;
  json_util_dumps := to_json;
  json_loads := fun text => Ok text;
  exn_str := class_name;
  query_operator := operator
}.

End CPython.

(* ================================================================== *)
(** * Properties *)
(* ================================================================== *)

(** ** Vocabulary of the statements *)

Definition is_str (v : pyval) : bool :=
  match v with
  | VStr _ => true
  | _ => false
  end.

Definition is_dict (v : pyval) : bool :=
  match v with
  | VDict _ => true
  | _ => false
  end.

(** A number: [bool], [int], [float] or [complex]. *)
Definition is_number (v : pyval) : bool :=
  match as_complex v with
  | Some _ => true
  | None => false
  end.

(** What a percentage can be: the integer 0, a float or a complex
    number. *)
Definition is_percentage (p : pyval) : bool :=
  match p with
  | VInt 0 | VFloat _ | VComplex _ _ => true
  | _ => false
  end.


(** ** The totals, in the words of the specification

    "[total_capacity] = sum over bins of [length*width*height]" and
    "[used_capacity] = sum over bins of
    [length*width*height*current_utilization], treating a missing
    [current_utilization] as 0".  A sum adds left to right from 0, as
    Python's [sum] does. *)

Fixpoint map_result {A B : Type} (f : A -> result B) (l : list A)
    : result (list B) :=
  match l with
  | [] => Ok []
  | x :: rest =>
      (y <- f x ;; ys <- map_result f rest ;; Ok (y :: ys))%result
  end.

Fixpoint py_sum (values : list pyval) (start : pyval) : result pyval :=
  match values with
  | [] => Ok start
  | v :: rest => (s <- py_add start v ;; py_sum rest s)%result
  end.

Definition utilization_or_zero (b : document) : pyval :=
  match dict_get b "current_utilization" with
  | Some u => u
  | None => VInt 0
  end.

(** ** The percentage, in the words of the specification

    "[utilization_percent] = [used_capacity/total_capacity*100] if
    [total_capacity > 0], else 0", "formatted to one decimal place":
    [shown] is the percentage of [used] in [total] as displayed. *)
Definition shown_percent (total used : pyval) (shown : string) : Prop :=
  (py_gt_int total 0 = Ok true
   /\ exists ratio p,
        py_truediv used total = Ok ratio
        /\ py_mul ratio (VInt 100) = Ok p
        /\ py_format_1f p = Ok shown)
  \/ (py_gt_int total 0 = Ok false /\ shown = "0.0").

Section Totals.

Context {rt : Runtime}.

Definition spec_volume (b : document) : result pyval :=
  (raw <- py_getitem (VDict b) "capacity" ;;
   capacity <- parse_capacity raw ;;
   l <- py_getitem capacity "length" ;;
   w <- py_getitem capacity "width" ;;
   lw <- py_mul l w ;;
   h <- py_getitem capacity "height" ;;
   py_mul lw h)%result.

Definition spec_used_volume (b : document) : result pyval :=
  (vol <- spec_volume b ;; py_mul vol (utilization_or_zero b))%result.

Definition spec_total_capacity (bins : list document) : result pyval :=
  (vols <- map_result spec_volume bins ;; py_sum vols (VInt 0))%result.

Definition spec_used_capacity (bins : list document) : result pyval :=
  (parts <- map_result spec_used_volume bins ;; py_sum parts (VInt 0))%result.

(** The entry of one zone in the statistics: its name, the percentage
    over its bins as shown, and how many bins it has. *)
Definition zone_entry (w : world) (zone entry : pyval) : Prop :=
  exists in_zone total used shown,
    field_filter zone = Ok in_zone
    /\ accumulate (find [("zone_id", in_zone)] (warehouse_layout w))
                  (VInt 0, VInt 0) = Ok (total, used)
    /\ shown_percent total used shown
    /\ entry
       = VDict [(VStr "name", zone);
                (VStr "utilization", VStr shown);
                (VStr "bins",
                 VInt (Z.of_nat (List.length
                                   (find [("zone_id", in_zone)]
                                         (warehouse_layout w)))))].

End Totals.

(** Two bins of volumes 10 and 20, used to 0.5 and 0.25; the second
    stores its capacity as text. *)
Definition two_bins : list document :=
  [[(VStr "zone_id", VStr "A"); (VStr "rack_id", VStr "1");
    (VStr "bin_id", VStr "1");
    (VStr "capacity", VDict [(VStr "length", VInt 5); (VStr "width", VInt 2);
                             (VStr "height", VInt 1)]);
    (VStr "current_utilization", VFloat 0.5)];
   [(VStr "zone_id", VStr "A"); (VStr "rack_id", VStr "1");
    (VStr "bin_id", VStr "2");
    (VStr "capacity", VStr "{'length': 2, 'width': 5, 'height': 2}");
    (VStr "current_utilization", VFloat 0.25)]].

Definition never (n : nat) : Z := 0.

Definition two_bins_world : world :=
  mkWorld [] two_bins [] never 0 0.

(** A bin whose capacity text holds an imaginary length. *)
Definition imaginary_bin : document :=
  [(VStr "zone_id", VStr "A"); (VStr "rack_id", VStr "1");
   (VStr "bin_id", VStr "1");
   (VStr "capacity", VStr "{'length': 1j, 'width': 1, 'height': 1}")].

Definition empty_world : world := mkWorld [] [] [] never 0 0.

(** ** Requests and worlds of the examples *)

Definition json_request (body : pyval) : request := mkRequest true (Ok body) [].


(** The filter [{"_id": ObjectId(o)}]. *)
Definition by_id (o : list Byte.byte) : query :=
  [("_id", Equals (VObjectId o))].

Definition item_widget : document :=
  [(VStr "_id", VObjectId (oid_bytes 1)); (VStr "item_id", VStr "W-1");
   (VStr "item_name", VStr "widget"); (VStr "category", VStr "tools");
   (VStr "expiry_date", VNone); (VStr "current_location", VStr "A-1-2")].

Definition item_gadget : document :=
  [(VStr "_id", VObjectId (oid_bytes 2)); (VStr "item_id", VStr "G-7");
   (VStr "item_name", VStr "gadget"); (VStr "category", VStr "tools");
   (VStr "expiry_date", VDatetime 1000);
   (VStr "current_location", VStr "A-1-2-3")].

Definition item_loose : document :=
  [(VStr "_id", VObjectId (oid_bytes 3)); (VStr "item_id", VStr "L-0");
   (VStr "item_name", VStr "loose"); (VStr "category", VStr "misc");
   (VStr "expiry_date", VDatetime (1000 + seven_days));
   (VStr "current_location", VStr "A-1")].

Definition bin_a12 : document :=
  [(VStr "_id", VObjectId (oid_bytes 10)); (VStr "zone_id", VStr "A");
   (VStr "rack_id", VStr "1"); (VStr "bin_id", VStr "2");
   (VStr "capacity", VStr "{'length': 2, 'width': 5, 'height': 2}");
   (VStr "current_utilization", VFloat 0.25)].

Definition log_entry (oid : N) (item_id : string) (timestamp : Z) : document :=
  [(VStr "_id", VObjectId (oid_bytes oid)); (VStr "item_id", VStr item_id);
   (VStr "timestamp", VDatetime timestamp); (VStr "movement_type", VStr "in");
   (VStr "location", VStr "A-1-2"); (VStr "order_id", VStr "SYSTEM_ADD")].

Definition frozen_clock (n : nat) : Z := 1000.

Definition small_world : world :=
  mkWorld [item_widget; item_gadget; item_loose] [bin_a12]
          [log_entry 20 "W-1" 100; log_entry 21 "G-7" 150;
           log_entry 22 "W-1" 300; log_entry 23 "W-1" 200;
           log_entry 24 "W-1" 700; log_entry 25 "W-1" 600;
           log_entry 26 "W-1" 500; log_entry 27 "W-1" 400]
          frozen_clock 0 100.

(** A field the request's object does not have. *)
Definition absent (body : document) (field : string) : bool :=
  match dict_get body field with
  | Some _ => false
  | None => true
  end.

(** An add-item request with every required field, and the record its
    coercions give. *)
Definition nut_body : document :=
  [(VStr "item_id", VStr "N-1"); (VStr "item_name", VStr "nut");
   (VStr "category", VStr "parts");
   (VStr "dimensions", VDict [(VStr "length", VInt 1);
                              (VStr "width", VStr "2.5");
                              (VStr "height", VFloat 3)]);
   (VStr "weight", VInt 4);
   (VStr "expiry_date", VStr "2030-01-01");
   (VStr "current_location", VStr "A-1-2")].

(** The same request with a weight that is not a number. *)
Definition heavy_body : document :=
  [(VStr "item_id", VStr "N-1"); (VStr "item_name", VStr "nut");
   (VStr "category", VStr "parts");
   (VStr "dimensions", VDict [(VStr "length", VInt 1);
                              (VStr "width", VStr "2.5");
                              (VStr "height", VFloat 3)]);
   (VStr "weight", VStr "heavy");
   (VStr "current_location", VStr "A-1-2")].

Definition nut_fields : document :=
  [(VStr "item_id", VStr "N-1"); (VStr "item_name", VStr "nut");
   (VStr "category", VStr "parts");
   (VStr "dimensions", VDict [(VStr "length", VFloat 1);
                              (VStr "width", VFloat 2.5);
                              (VStr "height", VFloat 3)]);
   (VStr "weight", VFloat 4);
   (VStr "fragility", VBool false);
   (VStr "expiry_date", VDatetime 1893456000000);
   (VStr "current_location", VStr "A-1-2")].

(** ** The expiry window, in the words of the specification

    "items whose expiry timestamp lies in the half-open window
    [[now, now + 7 days)]". *)
Definition in_window (lower upper : Z) (item : document) : bool :=
  match dict_get item "expiry_date" with
  | Some (VDatetime e) => Z.leb lower e && Z.ltb e upper
  | _ => false
  end.

Definition expires_within_week (now : Z) (item : document) : bool :=
  in_window now (now + seven_days) item.

(** ** Lookups, in the words of the specification *)

(** The filter [{"item_name": name}] for a name that is a string. *)
Definition by_name (name : string) : query :=
  [("item_name", Equals (VStr name))].

(** "Ordered by timestamp descending": [a] may stand before [b]. *)
Definition newer_first (field : string) (a b : document) : Prop :=
  key_le (date_key field b) (date_key field a) = true.


Section LookupDetails.

Context {rt : Runtime}.



End LookupDetails.

(** ** Vocabulary of the further properties *)

(** A computation that leaves the world as it found it. *)
Definition reads_only {A : Type} (m : M A) : Prop :=
  forall w, snd (m w) = w.

(** A computation whose answers, when it gives one, all satisfy [P]. *)
Definition answers_with (P : response -> Prop) (m : M response) : Prop :=
  forall w r w', m w = (Ok r, w') -> P r.

Definition code_in (codes : list Z) (r : response) : Prop :=
  In (status_code r) codes.

(** A computation that may read the clock but leaves the collections and
    the supply of identifiers alone. *)
Definition same_store (w w' : world) : Prop :=
  inventory w' = inventory w
  /\ warehouse_layout w' = warehouse_layout w
  /\ movement_logs w' = movement_logs w
  /\ clock w' = clock w
  /\ oid_supply w' = oid_supply w
  /\ (ticks w <= ticks w')%nat.

Definition keeps_store {A : Type} (m : M A) : Prop :=
  forall w, same_store w (snd (m w)).

(** A world that differs from another by records appended to the
    inventory and to the movement log, at most one each. *)
Definition appended (w w' : world) : Prop :=
  exists items entries,
    inventory w' = inventory w ++ items
    /\ movement_logs w' = movement_logs w ++ entries
    /\ (List.length items <= 1)%nat
    /\ (List.length entries <= 1)%nat
    /\ List.length items = List.length entries
    /\ warehouse_layout w' = warehouse_layout w
    /\ clock w' = clock w.

Definition sum_Z (l : list Z) : Z := fold_right Z.add 0 l.

(** A world whose layout has a bin without [capacity] after a good bin. *)
Definition broken_layout_world : world :=
  mkWorld [] (two_bins ++ [[(VStr "zone_id", VStr "B")]]) [] never 0 0.

(** A world whose only bin stores a capacity text with an unhashable
    dictionary key. *)
Definition unhashable_bin_world : world :=
  mkWorld [item_widget]
          [[(VStr "zone_id", VStr "A"); (VStr "rack_id", VStr "1");
            (VStr "bin_id", VStr "2"); (VStr "capacity", VStr "{[1]: 2}")]]
          [] frozen_clock 0 100.

(** A clock that moves by one unit at every reading. *)
Definition running_clock (n : nat) : Z := 1000 + Z.of_nat n.

Definition running_world : world :=
  mkWorld [item_widget; item_gadget; item_loose] [bin_a12] []
          running_clock 0 100.

(** A string without the character [c], and the number of times a string
    has it. *)
Fixpoint lacks (c : ascii) (s : string) : bool :=
  match s with
  | EmptyString => true
  | String a rest => negb (Ascii.eqb a c) && lacks c rest
  end.

Fixpoint count_char (c : ascii) (s : string) : nat :=
  match s with
  | EmptyString => O
  | String a rest =>
      if Ascii.eqb a c then S (count_char c rest) else count_char c rest
  end.

(** The key [zone-rack-bin] of a location. *)
Definition location_key (zone rack bin : string) : string :=
  zone ++ "-" ++ rack ++ "-" ++ bin.

(** What [bool(form_data.get('fragility', False))] gives. *)
Definition fragility_of (body : document) : bool :=
  match dict_get body "fragility" with
  | Some v => truthy v
  | None => false
  end.

(** A delete request for the first identifier the supply of
    [small_world] hands out. *)
Definition delete_fresh : request :=
  json_request (VDict [(VStr "item_id", VStr "000000000000000000000064")]).
(** ** The capacity parser *)

Section CapacityParser.

Context {rt : Runtime}.

Lemma parse_capacity_not_str (capacity : pyval) :
  is_str capacity = false -> parse_capacity capacity = Ok capacity.
Proof. destruct capacity; simpl; intros E; try reflexivity; discriminate. Qed.

Lemma parse_capacity_decoded (s : string) (v : pyval) :
  ast_literal_eval s = Ok v -> parse_capacity (VStr s) = Ok v.
Proof. intros E. simpl. rewrite E. reflexivity. Qed.

Lemma parse_capacity_raises (s : string) (e : exn) :
  ast_literal_eval s = Raise e ->
  parse_capacity (VStr s)
  = if exn_eqb e ValueError || exn_eqb e SyntaxError
    then Ok zero_capacity else Raise e.
Proof. intros E. simpl. rewrite E. reflexivity. Qed.

(** C1 (amended).  A capacity that is already a dictionary comes back
    unchanged; a string the literal evaluator decodes comes back decoded;
    a string on which the literal evaluator raises [ValueError] or
    [SyntaxError] gives [{length: 0, width: 0, height: 0}], and nothing
    is raised. *)
Theorem parse_capacity_spec (capacity : pyval) :
  (is_dict capacity = true -> parse_capacity capacity = Ok capacity)
  /\ (forall s v, capacity = VStr s -> ast_literal_eval s = Ok v ->
        parse_capacity capacity = Ok v)
  /\ (forall s e, capacity = VStr s -> ast_literal_eval s = Raise e ->
        e = ValueError \/ e = SyntaxError ->
        parse_capacity capacity = Ok zero_capacity).
Proof.
  split; [| split].
  - intros D. apply parse_capacity_not_str.
    destruct capacity; simpl in *; congruence.
  - intros s v -> E. now apply parse_capacity_decoded.
  - intros s e -> E [-> | ->]; rewrite (parse_capacity_raises _ _ E);
      reflexivity.
Qed.

End CapacityParser.

(** C1, as stated, fails: a string whose evaluation raises [TypeError]
    (a dictionary display with an unhashable key) is not absorbed. *)
Lemma parse_capacity_unhashable_key :
  CPython.literal_eval "{[1]: 2}" = Raise TypeError
  /\ @parse_capacity CPython.runtime (VStr "{[1]: 2}") = Raise TypeError.
Proof. split; vm_compute; reflexivity. Qed.

Lemma parse_capacity_spec_witness :
  @parse_capacity CPython.runtime
     (VDict [(VStr "length", VInt 2); (VStr "width", VInt 3);
             (VStr "height", VInt 4)])
  = Ok (VDict [(VStr "length", VInt 2); (VStr "width", VInt 3);
               (VStr "height", VInt 4)])
  /\ @parse_capacity CPython.runtime
       (VStr "{'length': 2, 'width': 3, 'height': 4}")
     = Ok (VDict [(VStr "length", VInt 2); (VStr "width", VInt 3);
                  (VStr "height", VInt 4)])
  /\ @parse_capacity CPython.runtime (VStr "{'length': 2")
     = Ok zero_capacity
  /\ @parse_capacity CPython.runtime (VStr "two by three")
     = Ok zero_capacity.
Proof.
  split; [| split; [| split]].
  - apply (@parse_capacity_spec CPython.runtime). reflexivity.
  - eapply (@parse_capacity_spec CPython.runtime); [reflexivity |].
    vm_compute. reflexivity.
  - eapply (@parse_capacity_spec CPython.runtime) with (e := SyntaxError);
      [reflexivity | vm_compute; reflexivity | right; reflexivity].
  - eapply (@parse_capacity_spec CPython.runtime) with (e := SyntaxError);
      [reflexivity | vm_compute; reflexivity | right; reflexivity].
Defined.

(** C10.  [parse_capacity] is the identity on every value that is not a
    string, and a string that evaluates to a literal that is not a
    dictionary comes back as that literal: ["42"] as the integer 42 and
    ["[1, 2]"] as the list [[1, 2]], not as a capacity record. *)
Theorem parse_capacity_any_literal :
  (forall (rt : Runtime) (capacity : pyval),
      is_str capacity = false -> parse_capacity capacity = Ok capacity)
  /\ (forall (rt : Runtime) (s : string) (v : pyval),
        ast_literal_eval s = Ok v -> is_dict v = false ->
        parse_capacity (VStr s) = Ok v)
  /\ @parse_capacity CPython.runtime VNone = Ok VNone
  /\ @parse_capacity CPython.runtime (VInt 7) = Ok (VInt 7)
  /\ @parse_capacity CPython.runtime (VList [VInt 1]) = Ok (VList [VInt 1])
  /\ @parse_capacity CPython.runtime (VStr "42") = Ok (VInt 42)
  /\ @parse_capacity CPython.runtime (VStr "[1, 2]")
     = Ok (VList [VInt 1; VInt 2]).
Proof.
  split; [| split].
  - intros rt capacity. apply parse_capacity_not_str.
  - intros rt s v E _. now apply parse_capacity_decoded.
  - repeat split; vm_compute; reflexivity.
Qed.

(** ** The utilization aggregator *)

Section Aggregator.

Context {rt : Runtime}.

Lemma bin_step_unfold (acc : pyval * pyval) (b : document) :
  bin_step acc b
  = (vol <- spec_volume b ;;
     total <- py_add (fst acc) vol ;;
     part <- py_mul vol (utilization_or_zero b) ;;
     used <- py_add (snd acc) part ;;
     Ok (total, used))%result.
Proof.
  unfold bin_step, spec_volume, utilization_or_zero.
  destruct (py_getitem (VDict b) "capacity") as [raw |]; simpl; trivial.
  destruct (parse_capacity raw) as [capacity |]; simpl; trivial.
  destruct (py_getitem capacity "length") as [l |]; simpl; trivial.
  destruct (py_getitem capacity "width") as [w |]; simpl; trivial.
  destruct (py_mul l w) as [lw |]; simpl; trivial.
  destruct (py_getitem capacity "height") as [h |]; simpl; trivial.
  destruct (py_mul lw h) as [vol |]; simpl; trivial.
  destruct (py_add (fst acc) vol) as [total |]; simpl; trivial.
  destruct (dict_get b "current_utilization"); reflexivity.
Qed.

(** The loop keeps two running sums: it ends well exactly when every
    volume and every used volume is defined and both sums are. *)
Lemma accumulate_sums (bins : list document) :
  forall t0 u0 t u,
    accumulate bins (t0, u0) = Ok (t, u)
    <-> exists vols parts,
          map_result spec_volume bins = Ok vols
          /\ map_result spec_used_volume bins = Ok parts
          /\ py_sum vols t0 = Ok t
          /\ py_sum parts u0 = Ok u.
Proof.
  induction bins as [| b bins IH]; intros t0 u0 t u; simpl.
  - split.
    + intros E. injection E as -> ->. exists [], []. repeat split.
    + intros (vols & parts & Ev & Ep & Et & Eu).
      injection Ev as <-. injection Ep as <-. simpl in *. congruence.
  - rewrite bin_step_unfold.
    change (spec_used_volume b)
      with (vol <- spec_volume b ;; py_mul vol (utilization_or_zero b))%result.
    destruct (spec_volume b) as [vol | e]; simpl.
    2:{ split; [discriminate |].
        intros (vols & parts & Ev & _). discriminate. }
    destruct (py_mul vol (utilization_or_zero b)) as [part | e] eqn:Epart;
      simpl.
    2:{ split.
        - destruct (py_add t0 vol); discriminate.
        - intros (vols & parts & _ & Ep & _). discriminate. }
    destruct (py_add t0 vol) as [t1 | e] eqn:Et1; simpl.
    2:{ split; [discriminate |].
        intros (vols & parts & Ev & _ & Et & _).
        destruct (map_result spec_volume bins); simpl in Ev; [| discriminate].
        injection Ev as <-. simpl in Et. rewrite Et1 in Et. discriminate. }
    destruct (py_add u0 part) as [u1 | e] eqn:Eu1; simpl.
    2:{ split; [discriminate |].
        intros (vols & parts & _ & Ep & _ & Eu).
        destruct (map_result spec_used_volume bins); simpl in Ep;
          [| discriminate].
        injection Ep as <-. simpl in Eu. rewrite Eu1 in Eu. discriminate. }
    rewrite IH. split.
    + intros (vols & parts & Ev & Ep & Et & Eu).
      exists (vol :: vols), (part :: parts).
      rewrite Ev, Ep. simpl. rewrite Et1, Eu1. auto.
    + intros (vols & parts & Ev & Ep & Et & Eu).
      destruct (map_result spec_volume bins) as [vs |]; simpl in Ev;
        [| discriminate].
      destruct (map_result spec_used_volume bins) as [ps |]; simpl in Ep;
        [| discriminate].
      injection Ev as <-. injection Ep as <-. simpl in Et, Eu.
      rewrite Et1 in Et. rewrite Eu1 in Eu. simpl in Et, Eu.
      exists vs, ps. auto.
Qed.

Lemma accumulate_totals (bins : list document) (t u : pyval) :
  accumulate bins (VInt 0, VInt 0) = Ok (t, u)
  <-> spec_total_capacity bins = Ok t /\ spec_used_capacity bins = Ok u.
Proof.
  rewrite accumulate_sums. unfold spec_total_capacity, spec_used_capacity.
  split.
  - intros (vols & parts & -> & -> & Et & Eu). auto.
  - intros [Et Eu].
    destruct (map_result spec_volume bins) as [vols |]; [| discriminate].
    destruct (map_result spec_used_volume bins) as [parts |];
      [| discriminate].
    exists vols, parts. auto.
Qed.

End Aggregator.

(** C2.  Over any sequence of bins the loop ends with [(t, u)] exactly
    when [t] is the sum of the bins' [length*width*height] (of the parsed
    capacity) and [u] the sum of [length*width*height*current_utilization],
    a missing [current_utilization] counting as 0.  For two bins of
    volumes 10 and 20 used to 0.5 and 0.25 the totals are 30 and 10, and
    the percentage is shown as 33.3. *)
Theorem aggregator_totals :
  (forall (rt : Runtime) (bins : list document) (t u : pyval),
      accumulate bins (VInt 0, VInt 0) = Ok (t, u)
      <-> spec_total_capacity bins = Ok t /\ spec_used_capacity bins = Ok u)
  /\ (forall (rt : Runtime) (b : document),
        dict_get b "current_utilization" = None ->
        spec_used_volume b
        = (vol <- spec_volume b ;; py_mul vol (VInt 0))%result)
  /\ @accumulate CPython.runtime two_bins (VInt 0, VInt 0)
     = Ok (VInt 30, VFloat 10)
  /\ utilization_percent (VInt 30) (VFloat 10)
     = Ok (VFloat (PrimFloat.mul (PrimFloat.div 10 30) 100))
  /\ py_format_1f (VFloat (PrimFloat.mul (PrimFloat.div 10 30) 100))
     = Ok "33.3"
  /\ fst (@dashboard CPython.runtime two_bins_world)
     = Rendered "index.html"
         [(VStr "items", VList []); (VStr "total_items", VInt 0);
          (VStr "zones", VList [VStr "A"]);
          (VStr "utilization", VStr "33.3%")].
Proof.
  split; [| split; [| split; [| split; [| split]]]].
  - intros rt bins t u. apply accumulate_totals.
  - intros rt b E. unfold spec_used_volume, utilization_or_zero.
    rewrite E. reflexivity.
  - vm_compute. reflexivity.
  - vm_compute. reflexivity.
  - vm_compute. reflexivity.
  - vm_compute. reflexivity.
Qed.

Lemma aggregator_totals_witness :
  @spec_total_capacity CPython.runtime two_bins = Ok (VInt 30)
  /\ @spec_used_capacity CPython.runtime two_bins = Ok (VFloat 10).
Proof.
  apply (proj1 aggregator_totals CPython.runtime two_bins).
  vm_compute. reflexivity.
Defined.

(** ** The percentage *)

Lemma to_float_no_zero_division (n : num) :
  to_float n <> Raise ZeroDivisionError.
Proof.
  destruct n as [z | f]; simpl; [| discriminate].
  unfold float_of_int.
  destruct (PrimFloat.is_infinity _); discriminate.
Qed.

Lemma num_binop_no_zero_division fz ff (a b : num) :
  num_binop fz ff a b <> Raise ZeroDivisionError.
Proof.
  pose proof (to_float_no_zero_division a) as Ha.
  pose proof (to_float_no_zero_division b) as Hb.
  destruct a, b; simpl in *; try discriminate;
    repeat match goal with
           | |- context [float_of_int ?z] =>
               destruct (float_of_int z) as [? | []]; simpl; try discriminate
           end; congruence.
Qed.

Lemma as_complex_no_zero_division (v : pyval) (r : result complex) :
  as_complex v = Some r -> r <> Raise ZeroDivisionError.
Proof.
  unfold as_complex.
  destruct v; simpl; intros E; try discriminate; injection E as <-;
    try discriminate;
    unfold float_of_int; destruct (PrimFloat.is_infinity _); discriminate.
Qed.

Lemma complex_binop_no_zero_division op (a b : pyval) :
  complex_binop op a b <> Raise ZeroDivisionError.
Proof.
  unfold complex_binop.
  destruct (as_complex a) as [ra |] eqn:Ea; [| discriminate].
  destruct (as_complex b) as [rb |] eqn:Eb; [| discriminate].
  pose proof (as_complex_no_zero_division _ _ Ea) as Ha.
  pose proof (as_complex_no_zero_division _ _ Eb) as Hb.
  destruct ra as [x | e]; simpl; [| congruence].
  destruct rb as [y | e]; simpl; [discriminate | congruence].
Qed.

Lemma py_mul_no_zero_division (a b : pyval) :
  py_mul a b <> Raise ZeroDivisionError.
Proof.
  unfold py_mul.
  destruct (is_complex a || is_complex b);
    [apply complex_binop_no_zero_division |].
  destruct (as_num a) as [[x | x] |], (as_num b) as [[y | y] |];
    try apply num_binop_no_zero_division; try discriminate;
    unfold seq_repeat;
    match goal with |- context [match ?v with _ => _ end] => destruct v end;
    discriminate.
Qed.

Lemma float_positive_not_zero (f : float) :
  float_gt_int f 0 = true -> PrimFloat.eqb f PrimFloat.zero = false.
Proof.
  unfold float_gt_int. rewrite FloatAxioms.eqb_spec.
  replace (Prim2SF PrimFloat.zero) with (S754_zero false)
    by (vm_compute; reflexivity).
  destruct (Prim2SF f) as [s | s | | s m e]; simpl; intros H.
  - discriminate.
  - destruct s; [discriminate | reflexivity].
  - discriminate.
  - destruct s; reflexivity.
Qed.

Lemma num_positive_not_zero (n : num) :
  num_gt_int n 0 = true -> num_is_zero n = false.
Proof.
  destruct n as [z | f]; simpl.
  - intros H. apply Z.ltb_lt in H. apply Z.eqb_neq. lia.
  - apply float_positive_not_zero.
Qed.

Lemma num_truediv_no_zero_division (a b : num) :
  num_gt_int b 0 = true -> num_truediv a b <> Raise ZeroDivisionError.
Proof.
  intros H. apply num_positive_not_zero in H.
  pose proof (to_float_no_zero_division a) as Ha.
  pose proof (to_float_no_zero_division b) as Hb.
  unfold num_truediv.
  destruct a as [x | x], b as [y | y]; simpl in *.
  - rewrite H. unfold int_true_divide.
    destruct (PrimFloat.is_infinity _); discriminate.
  - destruct (float_of_int x) as [? | []]; simpl; try discriminate;
      try congruence.
    rewrite H. discriminate.
  - rewrite H. destruct (float_of_int y) as [? | []]; simpl;
      try discriminate; congruence.
  - rewrite H. discriminate.
Qed.

(** A real number is not complex, and is its own divisor test. *)
Lemma as_num_real (v : pyval) (n : num) :
  as_num v = Some n ->
  is_complex v = false
  /\ divisor_is_zero v = num_is_zero n
  /\ as_complex v = Some (re <- to_float n ;; Ok (re, PrimFloat.zero))%result.
Proof.
  destruct v; simpl; intros E; try discriminate; injection E as <-;
    repeat split.
Qed.

Lemma py_truediv_no_zero_division (used total : pyval) :
  py_gt_int total 0 = Ok true ->
  py_truediv used total <> Raise ZeroDivisionError.
Proof.
  unfold py_gt_int.
  destruct (as_num total) as [n |] eqn:En; [| discriminate].
  intros G. injection G as G.
  destruct (as_num_real _ _ En) as (Real & Zero & Conv).
  unfold py_truediv. rewrite Real, orb_false_r, En.
  destruct (is_complex used).
  - rewrite Conv, Zero, (num_positive_not_zero _ G).
    destruct (as_complex used) as [ra |] eqn:Ea; [| discriminate].
    pose proof (as_complex_no_zero_division _ _ Ea) as Ha.
    pose proof (to_float_no_zero_division n) as Hn.
    destruct ra as [x | e]; simpl; [| congruence].
    destruct (to_float n) as [y | e]; simpl; [discriminate | congruence].
  - destruct (as_num used) as [m |]; [| discriminate].
    now apply num_truediv_no_zero_division.
Qed.

Lemma utilization_percent_no_zero_division `{Runtime} (total used : pyval) :
  utilization_percent total used <> Raise ZeroDivisionError.
Proof.
  unfold utilization_percent.
  destruct (py_gt_int total 0) as [[|] | e] eqn:G; simpl.
  - pose proof (py_truediv_no_zero_division used total G) as D.
    destruct (py_truediv used total) as [ratio | e]; simpl.
    + apply py_mul_no_zero_division.
    + congruence.
  - discriminate.
  - unfold py_gt_int in G. destruct (as_num total); [discriminate G |].
    injection G as <-. discriminate.
Qed.

(** ** The totals are numbers *)

Lemma complex_binop_number op (a b c : pyval) :
  complex_binop op a b = Ok c -> is_number c = true.
Proof.
  unfold complex_binop.
  destruct (as_complex a) as [[x |] |], (as_complex b) as [[y |] |]; simpl;
    try discriminate.
  intros E. injection E as <-. reflexivity.
Qed.

Lemma num_binop_number fz ff (x y : num) (c : pyval) :
  num_binop fz ff x y = Ok c -> is_number c = true.
Proof.
  destruct x, y; simpl;
    repeat match goal with
           | |- context [float_of_int ?z] => destruct (float_of_int z); simpl
           end;
    intros E; try discriminate; injection E as <-; reflexivity.
Qed.

Lemma py_add_number (a b c : pyval) :
  is_number a = true -> py_add a b = Ok c -> is_number c = true.
Proof.
  unfold py_add. intros Na.
  destruct (is_complex a || is_complex b) eqn:C;
    [apply complex_binop_number |].
  destruct (as_num a) as [x |] eqn:Ea.
  - destruct (as_num b) as [y |]; [apply num_binop_number |].
    destruct a; try discriminate; destruct b; discriminate.
  - destruct a; simpl in *; discriminate.
Qed.

(** A number that is not complex can be compared with 0. *)
Lemma real_number_compares (v : pyval) :
  is_number v = true -> is_complex v = false ->
  exists n, as_num v = Some n /\ py_gt_int v 0 = Ok (num_gt_int n 0).
Proof.
  unfold py_gt_int.
  destruct v; simpl; intros N C; try discriminate; eexists; split;
    reflexivity.
Qed.

Lemma complex_has_no_order (v : pyval) :
  is_complex v = true -> py_gt_int v 0 = Raise TypeError.
Proof. destruct v; simpl; intros C; try discriminate; reflexivity. Qed.

Section Percentage.

Context {rt : Runtime}.

(** When the loop ends well its totals are numbers. *)
Lemma accumulate_numeric (bins : list document) :
  forall t0 u0 t u,
    is_number t0 = true -> is_number u0 = true ->
    accumulate bins (t0, u0) = Ok (t, u) ->
    is_number t = true /\ is_number u = true.
Proof.
  induction bins as [| b bins IH]; intros t0 u0 t u Et Eu; simpl.
  - intros E. injection E as <- <-. auto.
  - rewrite bin_step_unfold. simpl.
    destruct (spec_volume b) as [vol |]; simpl; [| discriminate].
    destruct (py_add t0 vol) as [t1 |] eqn:E1; simpl; [| discriminate].
    destruct (py_mul vol (utilization_or_zero b)) as [part |]; simpl;
      [| discriminate].
    destruct (py_add u0 part) as [u1 |] eqn:E2; simpl; [| discriminate].
    apply (IH t1 u1 t u (py_add_number _ _ _ Et E1)
              (py_add_number _ _ _ Eu E2)).
Qed.

End Percentage.

(** ** What the percentage can be *)

Lemma num_truediv_float (m n : num) (r : pyval) :
  num_truediv m n = Ok r -> exists f, r = VFloat f.
Proof.
  unfold num_truediv.
  destruct m as [x | x], n as [y | y]; simpl;
    repeat match goal with
           | |- context [if ?c then _ else _] => destruct c; simpl
           | |- context [float_of_int ?z] => destruct (float_of_int z); simpl
           | |- context [int_true_divide ?a ?b] =>
               destruct (int_true_divide a b); simpl
           end;
    intros E; try discriminate; injection E as <-; eauto.
Qed.

(** A quotient is a float or a complex number, and so is its product
    with 100. *)
Lemma py_truediv_value (a b r : pyval) :
  py_truediv a b = Ok r ->
  (exists f, r = VFloat f) \/ (exists re im, r = VComplex re im).
Proof.
  unfold py_truediv. destruct (is_complex a || is_complex b).
  - destruct (as_complex a) as [[x |] |], (as_complex b) as [[y |] |];
      simpl; try discriminate.
    destruct (divisor_is_zero b); [discriminate |].
    intros E. injection E as <-. eauto.
  - destruct (as_num a) as [m |], (as_num b) as [n |]; try discriminate.
    intros E. left. eapply num_truediv_float, E.
Qed.

Lemma times_100_value (r p : pyval) :
  (exists f, r = VFloat f) \/ (exists re im, r = VComplex re im) ->
  py_mul r (VInt 100) = Ok p -> is_percentage p = true.
Proof.
  intros [[f ->] | (re & im & ->)]; unfold py_mul, complex_binop; simpl;
    intros E; now injection E as <-.
Qed.

Lemma utilization_percent_value `{Runtime} (total used p : pyval) :
  utilization_percent total used = Ok p -> is_percentage p = true.
Proof.
  unfold utilization_percent.
  destruct (py_gt_int total 0) as [[|] |]; simpl; [| | discriminate].
  - destruct (py_truediv used total) as [ratio |] eqn:D; simpl;
      [| discriminate].
    apply times_100_value. eapply py_truediv_value, D.
  - intros E. now injection E as <-.
Qed.

Lemma percentage_formats (p : pyval) :
  is_percentage p = true -> exists shown, py_format_1f p = Ok shown.
Proof.
  destruct p as [| | z | | | | | | | | |]; simpl; try discriminate;
    [destruct z; try discriminate | |]; intros _; eexists; reflexivity.
Qed.

(** ** Running a handler *)

Lemma handle_bind_lift_ok {A : Type} (r : result A) (a : A)
    (k : A -> M response) (h : exn -> response) (w : world) :
  r = Ok a -> handle (bind (lift r) k) h w = handle (k a) h w.
Proof. intros ->. reflexivity. Qed.

Lemma handle_bind_lift_raise {A : Type} (r : result A) (e : exn)
    (k : A -> M response) (h : exn -> response) (w : world) :
  r = Raise e -> handle (bind (lift r) k) h w = (h e, w).
Proof. intros ->. reflexivity. Qed.

Lemma handle_bind_gets {A : Type} (f : world -> A)
    (k : A -> M response) (h : exn -> response) (w : world) :
  handle (bind (gets f) k) h w = handle (k (f w)) h w.
Proof. reflexivity. Qed.

Lemma handle_ret (r : response) (h : exn -> response) (w : world) :
  handle (ret r) h w = (r, w).
Proof. reflexivity. Qed.

Lemma set_docs_same (c : collection) (w : world) : set_docs c (docs c w) w = w.
Proof. destruct w, c; reflexivity. Qed.

Lemma remove_first_none (p : document -> bool) (l : list document) :
  Forall (fun d => p d = false) l -> remove_first p l = l.
Proof.
  induction 1 as [| d l Hd _ IH]; simpl; [reflexivity |].
  rewrite Hd, IH. reflexivity.
Qed.

Lemma existsb_none {A : Type} (p : A -> bool) (l : list A) :
  Forall (fun d => p d = false) l -> existsb p l = false.
Proof.
  induction 1 as [| d l Hd _ IH]; simpl; [reflexivity |].
  rewrite Hd, IH. reflexivity.
Qed.

Lemma remove_first_absent (p : document -> bool) (l : list document) :
  existsb p l = false -> remove_first p l = l.
Proof.
  induction l as [| d l IH]; simpl; [reflexivity |].
  destruct (p d); simpl; [discriminate |].
  intros E. now rewrite IH.
Qed.

Lemma remove_first_split (p : document -> bool) (before after : list document)
    (d : document) :
  Forall (fun x => p x = false) before -> p d = true ->
  remove_first p (before ++ d :: after) = before ++ after
  /\ existsb p (before ++ d :: after) = true.
Proof.
  induction 1 as [| x l Hx _ IH]; simpl; intros Hd.
  - rewrite Hd. auto.
  - rewrite Hx. destruct (IH Hd) as [-> ->]. auto.
Qed.

Lemma find_everything (coll : list document) : find [] coll = coll.
Proof.
  unfold find. induction coll as [| d coll IH]; simpl; [reflexivity |].
  now rewrite IH.
Qed.

(** ** Deleting an item *)

Lemma bytes_eqb_eq (a b : list Byte.byte) : bytes_eqb a b = true <-> a = b.
Proof.
  revert b. induction a as [| x a IH]; intros [| y b]; simpl;
    try (split; [discriminate | discriminate]); [tauto |].
  rewrite andb_true_iff, IH. split.
  - intros [E ->]. apply Byte.byte_dec_bl in E. now subst.
  - intros E. injection E as -> ->. split; [now apply Byte.byte_dec_lb | auto].
Qed.

Lemma bson_eq_ObjectId (v : pyval) (o : list Byte.byte) :
  bson_eq v (VObjectId o) = true <-> v = VObjectId o.
Proof.
  split.
  - destruct v; simpl; try discriminate.
    intros E. apply bytes_eqb_eq in E. congruence.
  - intros ->. simpl. now apply bytes_eqb_eq.
Qed.

Lemma matches_by_id (o : list Byte.byte) (d : document) :
  matches (by_id o) d = true <-> dict_get d "_id" = Some (VObjectId o).
Proof.
  unfold matches, by_id. simpl. rewrite andb_true_r.
  destruct (dict_get d "_id") as [v |]; simpl.
  - rewrite bson_eq_ObjectId. split; congruence.
  - split; discriminate.
Qed.

Lemma not_matches_by_id (o : list Byte.byte) (d : document) :
  dict_get d "_id" <> Some (VObjectId o) -> matches (by_id o) d = false.
Proof.
  intros H. destruct (matches (by_id o) d) eqn:E; [| reflexivity].
  apply matches_by_id in E. contradiction.
Qed.

Lemma py_ObjectId_value (v x : pyval) :
  py_ObjectId v = Ok x -> exists o, x = VObjectId o.
Proof.
  destruct v; simpl; try discriminate.
  - destruct (Nat.eqb _ 24); [| discriminate].
    destruct (bytes_fromhex s); [| discriminate].
    intros E. injection E as <-. eauto.
  - intros E. injection E as <-. eauto.
Qed.

Lemma py_ObjectId_truthy (v : pyval) (o : list Byte.byte) :
  py_ObjectId v = Ok (VObjectId o) -> truthy v = true.
Proof.
  destruct v; simpl; try discriminate; [| reflexivity].
  destruct s; simpl; [discriminate | reflexivity].
Qed.

Section DeleteItem.

Context {rt : Runtime}.

Lemma delete_item_run (req : request) (w : world) (v : pyval)
    (o : list Byte.byte) :
  requested_item_id req = Ok v ->
  py_ObjectId v = Ok (VObjectId o) ->
  delete_item req w
  = (if existsb (matches (by_id o)) (inventory w)
     then Jsonify 200 (success_message "Item deleted")
     else Jsonify 404 (error_body "Item not found"),
     set_docs Inventory (remove_first (matches (by_id o)) (inventory w)) w).
Proof.
  intros Ev Eo. unfold delete_item, handle, bind, lift. rewrite Ev.
  rewrite (py_ObjectId_truthy _ _ Eo), Eo. unfold delete_one, by_id. simpl.
  destruct (existsb _ (inventory w)); reflexivity.
Qed.


(** C9.  Whatever the request and whatever its outcome, [delete_item]
    leaves the movement log as it was (and the warehouse layout too). *)
Theorem delete_item_writes_no_log (req : request) (w : world) :
  movement_logs (snd (delete_item req w)) = movement_logs w
  /\ warehouse_layout (snd (delete_item req w)) = warehouse_layout w.
Proof.
  unfold delete_item, handle, bind, lift.
  destruct (requested_item_id req) as [v | e]; simpl; [| auto].
  destruct (truthy v); simpl; [| auto].
  destruct (py_ObjectId v) as [oid | e]; simpl; [| auto].
  destruct (Z.eqb _ 0); simpl; auto.
Qed.

End DeleteItem.


(** ** Adding an item *)

Lemma first_missing_dict (body : document) (fields : list string) :
  first_missing fields (VDict body) = Ok (List.find (absent body) fields).
Proof.
  induction fields as [| f fields IH]; simpl; [reflexivity |].
  unfold absent at 1. destruct (dict_get body f); simpl; [exact IH | reflexivity].
Qed.

Lemma find_all_present (body : document) (fields : list string) :
  Forall (fun f => dict_get body f <> None) fields ->
  List.find (absent body) fields = None.
Proof.
  induction 1 as [| f fields Hf _ IH]; simpl; [reflexivity |].
  unfold absent at 1. destruct (dict_get body f); [exact IH | contradiction].
Qed.

Lemma find_first_absent (body : document) (before after : list string)
    (field : string) :
  Forall (fun f => dict_get body f <> None) before ->
  dict_get body field = None ->
  List.find (absent body) (before ++ field :: after) = Some field.
Proof.
  induction 1 as [| f fields Hf _ IH]; simpl; intros N.
  - unfold absent. rewrite N. reflexivity.
  - unfold absent at 1. destruct (dict_get body f); [auto | contradiction].
Qed.

Ltac step_result H :=
  match type of H with
  | rbind ?r _ = Ok _ =>
      let E := fresh "E" in
      destruct r eqn:E; simpl in H; [| discriminate H]
  end.

Section AddItem.

Context {rt : Runtime}.

(** What the dictionary literal holds once every coercion went through. *)
Lemma new_item_fields_shape (form_data : pyval) (fields : document) :
  new_item_fields form_data = Ok fields ->
  exists item_id item_name category length width height weight fragility
         expiry_date current_location,
    py_getitem form_data "item_id" = Ok item_id
    /\ py_getitem form_data "current_location" = Ok current_location
    /\ fields
       = [(VStr "item_id", item_id);
          (VStr "item_name", item_name);
          (VStr "category", category);
          (VStr "dimensions", VDict [(VStr "length", length);
                                     (VStr "width", width);
                                     (VStr "height", height)]);
          (VStr "weight", weight);
          (VStr "fragility", VBool fragility);
          (VStr "expiry_date", expiry_date);
          (VStr "current_location", current_location)].
Proof.
  unfold new_item_fields. intros H.
  do 12 step_result H. injection H as <-.
  repeat eexists; eassumption.
Qed.

(** C6 (amended).  For a JSON request whose object has every required
    field and whose values go through the coercions of lines 149-163,
    [add_item] answers with success, appends exactly one record to the
    inventory (the fields of the request as coerced, stamped with the
    entry date) and exactly one entry to the movement log, of type "in",
    at the item's location, with the order identifier "SYSTEM_ADD".  For
    one whose object has every required field and a value on which a
    coercion raises, it answers 500 with the text of that error and
    inserts nothing.  For a JSON request whose object lacks a required
    field, it answers 400 naming the first such field and changes
    nothing.  No answer other than success changes anything. *)
Theorem add_item_spec (req : request) (w : world) :
  (forall body fields,
      is_json req = true ->
      get_json req = Ok (VDict body) ->
      Forall (fun f => dict_get body f <> None) required_fields ->
      new_item_fields (VDict body) = Ok fields ->
      exists item_id location,
        dict_get body "item_id" = Some item_id
        /\ dict_get body "current_location" = Some location
        /\ add_item req w
           = (Jsonify 200 (success_message "Item added successfully"),
              mkWorld
                (inventory w
                 ++ [(VStr "_id", VObjectId (oid_bytes (oid_supply w)))
                     :: fields
                     ++ [(VStr "entry_date",
                          VDatetime (clock w (ticks w)))]])
                (warehouse_layout w)
                (movement_logs w
                 ++ [[(VStr "_id", VObjectId (oid_bytes (oid_supply w + 1)));
                      (VStr "item_id", item_id);
                      (VStr "timestamp", VDatetime (clock w (S (ticks w))));
                      (VStr "movement_type", VStr "in");
                      (VStr "location", location);
                      (VStr "order_id", VStr "SYSTEM_ADD")]])
                (clock w) (S (S (ticks w))) (oid_supply w + 1 + 1)))
  /\ (forall body e,
        is_json req = true ->
        get_json req = Ok (VDict body) ->
        Forall (fun f => dict_get body f <> None) required_fields ->
        new_item_fields (VDict body) = Raise e ->
        add_item req w = (Jsonify 500 (error_body (exn_str e)), w))
  /\ (forall body before field after,
        is_json req = true ->
        get_json req = Ok (VDict body) ->
        required_fields = before ++ field :: after ->
        Forall (fun f => dict_get body f <> None) before ->
        dict_get body field = None ->
        add_item req w
        = (Jsonify 400 (error_body ("Missing required field: " ++ field)),
           w))
  /\ (forall r w', add_item req w = (r, w') -> status_code r <> 200 ->
        w' = w).
Proof.
  split; [| split; [| split]].
  - intros body fields J G Present F.
    destruct (new_item_fields_shape _ _ F)
      as (item_id & item_name & category & length & width & height & weight
          & fragility & expiry_date & location & Eid & Eloc & ->).
    exists item_id, location.
    simpl in Eid, Eloc.
    destruct (dict_get body "item_id") as [x |] eqn:Dx; [| discriminate].
    destruct (dict_get body "current_location") as [y |] eqn:Dy;
      [| discriminate].
    injection Eid as ->. injection Eloc as ->.
    split; [reflexivity | split; [reflexivity |]].
    unfold add_item, handle, bind, lift. rewrite J, G.
    rewrite first_missing_dict, (find_all_present _ _ Present), F.
    reflexivity.
  - intros body e J G Present F.
    unfold add_item, handle, bind, lift. rewrite J, G.
    rewrite first_missing_dict, (find_all_present _ _ Present), F.
    reflexivity.
  - intros body before field after J G R Before N.
    unfold add_item, handle, bind, lift. rewrite J, G.
    rewrite first_missing_dict, R, (find_first_absent _ _ _ _ Before N).
    reflexivity.
  - intros r w'. unfold add_item, handle, bind, lift.
    destruct (is_json req); [| intros E _; now injection E].
    destruct (get_json req) as [form_data |]; [| intros E _; now injection E].
    destruct (first_missing required_fields form_data) as [[field |] |];
      try (intros E _; now injection E).
    destruct (new_item_fields form_data) as [fields |] eqn:F;
      [| intros E _; now injection E].
    destruct (new_item_fields_shape _ _ F)
      as (item_id & item_name & category & length & width & height & weight
          & fragility & expiry_date & location & _ & _ & ->).
    simpl. intros E S. injection E as <- _. simpl in S. contradiction.
Qed.

End AddItem.

(** C6, as stated, fails: a request that has all six required fields,
    with a weight that is not a number, is answered 500 and neither an
    item nor a log entry is inserted. *)
Lemma add_item_heavy_weight :
  forallb (fun f => negb (absent heavy_body f)) required_fields = true
  /\ @add_item CPython.runtime (json_request (VDict heavy_body)) small_world
     = (Jsonify 500 (error_body "ValueError"), small_world)
  /\ inventory (snd (@add_item CPython.runtime
                       (json_request (VDict heavy_body)) small_world))
     = inventory small_world
  /\ movement_logs (snd (@add_item CPython.runtime
                           (json_request (VDict heavy_body)) small_world))
     = movement_logs small_world.
Proof. repeat split; vm_compute; reflexivity. Qed.

Lemma add_item_spec_witness :
  (exists item_id location,
      dict_get nut_body "item_id" = Some item_id
      /\ dict_get nut_body "current_location" = Some location
      /\ @add_item CPython.runtime (json_request (VDict nut_body)) small_world
         = (Jsonify 200 (success_message "Item added successfully"),
            mkWorld
              (inventory small_world
               ++ [(VStr "_id", VObjectId (oid_bytes (oid_supply small_world)))
                   :: nut_fields
                   ++ [(VStr "entry_date",
                        VDatetime (clock small_world (ticks small_world)))]])
              (warehouse_layout small_world)
              (movement_logs small_world
               ++ [[(VStr "_id",
                     VObjectId (oid_bytes (oid_supply small_world + 1)));
                    (VStr "item_id", item_id);
                    (VStr "timestamp",
                     VDatetime (clock small_world (S (ticks small_world))));
                    (VStr "movement_type", VStr "in");
                    (VStr "location", location);
                    (VStr "order_id", VStr "SYSTEM_ADD")]])
              (clock small_world) (S (S (ticks small_world)))
              (oid_supply small_world + 1 + 1)))
  /\ @add_item CPython.runtime
       (json_request (VDict [(VStr "item_id", VStr "N-1");
                             (VStr "category", VStr "parts")]))
       small_world
     = (Jsonify 400 (error_body ("Missing required field: " ++ "item_name")),
        small_world)
  /\ @add_item CPython.runtime (json_request (VDict heavy_body)) small_world
     = (Jsonify 500 (error_body "ValueError"), small_world).
Proof.
  split; [| split].
  - apply (proj1 (@add_item_spec CPython.runtime
                    (json_request (VDict nut_body)) small_world)).
    + reflexivity.
    + reflexivity.
    + repeat constructor; discriminate.
    + vm_compute. reflexivity.
  - apply (proj1 (proj2 (proj2 (@add_item_spec CPython.runtime
                    (json_request (VDict [(VStr "item_id", VStr "N-1");
                                          (VStr "category", VStr "parts")]))
                    small_world))))
      with (body := [(VStr "item_id", VStr "N-1");
                     (VStr "category", VStr "parts")])
           (before := ["item_id"])
           (after := ["category"; "dimensions"; "weight"; "current_location"]).
    + reflexivity.
    + reflexivity.
    + reflexivity.
    + repeat constructor; discriminate.
    + reflexivity.
  - apply (proj1 (proj2 (@add_item_spec CPython.runtime
                    (json_request (VDict heavy_body)) small_world)))
      with (body := heavy_body) (e := ValueError).
    + reflexivity.
    + reflexivity.
    + repeat constructor; discriminate.
    + vm_compute. reflexivity.
Defined.

(** ** The statistics *)

Lemma matches_expiry_range (lower upper : Z) (item : document) :
  matches [("expiry_date", Range (VDatetime upper) (VDatetime lower))] item
  = in_window lower upper item.
Proof.
  unfold matches, in_window. simpl. rewrite andb_true_r.
  destruct (dict_get item "expiry_date") as [v |]; simpl; [| reflexivity].
  destruct v; simpl; try reflexivity. apply andb_comm.
Qed.

(** The count, whatever the clock does between its two readings: the
    window opens at the second reading and closes seven days after the
    first. *)
Lemma expiring_soon_two_readings (w : world) :
  fst (expiring_soon w)
  = Ok (Z.of_nat (List.length
                    (filter (in_window (clock w (S (ticks w)))
                                       (clock w (ticks w) + seven_days))
                            (inventory w)))).
Proof.
  unfold expiring_soon, bind, datetime_now, lift, gets, count_documents, find.
  simpl. f_equal. f_equal. f_equal.
  apply filter_ext. intros item. apply matches_expiry_range.
Qed.

Section Stats.

Context {rt : Runtime}.

Lemma zone_stats_reads_only (zones : list pyval) (w : world) :
  snd (zone_stats zones w) = w.
Proof.
  induction zones as [| zone zones IH]; simpl; [reflexivity |].
  unfold bind, gets, lift. simpl.
  destruct (field_filter zone) as [in_zone |]; simpl; [| reflexivity].
  destruct (accumulate _ _) as [totals |]; simpl; [| reflexivity].
  destruct (utilization_percent _ _) as [u |]; simpl; [| reflexivity].
  destruct (py_format_1f u) as [shown |]; simpl; [| reflexivity].
  destruct (zone_stats zones w) as [[others |] w'] eqn:E; simpl in *;
    congruence.
Qed.

(** The statistics endpoint, once the loop over the zones and the JSON
    round trip of the categories went through. *)
Lemma get_warehouse_stats_run (w : world) (zones : list pyval)
    (categories : pyval) :
  fst (zone_stats (distinct "zone_id" (warehouse_layout w)) w) = Ok zones ->
  parse_json (VList (map VDict (aggregate_count "category" (inventory w))))
  = Ok categories ->
  get_warehouse_stats w
  = (Jsonify 200
       (VDict [(VStr "zones", VList zones);
               (VStr "categories", categories);
               (VStr "total_items",
                VInt (Z.of_nat (List.length (inventory w))));
               (VStr "expiring_soon",
                VInt (Z.of_nat
                        (List.length
                           (filter (in_window
                                      (clock w (S (ticks w)))
                                      (clock w (ticks w) + seven_days))
                                   (inventory w)))))]),
     mkWorld (inventory w) (warehouse_layout w) (movement_logs w)
             (clock w) (S (S (ticks w))) (oid_supply w)).
Proof.
  intros Zs J. unfold get_warehouse_stats, handle.
  unfold bind at 1. unfold gets at 1. unfold bind at 1.
  pose proof (zone_stats_reads_only
                (distinct "zone_id" (warehouse_layout w)) w) as R.
  destruct (zone_stats _ w) as [[zs | e] w0]; simpl in Zs, R; subst w0;
    [| discriminate].
  injection Zs as ->.
  unfold expiring_soon, bind, gets, lift, ret, datetime_now,
    count_documents.
  simpl. rewrite J. simpl. rewrite find_everything.
  unfold find.
  erewrite filter_ext; [reflexivity |].
  intros item. apply matches_expiry_range.
Qed.

(** What the loop over the zones answers when one of its steps raises. *)
Lemma get_warehouse_stats_zone_error (w : world) (e : exn) :
  fst (zone_stats (distinct "zone_id" (warehouse_layout w)) w) = Raise e ->
  get_warehouse_stats w = (Jsonify 500 (error_body (exn_str e)), w).
Proof.
  intros Zs. unfold get_warehouse_stats, handle.
  unfold bind at 1. unfold gets at 1. unfold bind at 1.
  pose proof (zone_stats_reads_only
                (distinct "zone_id" (warehouse_layout w)) w) as R.
  destruct (zone_stats _ w) as [[zs | e'] w0]; simpl in Zs, R; subst w0;
    [discriminate |].
  injection Zs as ->. reflexivity.
Qed.

(** C7 (amended).  The count of items expiring soon is the number of
    items whose expiry date lies in the half-open window that opens at
    the second reading of the clock and closes seven days after the
    first reading (the upper bound is built first): an expiry equal to
    the second reading is inside whenever the window is not empty, one
    equal to the first reading plus seven days is outside.  The
    statistics endpoint, when its other parts go through, answers with
    that count as [expiring_soon].  When both readings give the same
    instant [now], the window is [[now, now + 7 days)]: an expiry equal
    to [now] is counted, one equal to [now + 7 days] is not. *)
Theorem expiring_soon_window (w : world) :
  fst (expiring_soon w)
  = Ok (Z.of_nat (List.length
                    (filter (in_window (clock w (S (ticks w)))
                                       (clock w (ticks w) + seven_days))
                            (inventory w))))
  /\ (forall item,
        dict_get item "expiry_date"
        = Some (VDatetime (clock w (S (ticks w)))) ->
        clock w (S (ticks w)) < clock w (ticks w) + seven_days ->
        in_window (clock w (S (ticks w))) (clock w (ticks w) + seven_days)
                  item = true)
  /\ (forall item,
        dict_get item "expiry_date"
        = Some (VDatetime (clock w (ticks w) + seven_days)) ->
        in_window (clock w (S (ticks w))) (clock w (ticks w) + seven_days)
                  item = false)
  /\ (forall zones categories,
        fst (zone_stats (distinct "zone_id" (warehouse_layout w)) w)
        = Ok zones ->
        parse_json (VList (map VDict (aggregate_count "category"
                                                      (inventory w))))
        = Ok categories ->
        fst (get_warehouse_stats w)
        = Jsonify 200
            (VDict [(VStr "zones", VList zones);
                    (VStr "categories", categories);
                    (VStr "total_items",
                     VInt (Z.of_nat (List.length (inventory w))));
                    (VStr "expiring_soon",
                     VInt (Z.of_nat
                             (List.length
                                (filter (in_window
                                           (clock w (S (ticks w)))
                                           (clock w (ticks w) + seven_days))
                                        (inventory w)))))]))
  /\ (forall now,
        clock w (ticks w) = now -> clock w (S (ticks w)) = now ->
        fst (expiring_soon w)
        = Ok (Z.of_nat (List.length (filter (expires_within_week now)
                                            (inventory w))))
        /\ (forall item,
              dict_get item "expiry_date" = Some (VDatetime now) ->
              expires_within_week now item = true)
        /\ (forall item,
              dict_get item "expiry_date"
              = Some (VDatetime (now + seven_days)) ->
              expires_within_week now item = false)
        /\ (forall item, inventory w = [item] ->
              dict_get item "expiry_date" = Some (VDatetime now) ->
              fst (expiring_soon w) = Ok 1)
        /\ (forall item, inventory w = [item] ->
              dict_get item "expiry_date"
              = Some (VDatetime (now + seven_days)) ->
              fst (expiring_soon w) = Ok 0)).
Proof.
  assert (forall lower upper item,
             dict_get item "expiry_date" = Some (VDatetime lower) ->
             lower < upper -> in_window lower upper item = true) as Lower.
  { intros lower upper item E L. unfold in_window. rewrite E.
    apply andb_true_intro. split; [apply Z.leb_refl | now apply Z.ltb_lt]. }
  assert (forall lower upper item,
             dict_get item "expiry_date" = Some (VDatetime upper) ->
             in_window lower upper item = false) as Upper.
  { intros lower upper item E. unfold in_window. rewrite E.
    rewrite Z.ltb_irrefl. apply andb_false_r. }
  split; [apply expiring_soon_two_readings |].
  split; [intros item; apply Lower |].
  split; [intros item; apply Upper |].
  split.
  - intros zones categories Zs J.
    now rewrite (get_warehouse_stats_run w zones categories Zs J).
  - intros now T1 T2.
    assert (fst (expiring_soon w)
            = Ok (Z.of_nat (List.length (filter (expires_within_week now)
                                                (inventory w))))) as Count.
    { rewrite expiring_soon_two_readings, T1, T2. reflexivity. }
    assert (forall item,
               dict_get item "expiry_date" = Some (VDatetime now) ->
               expires_within_week now item = true) as In.
    { intros item E. apply Lower; [exact E |]. unfold seven_days. lia. }
    assert (forall item,
               dict_get item "expiry_date"
               = Some (VDatetime (now + seven_days)) ->
               expires_within_week now item = false) as Out.
    { intros item E. now apply Upper. }
    split; [exact Count | split; [exact In | split; [exact Out |]]].
    split.
    + intros item Inv E. rewrite Count, Inv. simpl.
      rewrite (In item E). reflexivity.
    + intros item Inv E. rewrite Count, Inv. simpl.
      rewrite (Out item E). reflexivity.
Qed.

End Stats.

(** C7, as stated, fails: the handler reads the clock twice.  With a
    clock that moves by one unit between the two readings (1000, then
    1001), of three items expiring never, at 1000 and at 1000 + 7 days,
    none is counted, although one expiry lies within seven days of
    either reading, the first of which it equals. *)
Lemma expiring_soon_two_instants :
  clock running_world 0 = 1000
  /\ clock running_world 1 = 1001
  /\ fst (expiring_soon running_world) = Ok 0
  /\ List.length (filter (expires_within_week 1000)
                         (inventory running_world)) = 1%nat
  /\ List.length (filter (expires_within_week 1001)
                         (inventory running_world)) = 1%nat
  /\ dict_get item_gadget "expiry_date" = Some (VDatetime 1000)
  /\ In item_gadget (inventory running_world)
  /\ exists body w',
       @get_warehouse_stats CPython.runtime running_world
       = (Jsonify 200 body, w')
       /\ py_getitem body "expiring_soon" = Ok (VInt 0).
Proof.
  split; [reflexivity | split; [reflexivity |]].
  split; [vm_compute; reflexivity |].
  split; [vm_compute; reflexivity |].
  split; [vm_compute; reflexivity |].
  split; [reflexivity |].
  split; [simpl; auto |].
  eexists. eexists. split; vm_compute; reflexivity.
Qed.

Lemma expiring_soon_window_witness :
  fst (@get_warehouse_stats CPython.runtime small_world)
  = Jsonify 200
      (VDict [(VStr "zones",
               VList [VDict [(VStr "name", VStr "A");
                             (VStr "utilization", VStr "25.0");
                             (VStr "bins", VInt 1)]]);
              (VStr "categories",
               VList [VDict [(VStr "_id", VStr "tools");
                             (VStr "count", VInt 2)];
                      VDict [(VStr "_id", VStr "misc");
                             (VStr "count", VInt 1)]]);
              (VStr "total_items",
               VInt (Z.of_nat (List.length (inventory small_world))));
              (VStr "expiring_soon",
               VInt (Z.of_nat
                       (List.length
                          (filter (in_window
                                     (clock small_world
                                            (S (ticks small_world)))
                                     (clock small_world (ticks small_world)
                                      + seven_days))
                                  (inventory small_world)))))]).
Proof.
  apply (proj1 (proj2 (proj2 (proj2
           (@expiring_soon_window CPython.runtime small_world)))));
    vm_compute; reflexivity.
Defined.

(** In [small_world] the clock reads 1000 both times: of its three items
    one has no expiry date, one expires at 1000 and one at 1000 + 7 days;
    only the second is counted. *)
Lemma expiring_soon_boundaries :
  fst (expiring_soon small_world) = Ok 1
  /\ map (expires_within_week 1000) (inventory small_world)
     = [false; true; false]
  /\ exists body w',
       @get_warehouse_stats CPython.runtime small_world
       = (Jsonify 200 body, w')
       /\ py_getitem body "expiring_soon" = Ok (VInt 1).
Proof.
  split; [| split].
  - vm_compute. reflexivity.
  - vm_compute. reflexivity.
  - eexists. eexists. split; vm_compute; reflexivity.
Qed.

(** ** The percentage in the two handlers *)

Section Guard.

Context {rt : Runtime}.

Lemma utilization_shown (total used p : pyval) (shown : string) :
  utilization_percent total used = Ok p ->
  py_format_1f p = Ok shown ->
  shown_percent total used shown.
Proof.
  unfold utilization_percent, shown_percent.
  destruct (py_gt_int total 0) as [[|] |]; simpl; [| | discriminate].
  - destruct (py_truediv used total) as [ratio |]; simpl; [| discriminate].
    intros P F. left. split; [reflexivity |]. exists ratio, p. auto.
  - intros P F. injection P as <-. right. split; [reflexivity |].
    vm_compute in F. now injection F as <-.
Qed.

Lemma shown_percent_computes (total used : pyval) (shown : string) :
  shown_percent total used shown ->
  exists p, utilization_percent total used = Ok p
            /\ py_format_1f p = Ok shown.
Proof.
  unfold utilization_percent.
  intros [(G & ratio & p & D & P & F) | [G ->]]; rewrite G; simpl.
  - rewrite D. simpl. eauto.
  - exists (VInt 0). split; [reflexivity | vm_compute; reflexivity].
Qed.

(** The dashboard, once the loop over the bins went through. *)
Lemma dashboard_run (w : world) (total used : pyval) :
  accumulate (warehouse_layout w) (VInt 0, VInt 0) = Ok (total, used) ->
  dashboard w
  = (match utilization_percent total used with
     | Ok p =>
         match parse_json (VList (map VDict
                                      (limit 10 (sort_desc "entry_date"
                                                           (inventory w)))))
         with
         | Ok items_json =>
             match py_format_1f p with
             | Ok shown =>
                 Rendered "index.html"
                   [(VStr "items", items_json);
                    (VStr "total_items",
                     VInt (Z.of_nat (List.length (inventory w))));
                    (VStr "zones",
                     VList (distinct "zone_id" (warehouse_layout w)));
                    (VStr "utilization", VStr (shown ++ "%"))]
             | Raise e => Plain 500 ("Error loading dashboard: " ++ exn_str e)
             end
         | Raise e => Plain 500 ("Error loading dashboard: " ++ exn_str e)
         end
     | Raise e => Plain 500 ("Error loading dashboard: " ++ exn_str e)
     end, w).
Proof.
  intros A.
  unfold dashboard, handle, bind, gets, lift, ret, count_documents.
  rewrite !find_everything, A. simpl fst. simpl snd.
  destruct (utilization_percent total used); [| reflexivity].
  destruct (parse_json _); [| reflexivity].
  destruct (py_format_1f _); reflexivity.
Qed.

(** The loop over the zones answers with the entries of the zones, in
    order, and only with them. *)
Lemma zone_stats_entries (w : world) (zones entries : list pyval) :
  fst (zone_stats zones w) = Ok entries
  <-> Forall2 (zone_entry w) zones entries.
Proof.
  revert entries. induction zones as [| zone zones IH]; intros entries.
  - simpl. split.
    + intros E. injection E as <-. constructor.
    + intros F. inversion F. reflexivity.
  - simpl. unfold bind, gets, lift. simpl.
    pose proof (zone_stats_reads_only zones w) as R.
    split.
    + destruct (field_filter zone) as [in_zone |] eqn:Q; simpl;
        [| discriminate].
      destruct (accumulate _ _) as [[total used] |] eqn:A; simpl;
        [| discriminate].
      destruct (utilization_percent total used) as [p |] eqn:P; simpl;
        [| discriminate].
      destruct (py_format_1f p) as [shown |] eqn:F; simpl; [| discriminate].
      destruct (zone_stats zones w) as [[others |] w'] eqn:Z; simpl in *;
        [| discriminate].
      intros E. injection E as <-. constructor.
      * exists in_zone, total, used, shown.
        repeat split; try assumption.
        eapply utilization_shown; eassumption.
      * apply IH. reflexivity.
    + intros F. inversion F as [| ? entry ? others Hz Hrest]; subst.
      destruct Hz as (in_zone & total & used & shown & Q & A & S & ->).
      destruct (shown_percent_computes _ _ _ S) as (p & P & Fm).
      apply IH in Hrest.
      rewrite Q. simpl. rewrite A. simpl. rewrite P. simpl.
      rewrite Fm. simpl.
      destruct (zone_stats zones w) as [[others' |] w'] eqn:Z; simpl in *;
        [| discriminate].
      injection Hrest as ->. reflexivity.
Qed.

End Guard.

(** C3.  The percentage is [used/total*100] when [total > 0] and 0 when
    it is not, and computing it never raises [ZeroDivisionError]; a total
    that cannot be compared with 0 (the loop can end with a complex one,
    from a capacity text with an imaginary side) is a [TypeError].  Both
    handlers follow the rule.  The dashboard, once the loop over the
    layout gave its totals and the items went through the JSON round
    trip, shows 0.0% when the total is not above 0 and [used/total*100]
    to one decimal when it is.  The loop over the zones answers exactly
    with one entry per zone holding the percentage over the zone's bins,
    and the statistics endpoint returns those entries.  With no bin at
    all the dashboard shows 0.0% and the statistics list no zone. *)
Theorem utilization_percent_guarded :
  (forall (rt : Runtime) (total used : pyval),
      (py_gt_int total 0 = Ok true ->
       utilization_percent total used
       = (ratio <- py_truediv used total ;;
          py_mul ratio (VInt 100))%result)
      /\ (py_gt_int total 0 = Ok false ->
          utilization_percent total used = Ok (VInt 0))
      /\ (forall e, py_gt_int total 0 = Raise e ->
            e = TypeError
            /\ utilization_percent total used = Raise TypeError)
      /\ utilization_percent total used <> Raise ZeroDivisionError)
  /\ (forall (rt : Runtime) (bins : list document) (total used : pyval),
        accumulate bins (VInt 0, VInt 0) = Ok (total, used) ->
        (is_complex total = false ->
         exists positive, py_gt_int total 0 = Ok positive)
        /\ (is_complex total = true ->
            utilization_percent total used = Raise TypeError))
  /\ (forall (rt : Runtime) (w : world) (total used items_json : pyval),
        accumulate (warehouse_layout w) (VInt 0, VInt 0)
        = Ok (total, used) ->
        parse_json (VList (map VDict (limit 10 (sort_desc "entry_date"
                                                  (inventory w)))))
        = Ok items_json ->
        (py_gt_int total 0 = Ok false ->
         dashboard w
         = (Rendered "index.html"
              [(VStr "items", items_json);
               (VStr "total_items",
                VInt (Z.of_nat (List.length (inventory w))));
               (VStr "zones",
                VList (distinct "zone_id" (warehouse_layout w)));
               (VStr "utilization", VStr "0.0%")],
            w))
        /\ (forall ratio p,
              py_gt_int total 0 = Ok true ->
              py_truediv used total = Ok ratio ->
              py_mul ratio (VInt 100) = Ok p ->
              exists shown,
                py_format_1f p = Ok shown
                /\ dashboard w
                   = (Rendered "index.html"
                        [(VStr "items", items_json);
                         (VStr "total_items",
                          VInt (Z.of_nat (List.length (inventory w))));
                         (VStr "zones",
                          VList (distinct "zone_id" (warehouse_layout w)));
                         (VStr "utilization", VStr (shown ++ "%"))],
                      w)))
  /\ (forall (rt : Runtime) (w : world) (zones entries : list pyval),
        fst (zone_stats zones w) = Ok entries
        <-> Forall2 (zone_entry w) zones entries)
  /\ (forall (rt : Runtime) (w : world) (entries : list pyval)
             (categories : pyval),
        Forall2 (zone_entry w) (distinct "zone_id" (warehouse_layout w))
                entries ->
        parse_json (VList (map VDict (aggregate_count "category"
                                                      (inventory w))))
        = Ok categories ->
        exists body w',
          get_warehouse_stats w = (Jsonify 200 body, w')
          /\ py_getitem body "zones" = Ok (VList entries))
  /\ (forall (rt : Runtime) (w : world) (items_json : pyval),
        warehouse_layout w = [] ->
        parse_json (VList (map VDict (limit 10 (sort_desc "entry_date"
                                                  (inventory w)))))
        = Ok items_json ->
        dashboard w
        = (Rendered "index.html"
             [(VStr "items", items_json);
              (VStr "total_items",
               VInt (Z.of_nat (List.length (inventory w))));
              (VStr "zones", VList []);
              (VStr "utilization", VStr "0.0%")],
           w))
  /\ (forall (rt : Runtime) (w : world),
        warehouse_layout w = [] ->
        fst (zone_stats (distinct "zone_id" (warehouse_layout w)) w)
        = Ok [])
  /\ fst (@dashboard CPython.runtime empty_world)
     = Rendered "index.html"
         [(VStr "items", VList []); (VStr "total_items", VInt 0);
          (VStr "zones", VList []); (VStr "utilization", VStr "0.0%")]
  /\ @accumulate CPython.runtime [imaginary_bin] (VInt 0, VInt 0)
     = Ok (VComplex 0 1, VComplex 0 0)
  /\ fst (@dashboard CPython.runtime
            (mkWorld [] [imaginary_bin] [] never 0 0))
     = Plain 500 "Error loading dashboard: TypeError".
Proof.
  split; [| split; [| split; [| split; [| split; [| split; [| split]]]]]].
  - intros rt total used. unfold utilization_percent.
    split; [| split; [| split]].
    + intros ->. reflexivity.
    + intros ->. reflexivity.
    + intros e G. rewrite G. simpl. unfold py_gt_int in G.
      destruct (as_num total); [discriminate G |].
      injection G as <-. auto.
    + apply utilization_percent_no_zero_division.
  - intros rt bins total used A.
    destruct (accumulate_numeric bins (VInt 0) (VInt 0) total used
                eq_refl eq_refl A) as [Nt _].
    split.
    + intros Real.
      destruct (real_number_compares total Nt Real) as (n & _ & G). eauto.
    + intros C. unfold utilization_percent.
      now rewrite (complex_has_no_order total C).
  - intros rt w total used items_json A J.
    rewrite (dashboard_run w total used A), J.
    unfold utilization_percent. split.
    + intros ->. reflexivity.
    + intros ratio p -> D P. simpl. rewrite D. simpl. rewrite P.
      destruct (percentage_formats p
                  (times_100_value _ _ (py_truediv_value _ _ _ D) P))
        as [shown F].
      exists shown. rewrite F. auto.
  - intros rt w zones entries. apply zone_stats_entries.
  - intros rt w entries categories F J.
    apply zone_stats_entries in F.
    rewrite (get_warehouse_stats_run w entries categories F J).
    eexists. eexists. split; reflexivity.
  - intros rt w items_json L J.
    rewrite (dashboard_run w (VInt 0) (VInt 0)) by (rewrite L; reflexivity).
    rewrite J, L. reflexivity.
  - intros rt w ->. reflexivity.
  - split; [| split]; vm_compute; reflexivity.
Qed.

Lemma utilization_percent_guarded_witness :
  exists shown,
    py_format_1f (VFloat (PrimFloat.mul (PrimFloat.div 10 30) 100))
    = Ok shown
    /\ @dashboard CPython.runtime two_bins_world
       = (Rendered "index.html"
            [(VStr "items", VList []);
             (VStr "total_items",
              VInt (Z.of_nat (List.length (inventory two_bins_world))));
             (VStr "zones",
              VList (distinct "zone_id" (warehouse_layout two_bins_world)));
             (VStr "utilization", VStr (shown ++ "%"))],
          two_bins_world).
Proof.
  apply (proj2 (proj1 (proj2 (proj2 utilization_percent_guarded))
                  CPython.runtime two_bins_world (VInt 30) (VFloat 10)
                  (VList []) ltac:(vm_compute; reflexivity)
                  ltac:(vm_compute; reflexivity))
           (VFloat (PrimFloat.div 10 30)));
    vm_compute; reflexivity.
Defined.

(** ** Sorting and limiting *)

Lemma key_le_total (a b : option Z) : key_le a b = true \/ key_le b a = true.
Proof.
  destruct a as [x |], b as [y |]; simpl; auto.
  destruct (Z.leb_spec x y); [auto |].
  right. apply Z.leb_le. lia.
Qed.

Lemma key_le_trans (a b c : option Z) :
  key_le a b = true -> key_le b c = true -> key_le a c = true.
Proof.
  destruct a as [x |], b as [y |], c as [z |]; simpl; try congruence.
  rewrite !Z.leb_le. lia.
Qed.

Lemma insert_desc_perm (field : string) (x : document) (l : list document) :
  Permutation (insert_desc field x l) (x :: l).
Proof.
  induction l as [| y l IH]; simpl; [reflexivity |].
  destruct (key_le _ _); [reflexivity |].
  rewrite IH. apply perm_swap.
Qed.

Lemma sort_desc_perm (field : string) (l : list document) :
  Permutation (sort_desc field l) l.
Proof.
  induction l as [| x l IH]; simpl; [reflexivity |].
  rewrite insert_desc_perm. now apply perm_skip.
Qed.

Lemma insert_desc_sorted (field : string) (x : document) (l : list document) :
  StronglySorted (newer_first field) l ->
  StronglySorted (newer_first field) (insert_desc field x l).
Proof.
  induction 1 as [| y l Sl IH Hy]; simpl.
  - repeat constructor.
  - destruct (key_le (date_key field y) (date_key field x)) eqn:E.
    + constructor; [constructor; assumption |].
      constructor; [exact E |].
      eapply Forall_impl; [| exact Hy].
      intros z Hz. unfold newer_first in *. eapply key_le_trans; eassumption.
    + constructor; [exact IH |].
      rewrite insert_desc_perm. constructor; [| exact Hy].
      unfold newer_first.
      destruct (key_le_total (date_key field y) (date_key field x));
        congruence.
Qed.

Lemma sort_desc_sorted (field : string) (l : list document) :
  StronglySorted (newer_first field) (sort_desc field l).
Proof.
  induction l as [| x l IH]; simpl.
  - constructor.
  - apply insert_desc_sorted, IH.
Qed.

Lemma sorted_app_inv {A : Type} (R : A -> A -> Prop) (l m : list A) :
  StronglySorted R (l ++ m) ->
  StronglySorted R l /\ Forall (fun x => Forall (R x) m) l.
Proof.
  induction l as [| x l IH]; simpl; intros S.
  - split; constructor.
  - inversion S as [| ? ? Sl Hx]; subst.
    destruct (IH Sl) as [S1 F1]. apply Forall_app in Hx as [Hl Hm].
    split; constructor; assumption.
Qed.

(** What [find(q).sort(field, -1).limit(n)] returns: at most [n] documents
    of the collection, all matching [q], newest first, and no document
    left out is newer than one returned. *)
Lemma recent_spec (q : query) (field : string) (n : nat)
    (coll : list document) :
  let recent := limit n (sort_desc field (find q coll)) in
  (List.length recent <= n)%nat
  /\ Forall (fun d => In d coll /\ matches q d = true) recent
  /\ StronglySorted (newer_first field) recent
  /\ exists older,
       Permutation (recent ++ older) (find q coll)
       /\ Forall (fun d => Forall (newer_first field d) older) recent.
Proof.
  intros recent. unfold recent, limit.
  pose proof (firstn_skipn n (sort_desc field (find q coll))) as Split.
  pose proof (sort_desc_sorted field (find q coll)) as Sorted.
  rewrite <- Split in Sorted. apply sorted_app_inv in Sorted as [S1 S2].
  split; [apply firstn_le_length | split; [| split; [exact S1 |]]].
  - apply Forall_forall. intros d Hd.
    assert (In d (find q coll)) as Hin.
    { eapply Permutation_in; [apply sort_desc_perm |].
      rewrite <- Split. apply in_or_app. auto. }
    unfold find in Hin. apply filter_In in Hin. exact Hin.
  - exists (skipn n (sort_desc field (find q coll))). split; [| exact S2].
    rewrite Split. apply sort_desc_perm.
Qed.

(** ** Looking an item up *)

Lemma bson_eq_str (v : pyval) (s : string) :
  bson_eq v (VStr s) = true <-> v = VStr s.
Proof.
  split.
  - destruct v; simpl; try discriminate.
    intros E. apply String.eqb_eq in E. congruence.
  - intros ->. simpl. apply String.eqb_refl.
Qed.

Lemma matches_by_name (name : string) (d : document) :
  matches (by_name name) d = true
  <-> dict_get d "item_name" = Some (VStr name).
Proof.
  unfold matches, by_name. simpl. rewrite andb_true_r.
  destruct (dict_get d "item_name") as [v |]; simpl.
  - rewrite bson_eq_str. split; congruence.
  - split; discriminate.
Qed.


Lemma find_one_first (q : query) (before after : list document)
    (d : document) :
  Forall (fun x => matches q x = false) before -> matches q d = true ->
  find_one q (before ++ d :: after) = Some d.
Proof.
  unfold find_one. induction 1 as [| x l Hx _ IH]; simpl; intros Hd.
  - rewrite Hd. reflexivity.
  - rewrite Hx. auto.
Qed.

Lemma no_name_no_match (name : string) (coll : list document) :
  Forall (fun d => dict_get d "item_name" <> Some (VStr name)) coll ->
  Forall (fun d => matches (by_name name) d = false) coll.
Proof.
  apply Forall_impl. intros d H.
  destruct (matches (by_name name) d) eqn:E; [| reflexivity].
  apply matches_by_name in E. contradiction.
Qed.

Lemma dict_get_truthy (d : document) (k : string) (v : pyval) :
  dict_get d k = Some v -> truthy (VDict d) = true.
Proof. destruct d; simpl; [discriminate | reflexivity]. Qed.





Section GetItem.

Context {rt : Runtime}.


(** The handler up to the point where an item has been found. *)
Lemma get_item_found (req : request) (w : world) (body : document)
    (name : string) (before after : list document) (item : document) :
  get_json req = Ok (VDict body) ->
  dict_get body "item_name" = Some (VStr name) ->
  inventory w = before ++ item :: after ->
  Forall (fun d => dict_get d "item_name" <> Some (VStr name)) before ->
  dict_get item "item_name" = Some (VStr name) ->
  get_item req w
  = handle
      (location <- lift (py_getitem (VDict item) "current_location") ;;
       loc_parts <- lift (py_split location "-") ;;
       zone <- lift (list_index loc_parts 0) ;;
       rack <- lift (list_index loc_parts 1) ;;
       bin <- lift (list_index loc_parts 2) ;;
       bin_found <- gets (fun w =>
                      find_one [("zone_id", Equals (VStr zone));
                                ("rack_id", Equals (VStr rack));
                                ("bin_id", Equals (VStr bin))]
                               (warehouse_layout w)) ;;
       bin_data <- lift (normalize_bin (dict_of bin_found)) ;;
       item_id <- lift (py_getitem (VDict item) "item_id") ;;
       of_item <- lift (field_filter item_id) ;;
       movement_history <-
         gets (fun w => limit 5 (sort_desc "timestamp"
                          (find [("item_id", of_item)]
                                (movement_logs w)))) ;;
       item_data <- lift (parse_json (VDict item)) ;;
       bin_details <- lift (if truthy bin_data then parse_json bin_data
                            else Ok VNone) ;;
       item_data <- lift (py_setitem item_data "bin_details" bin_details) ;;
       history <- lift (parse_json (VList (map VDict movement_history))) ;;
       item_data <- lift (py_setitem item_data "movement_history" history) ;;
       ret (Jsonify 200 (VDict [(VStr "status", VStr "success");
                                (VStr "data", item_data)])))%io
      internal_error w.
Proof.
  intros G N Inv Before Hit. unfold get_item.
  rewrite (handle_bind_lift_ok _ _ _ _ _ G).
  rewrite (handle_bind_lift_ok _ false).
  2:{ rewrite (dict_get_truthy _ _ _ N). simpl. rewrite N. reflexivity. }
  cbv beta iota.
  rewrite (handle_bind_lift_ok _ (VStr name))
    by (simpl; rewrite N; reflexivity).
  rewrite (handle_bind_lift_ok _ (Equals (VStr name))) by reflexivity.
  rewrite handle_bind_gets.
  change [("item_name", Equals (VStr name))] with (by_name name).
  rewrite Inv, (find_one_first _ _ _ _ (no_name_no_match _ _ Before)
                  (proj2 (matches_by_name _ _) Hit)).
  cbv beta zeta. simpl dict_of. rewrite (dict_get_truthy _ _ _ Hit).
  reflexivity.
Qed.


End GetItem.

Lemma normalize_bin_none `{Runtime} : normalize_bin VNone = Ok VNone.
Proof. reflexivity. Qed.


Section Lookup.

Context {rt : Runtime}.

(** C4 (amended).  When the item found has a location string that splits
    on ['-'] into fewer than three parts, indexing the parts raises
    [IndexError]; the handler catches it and answers 500 with the text of
    the error, and nothing changes. *)
Theorem get_item_short_location (req : request) (w : world)
    (body : document) (name : string) (before after : list document)
    (item : document) (loc : string) :
  get_json req = Ok (VDict body) ->
  dict_get body "item_name" = Some (VStr name) ->
  inventory w = before ++ item :: after ->
  Forall (fun d => dict_get d "item_name" <> Some (VStr name)) before ->
  dict_get item "item_name" = Some (VStr name) ->
  dict_get item "current_location" = Some (VStr loc) ->
  (List.length (split_on "-" loc) < 3)%nat ->
  get_item req w = (Jsonify 500 (error_body (exn_str IndexError)), w)
  /\ status_code (fst (get_item req w)) = 500.
Proof.
  intros G N Inv Before Hit Hloc Short.
  assert (get_item req w
          = (Jsonify 500 (error_body (exn_str IndexError)), w)) as E.
  { rewrite (get_item_found req w body name before after item G N Inv
               Before Hit).
    rewrite (handle_bind_lift_ok _ (VStr loc))
      by (simpl; rewrite Hloc; reflexivity).
    rewrite (handle_bind_lift_ok _ (split_on "-" loc)) by reflexivity.
    destruct (split_on "-" loc) as [| a [| b [| c parts]]]; simpl in Short;
      try lia; reflexivity. }
  rewrite E. auto.
Qed.


End Lookup.


(** C4, as stated, fails: an item whose location splits into four parts is
    looked up successfully, the first three parts naming its bin. *)
Lemma get_item_long_location :
  dict_get item_gadget "current_location" = Some (VStr "A-1-2-3")
  /\ split_on "-" "A-1-2-3" = ["A"; "1"; "2"; "3"]
  /\ status_code
       (fst (@get_item CPython.runtime
               (json_request (VDict [(VStr "item_name", VStr "gadget")]))
               small_world)) = 200.
Proof. repeat split; vm_compute; reflexivity. Qed.

Lemma get_item_short_location_witness :
  @get_item CPython.runtime
     (json_request (VDict [(VStr "item_name", VStr "loose")])) small_world
  = (Jsonify 500 (error_body "IndexError"), small_world)
  /\ status_code
       (fst (@get_item CPython.runtime
               (json_request (VDict [(VStr "item_name", VStr "loose")]))
               small_world)) = 500.
Proof.
  apply (@get_item_short_location CPython.runtime
           (json_request (VDict [(VStr "item_name", VStr "loose")]))
           small_world [(VStr "item_name", VStr "loose")] "loose"
           [item_widget; item_gadget] [] item_loose "A-1").
  - reflexivity.
  - reflexivity.
  - reflexivity.
  - repeat constructor; discriminate.
  - reflexivity.
  - reflexivity.
  - simpl. lia.
Defined.


(* ================================================================== *)
(** * Further properties of the handlers *)
(* ================================================================== *)

(** ** What the handlers leave alone, and what they answer *)

Lemma reads_only_ret {A : Type} (a : A) : reads_only (ret a).
Proof. intros w. reflexivity. Qed.

Lemma reads_only_lift {A : Type} (r : result A) : reads_only (lift r).
Proof. intros w. reflexivity. Qed.

Lemma reads_only_gets {A : Type} (f : world -> A) : reads_only (gets f).
Proof. intros w. reflexivity. Qed.

Lemma reads_only_bind {A B : Type} (m : M A) (k : A -> M B) :
  reads_only m -> (forall a, reads_only (k a)) -> reads_only (bind m k).
Proof.
  intros Hm Hk w. unfold bind. specialize (Hm w).
  destruct (m w) as [[a | e] w1]; simpl in *; subst w1.
  - apply Hk.
  - reflexivity.
Qed.

Lemma handle_reads_only (body : M response) (h : exn -> response) :
  reads_only body -> forall w, snd (handle body h w) = w.
Proof.
  intros Hb w. unfold handle. specialize (Hb w).
  destruct (body w) as [[r | e] w1]; exact Hb.
Qed.

Lemma answers_with_ret (P : response -> Prop) (r : response) :
  P r -> answers_with P (ret r).
Proof. intros H w r' w' E. injection E as <- _. exact H. Qed.

Lemma answers_with_bind {A : Type} (P : response -> Prop) (m : M A)
    (k : A -> M response) :
  (forall a, answers_with P (k a)) -> answers_with P (bind m k).
Proof.
  intros Hk w r w'. unfold bind.
  destruct (m w) as [[a | e] w1]; [apply Hk | discriminate].
Qed.

Lemma handle_answers (codes : list Z) (body : M response)
    (h : exn -> response) :
  answers_with (code_in codes) body ->
  (forall e, code_in codes (h e)) ->
  forall w, code_in codes (fst (handle body h w)).
Proof.
  intros Hb Hh w. unfold handle.
  destruct (body w) as [[r | e] w1] eqn:E; simpl.
  - exact (Hb w r w1 E).
  - apply Hh.
Qed.

Ltac case_split_head :=
  match goal with
  | |- _ (if ?b then _ else _) => destruct b
  | |- _ (match ?x with _ => _ end) => destruct x
  end.

Ltac reads_only_steps :=
  repeat first
    [ apply reads_only_ret
    | apply reads_only_lift
    | apply reads_only_gets
    | apply reads_only_bind; [| intros ?]
    | progress cbv zeta
    | case_split_head ].

Ltac answers_steps :=
  repeat first
    [ apply answers_with_ret; unfold code_in; simpl; tauto
    | apply answers_with_bind; intros ?
    | progress cbv zeta
    | case_split_head ].

Section Frames.

Context {rt : Runtime}.

(** X1.  Looking an item up never writes: whatever the request, the world
    after [get_item] is the world before, and the answer's status code is
    200, 400, 404 or 500. *)
Theorem get_item_reads_only (req : request) (w : world) :
  snd (get_item req w) = w
  /\ In (status_code (fst (get_item req w))) [200; 400; 404; 500].
Proof.
  split.
  - apply handle_reads_only. reads_only_steps.
  - apply (handle_answers [200; 400; 404; 500]).
    + answers_steps.
    + intros e. unfold code_in. simpl. tauto.
Qed.


Lemma same_store_refl (w : world) : same_store w w.
Proof. unfold same_store. repeat split; auto. Qed.

Lemma same_store_trans (w1 w2 w3 : world) :
  same_store w1 w2 -> same_store w2 w3 -> same_store w1 w3.
Proof.
  unfold same_store.
  intros (A1 & A2 & A3 & A4 & A5 & A6) (B1 & B2 & B3 & B4 & B5 & B6).
  repeat split; try congruence. lia.
Qed.

Lemma keeps_store_reads_only {A : Type} (m : M A) :
  reads_only m -> keeps_store m.
Proof. intros H w. rewrite H. apply same_store_refl. Qed.

Lemma keeps_store_now : keeps_store datetime_now.
Proof. intros w. unfold same_store. simpl. repeat split; auto. Qed.

Lemma keeps_store_bind {A B : Type} (m : M A) (k : A -> M B) :
  keeps_store m -> (forall a, keeps_store (k a)) -> keeps_store (bind m k).
Proof.
  intros Hm Hk w. unfold bind. specialize (Hm w).
  destruct (m w) as [[a | e] w1]; simpl in *.
  - eapply same_store_trans; [exact Hm | apply Hk].
  - exact Hm.
Qed.

Lemma handle_keeps_store (body : M response) (h : exn -> response) :
  keeps_store body -> forall w, same_store w (snd (handle body h w)).
Proof.
  intros Hb w. unfold handle. specialize (Hb w).
  destruct (body w) as [[r | e] w1]; exact Hb.
Qed.

Ltac keeps_store_steps :=
  repeat first
    [ apply keeps_store_now
    | apply keeps_store_reads_only;
      first [ apply reads_only_ret | apply reads_only_lift
            | apply reads_only_gets ]
    | apply keeps_store_bind; [| intros ?]
    | progress cbv zeta
    | case_split_head ].

(** X2.  The dashboard never writes and answers 200 (the rendered page)
    or 500 (the plain error text), nothing else. *)
Theorem dashboard_reads_only (w : world) :
  snd (dashboard w) = w
  /\ In (status_code (fst (dashboard w))) [200; 500].
Proof.
  split.
  - apply handle_reads_only. reads_only_steps.
  - apply (handle_answers [200; 500]).
    + answers_steps.
    + intros e. unfold code_in. simpl. tauto.
Qed.

(** X3.  The statistics endpoint writes nothing: it leaves the three
    collections, the clock and the identifier supply as they were (it
    only takes readings of the clock), and answers 200 or 500. *)
Theorem get_warehouse_stats_keeps_store (w : world) :
  same_store w (snd (get_warehouse_stats w))
  /\ In (status_code (fst (get_warehouse_stats w))) [200; 500].
Proof.
  split.
  - apply handle_keeps_store. unfold expiring_soon.
    apply keeps_store_bind.
    { apply keeps_store_reads_only, reads_only_gets. }
    intros names. apply keeps_store_bind.
    { apply keeps_store_reads_only. intros w0. apply zone_stats_reads_only. }
    intros zones. keeps_store_steps.
  - apply (handle_answers [200; 500]).
    + answers_steps.
    + intros e. unfold code_in. simpl. tauto.
Qed.

Lemma appended_refl (w : world) : appended w w.
Proof.
  exists [], []. rewrite !app_nil_r. simpl. repeat split; auto.
Qed.

(** X4.  Whatever the request, [add_item] only appends: the inventory and
    the movement log each keep their records and gain at most one, and
    they gain together (one item with one entry, or nothing); the
    warehouse layout is untouched; the answer is 200, 400 or 500. *)
Theorem add_item_only_appends (req : request) (w : world) :
  appended w (snd (add_item req w))
  /\ In (status_code (fst (add_item req w))) [200; 400; 500].
Proof.
  unfold add_item, handle, bind, lift.
  destruct (is_json req); [| split; [apply appended_refl | simpl; tauto]].
  destruct (get_json req) as [form_data |];
    [| split; [apply appended_refl | simpl; tauto]].
  destruct (first_missing required_fields form_data) as [[field |] |];
    try (split; [apply appended_refl | simpl; tauto]).
  destruct (new_item_fields form_data) as [fields |] eqn:F;
    [| split; [apply appended_refl | simpl; tauto]].
  destruct (new_item_fields_shape _ _ F)
    as (item_id & item_name & category & length & width & height & weight
        & fragility & expiry_date & location & _ & _ & ->).
  simpl. split; [| tauto].
  eexists. eexists. simpl. repeat split; auto.
Qed.

Lemma remove_first_found (p : document -> bool) (l : list document) :
  existsb p l = true ->
  exists before d after,
    l = before ++ d :: after
    /\ Forall (fun x => p x = false) before
    /\ p d = true
    /\ remove_first p l = before ++ after.
Proof.
  induction l as [| x l IH]; simpl; [discriminate |].
  destruct (p x) eqn:Px; simpl.
  - intros _. exists [], x, l. repeat split; auto.
  - intros E. destruct (IH E) as (before & d & after & -> & Hb & Hd & Hr).
    exists (x :: before), d, after. rewrite Hr. repeat split; auto.
Qed.

(** X5.  Whatever the request, [delete_item] answers 200 exactly when it
    removed a record, and then it removed exactly one, the first whose
    [_id] is the identifier requested; with any other answer (400, 404 or
    500) the world is unchanged. *)
Theorem delete_item_removes_one (req : request) (w : world) :
  (status_code (fst (delete_item req w)) = 200
   /\ exists v o before d after,
        requested_item_id req = Ok v
        /\ py_ObjectId v = Ok (VObjectId o)
        /\ inventory w = before ++ d :: after
        /\ Forall (fun x => dict_get x "_id" <> Some (VObjectId o)) before
        /\ dict_get d "_id" = Some (VObjectId o)
        /\ snd (delete_item req w) = set_docs Inventory (before ++ after) w)
  \/ (In (status_code (fst (delete_item req w))) [400; 404; 500]
      /\ snd (delete_item req w) = w).
Proof.
  destruct (requested_item_id req) as [v | e] eqn:Ev.
  2:{ right. unfold delete_item, handle, bind, lift. rewrite Ev.
      simpl. tauto. }
  destruct (truthy v) eqn:T.
  2:{ right. unfold delete_item, handle, bind, lift. rewrite Ev, T.
      simpl. tauto. }
  destruct (py_ObjectId v) as [x | e] eqn:Eo.
  2:{ right. unfold delete_item, handle, bind, lift. rewrite Ev, T, Eo.
      simpl. tauto. }
  destruct (py_ObjectId_value _ _ Eo) as [o ->].
  rewrite (delete_item_run _ _ _ _ Ev Eo).
  destruct (existsb _ (inventory w)) eqn:X.
  - left. split; [reflexivity |].
    destruct (remove_first_found _ _ X)
      as (before & d & after & Inv & Hb & Hd & Hr).
    exists v, o, before, d, after. simpl. rewrite Hr.
    repeat split; auto.
    + eapply Forall_impl; [| exact Hb]. intros y Hy Hone.
      apply matches_by_id in Hone. congruence.
    + now apply matches_by_id.
  - right. split; [simpl; tauto |]. simpl.
    rewrite (remove_first_absent _ _ X). apply (set_docs_same Inventory w).
Qed.

End Frames.

(** ** More on the totals *)

Lemma py_sum_ints (vs : list Z) (a : Z) :
  py_sum (map VInt vs) (VInt a) = Ok (VInt (a + sum_Z vs)).
Proof.
  revert a. induction vs as [| v vs IH]; intros a; simpl.
  - now rewrite Z.add_0_r.
  - rewrite IH. now rewrite Z.add_assoc.
Qed.

Lemma map_result_In {A B : Type} (f : A -> result B) (l : list A)
    (ys : list B) (x : A) :
  map_result f l = Ok ys -> In x l -> exists y, f x = Ok y.
Proof.
  revert ys. induction l as [| a l IH]; intros ys E Hin; simpl in E.
  - destruct Hin.
  - destruct (f a) as [y |] eqn:Fa; simpl in E; [| discriminate].
    destruct (map_result f l) as [ys' |]; [| discriminate].
    destruct Hin as [-> | Hin]; [eauto |].
    eapply IH; [reflexivity | exact Hin].
Qed.

Section MoreTotals.

Context {rt : Runtime}.

(** X6.  When every bin's volume is an integer, the total the loop ends
    with is exactly the integer sum of the volumes, whatever the
    utilizations are: no rounding enters the total. *)
Theorem total_capacity_integer_sum (bins : list document) (vs : list Z)
    (t u : pyval) :
  accumulate bins (VInt 0, VInt 0) = Ok (t, u) ->
  map_result spec_volume bins = Ok (map VInt vs) ->
  t = VInt (sum_Z vs).
Proof.
  intros E V. apply accumulate_sums in E.
  destruct E as (vols & parts & Ev & _ & Et & _).
  rewrite V in Ev. injection Ev as <-.
  rewrite py_sum_ints in Et. now injection Et as <-.
Qed.

Lemma unparseable_volume (b : document) (s : string) (e : exn) :
  dict_get b "capacity" = Some (VStr s) ->
  ast_literal_eval s = Raise e ->
  e = ValueError \/ e = SyntaxError ->
  spec_volume b = Ok (VInt 0).
Proof.
  intros C E Caught. unfold spec_volume. simpl. rewrite C. simpl.
  rewrite E. destruct Caught as [-> | ->]; reflexivity.
Qed.

(** X7.  A bin whose capacity is a text the literal evaluator rejects
    with [ValueError] or [SyntaxError] has volume 0; when it records no
    utilization it leaves integer totals exactly as they were. *)
Theorem unparseable_capacity_counts_zero (b : document) (s : string)
    (e : exn) :
  dict_get b "capacity" = Some (VStr s) ->
  ast_literal_eval s = Raise e ->
  e = ValueError \/ e = SyntaxError ->
  spec_volume b = Ok (VInt 0)
  /\ (dict_get b "current_utilization" = None ->
      forall t u, bin_step (VInt t, VInt u) b = Ok (VInt t, VInt u)).
Proof.
  intros C E Caught.
  pose proof (unparseable_volume b s e C E Caught) as V.
  split; [exact V |].
  intros U t u. rewrite bin_step_unfold, V. unfold utilization_or_zero.
  rewrite U. simpl. now rewrite !Z.add_0_r.
Qed.

Lemma accumulate_fails (bins : list document) (acc : pyval * pyval)
    (b : document) (e : exn) :
  In b bins -> spec_volume b = Raise e ->
  exists e', accumulate bins acc = Raise e'.
Proof.
  intros Hin Hb. destruct acc as [t0 u0].
  destruct (accumulate bins (t0, u0)) as [[t u] | e'] eqn:E; [| eauto].
  apply accumulate_sums in E. destruct E as (vols & parts & Ev & _).
  destruct (map_result_In _ _ _ _ Ev Hin) as [y Hy]. congruence.
Qed.

(** X8.  One bad bin fails the whole dashboard: when some bin of the
    layout has no [capacity] field, or its volume cannot be computed for
    any other reason, the dashboard answers 500 with the text of an error
    and shows nothing. *)
Theorem dashboard_fails_on_bad_bin (w : world) (b : document) :
  In b (warehouse_layout w) ->
  (dict_get b "capacity" = None \/ exists e, spec_volume b = Raise e) ->
  exists e',
    dashboard w = (Plain 500 ("Error loading dashboard: " ++ exn_str e'), w).
Proof.
  intros Hin Bad.
  assert (exists e, spec_volume b = Raise e) as [e Hb].
  { destruct Bad as [C | H]; [| exact H].
    exists KeyError. unfold spec_volume. simpl. now rewrite C. }
  destruct (accumulate_fails (warehouse_layout w) (VInt 0, VInt 0) b e
              Hin Hb) as [e' E].
  exists e'. unfold dashboard, handle, bind, gets, lift.
  rewrite find_everything, E. reflexivity.
Qed.

(** X9.  What the dashboard shows.  The percentage, once computed, is the
    integer 0, a float or a complex number, so formatting it cannot fail;
    and when the loop
    over the bins, the percentage and the JSON round trip of the items
    succeed, the page gets the round-tripped items (at most ten, newest
    entry first), the number of items in the inventory, the distinct zone
    names and the percentage to one decimal followed by a percent sign. *)
Theorem dashboard_shows (w : world) (t u p items_json : pyval) :
  accumulate (warehouse_layout w) (VInt 0, VInt 0) = Ok (t, u) ->
  utilization_percent t u = Ok p ->
  parse_json (VList (map VDict (limit 10 (sort_desc "entry_date"
                                            (inventory w)))))
  = Ok items_json ->
  exists shown,
    py_format_1f p = Ok shown
    /\ dashboard w
       = (Rendered "index.html"
            [(VStr "items", items_json);
             (VStr "total_items", VInt (Z.of_nat (List.length (inventory w))));
             (VStr "zones", VList (distinct "zone_id" (warehouse_layout w)));
             (VStr "utilization", VStr (shown ++ "%"))],
          w)
    /\ (List.length (limit 10 (sort_desc "entry_date" (inventory w))) <= 10)%nat
    /\ StronglySorted (newer_first "entry_date")
         (limit 10 (sort_desc "entry_date" (inventory w))).
Proof.
  intros A P J.
  assert (exists shown, py_format_1f p = Ok shown) as [shown F].
  { apply (percentage_formats _ (utilization_percent_value _ _ _ P)). }
  exists shown. split; [exact F |].
  pose proof (recent_spec [] "entry_date" 10 (inventory w)) as R.
  cbv zeta in R. rewrite find_everything in R.
  destruct R as (Len & _ & Sorted & _).
  split; [| split; assumption].
  unfold dashboard, handle, bind, gets, lift, ret, count_documents.
  rewrite !find_everything, A. simpl fst. simpl snd. rewrite P, J, F.
  reflexivity.
Qed.

End MoreTotals.

Lemma total_capacity_integer_sum_witness : VInt 30 = VInt (sum_Z [10; 20]).
Proof.
  apply (@total_capacity_integer_sum CPython.runtime two_bins [10; 20]
           (VInt 30) (VFloat 10)); vm_compute; reflexivity.
Defined.

Lemma unparseable_capacity_counts_zero_witness :
  @spec_volume CPython.runtime
     [(VStr "zone_id", VStr "A"); (VStr "capacity", VStr "10 x 2 x 1")]
  = Ok (VInt 0)
  /\ (dict_get [(VStr "zone_id", VStr "A");
                (VStr "capacity", VStr "10 x 2 x 1")]
               "current_utilization" = None ->
      forall t u,
        @bin_step CPython.runtime (VInt t, VInt u)
           [(VStr "zone_id", VStr "A"); (VStr "capacity", VStr "10 x 2 x 1")]
        = Ok (VInt t, VInt u)).
Proof.
  apply (@unparseable_capacity_counts_zero CPython.runtime _ "10 x 2 x 1"
           SyntaxError).
  - reflexivity.
  - vm_compute. reflexivity.
  - right. reflexivity.
Defined.

Lemma dashboard_fails_on_bad_bin_witness :
  exists e',
    @dashboard CPython.runtime broken_layout_world
    = (Plain 500 ("Error loading dashboard: " ++ CPython.class_name e'),
       broken_layout_world).
Proof.
  apply (@dashboard_fails_on_bad_bin CPython.runtime broken_layout_world
           [(VStr "zone_id", VStr "B")]).
  - simpl. auto.
  - left. reflexivity.
Defined.

Lemma dashboard_shows_witness :
  exists shown,
    py_format_1f (VFloat (PrimFloat.mul (PrimFloat.div 10 30) 100)) = Ok shown
    /\ @dashboard CPython.runtime two_bins_world
       = (Rendered "index.html"
            [(VStr "items", VList []);
             (VStr "total_items",
              VInt (Z.of_nat (List.length (inventory two_bins_world))));
             (VStr "zones",
              VList (distinct "zone_id" (warehouse_layout two_bins_world)));
             (VStr "utilization", VStr (shown ++ "%"))],
          two_bins_world)
    /\ (List.length (limit 10 (sort_desc "entry_date"
                                 (inventory two_bins_world))) <= 10)%nat
    /\ StronglySorted (newer_first "entry_date")
         (limit 10 (sort_desc "entry_date" (inventory two_bins_world))).
Proof.
  apply (@dashboard_shows CPython.runtime two_bins_world (VInt 30) (VFloat 10));
    vm_compute; reflexivity.
Defined.

(** ** More on looking an item up *)

Section MoreLookup.

Context {rt : Runtime}.

(** X10.  How [get_item] answers a request it cannot use: an empty or
    null body, or an object without [item_name], gets 400; a body Flask
    cannot read as JSON gets 500 with the text of Flask's error; and a
    JSON string that merely contains the text [item_name] passes the
    membership test and then fails on the subscript, which gets 500.  In
    every case nothing changes. *)
Theorem get_item_bad_request (req : request) (w : world) :
  (forall data, get_json req = Ok data -> truthy data = false ->
     get_item req w
     = (Jsonify 400 (error_body "Missing item_name parameter"), w))
  /\ (forall body, get_json req = Ok (VDict body) ->
        dict_get body "item_name" = None ->
        get_item req w
        = (Jsonify 400 (error_body "Missing item_name parameter"), w))
  /\ (forall e, get_json req = Raise e ->
        get_item req w = (Jsonify 500 (error_body (exn_str e)), w))
  /\ (forall s, get_json req = Ok (VStr s) ->
        is_substring "item_name" s = true ->
        get_item req w = (Jsonify 500 (error_body (exn_str TypeError)), w)).
Proof.
  split; [| split; [| split]].
  - intros data G F. unfold get_item.
    rewrite (handle_bind_lift_ok _ _ _ _ _ G).
    rewrite (handle_bind_lift_ok _ true) by (rewrite F; reflexivity).
    apply handle_ret.
  - intros body G N. unfold get_item.
    rewrite (handle_bind_lift_ok _ _ _ _ _ G).
    rewrite (handle_bind_lift_ok _ true).
    + apply handle_ret.
    + destruct (truthy (VDict body)); [| reflexivity].
      simpl. rewrite N. reflexivity.
  - intros e G. unfold get_item.
    now rewrite (handle_bind_lift_raise _ _ _ _ _ G).
  - intros s G Sub. unfold get_item.
    rewrite (handle_bind_lift_ok _ _ _ _ _ G).
    rewrite (handle_bind_lift_ok _ false).
    + cbv beta iota. now rewrite (handle_bind_lift_raise _ TypeError).
    + assert (truthy (VStr s) = true) as T.
      { destruct s; [discriminate Sub | reflexivity]. }
      rewrite T. simpl. rewrite Sub. reflexivity.
Qed.

(** X11.  An error [parse_capacity] does not absorb reaches the client of
    [get_item]: when the item found lies in a bin whose capacity is a
    text on which the literal evaluator raises anything but [ValueError]
    or [SyntaxError], the lookup is answered 500 with the text of that
    error. *)
Theorem get_item_bin_error (req : request) (w : world) (body : document)
    (name : string) (before after : list document) (item : document)
    (loc zone rack bin : string) (rest : list string) (b : document)
    (s : string) (e : exn) :
  get_json req = Ok (VDict body) ->
  dict_get body "item_name" = Some (VStr name) ->
  inventory w = before ++ item :: after ->
  Forall (fun d => dict_get d "item_name" <> Some (VStr name)) before ->
  dict_get item "item_name" = Some (VStr name) ->
  dict_get item "current_location" = Some (VStr loc) ->
  split_on "-" loc = zone :: rack :: bin :: rest ->
  find_one [("zone_id", Equals (VStr zone));
            ("rack_id", Equals (VStr rack));
            ("bin_id", Equals (VStr bin))] (warehouse_layout w) = Some b ->
  dict_get b "capacity" = Some (VStr s) ->
  ast_literal_eval s = Raise e ->
  exn_eqb e ValueError || exn_eqb e SyntaxError = false ->
  get_item req w = (Jsonify 500 (error_body (exn_str e)), w).
Proof.
  intros G N Inv Before Hit Hloc Hsplit Hbin Hcap Heval Hclass.
  rewrite (get_item_found req w body name before after item G N Inv
             Before Hit).
  rewrite (handle_bind_lift_ok _ (VStr loc))
    by (simpl; rewrite Hloc; reflexivity).
  rewrite (handle_bind_lift_ok _ (zone :: rack :: bin :: rest))
    by (simpl; rewrite Hsplit; reflexivity).
  rewrite (handle_bind_lift_ok _ zone) by reflexivity.
  rewrite (handle_bind_lift_ok _ rack) by reflexivity.
  rewrite (handle_bind_lift_ok _ bin) by reflexivity.
  rewrite handle_bind_gets, Hbin.
  rewrite (handle_bind_lift_raise _ e); [reflexivity |].
  unfold normalize_bin. simpl dict_of.
  rewrite (dict_get_truthy _ _ _ Hcap). simpl py_contains. rewrite Hcap.
  simpl. rewrite Hcap. simpl. rewrite Heval. simpl. rewrite Hclass.
  reflexivity.
Qed.

End MoreLookup.

Lemma get_item_bin_error_witness :
  @get_item CPython.runtime
     (json_request (VDict [(VStr "item_name", VStr "widget")]))
     unhashable_bin_world
  = (Jsonify 500 (error_body "TypeError"), unhashable_bin_world).
Proof.
  apply (@get_item_bin_error CPython.runtime
           (json_request (VDict [(VStr "item_name", VStr "widget")]))
           unhashable_bin_world [(VStr "item_name", VStr "widget")] "widget"
           [] [] item_widget "A-1-2" "A" "1" "2" []
           [(VStr "zone_id", VStr "A"); (VStr "rack_id", VStr "1");
            (VStr "bin_id", VStr "2"); (VStr "capacity", VStr "{[1]: 2}")]
           "{[1]: 2}" TypeError);
    first [reflexivity | constructor | vm_compute; reflexivity].
Defined.

(** ** More on the statistics *)

Lemma filter_length_le_of_imp {A : Type} (p q : A -> bool) (l : list A) :
  (forall x, p x = true -> q x = true) ->
  (List.length (filter p l) <= List.length (filter q l))%nat.
Proof.
  intros H. induction l as [| x l IH]; simpl; [lia |].
  destruct (p x) eqn:Px.
  - rewrite (H x Px). simpl. lia.
  - destruct (q x); simpl; lia.
Qed.

Lemma in_window_narrower (lower upper lower' upper' : Z) (item : document) :
  lower' <= lower -> upper <= upper' ->
  in_window lower upper item = true -> in_window lower' upper' item = true.
Proof.
  unfold in_window. intros L U.
  destruct (dict_get item "expiry_date") as [[] |]; try discriminate.
  rewrite !andb_true_iff, !Z.leb_le, !Z.ltb_lt. lia.
Qed.

(** X12.  The window between two readings.  The count of items expiring
    soon is taken over the window that opens at the second reading of
    the clock and closes seven days after the first; when the clock does
    not run backwards, this count is at most the count over the seven
    days from the first reading and at most the count over the seven
    days from the second. *)
Theorem expiring_soon_between_readings (w : world) :
  clock w (ticks w) <= clock w (S (ticks w)) ->
  exists n,
    fst (expiring_soon w) = Ok (Z.of_nat n)
    /\ n = List.length (filter (in_window (clock w (S (ticks w)))
                                          (clock w (ticks w) + seven_days))
                               (inventory w))
    /\ (n <= List.length (filter (expires_within_week (clock w (ticks w)))
                                 (inventory w)))%nat
    /\ (n <= List.length
               (filter (expires_within_week (clock w (S (ticks w))))
                       (inventory w)))%nat.
Proof.
  intros Mono. eexists. split; [apply expiring_soon_two_readings |].
  split; [reflexivity | split].
  - apply filter_length_le_of_imp. intros item.
    apply in_window_narrower; lia.
  - apply filter_length_le_of_imp. intros item.
    apply in_window_narrower; lia.
Qed.

Lemma expiring_soon_between_readings_witness :
  exists n,
    fst (expiring_soon running_world) = Ok (Z.of_nat n)
    /\ n = List.length
             (filter (in_window (clock running_world
                                       (S (ticks running_world)))
                                (clock running_world (ticks running_world)
                                 + seven_days))
                     (inventory running_world))
    /\ (n <= List.length
               (filter (expires_within_week
                          (clock running_world (ticks running_world)))
                       (inventory running_world)))%nat
    /\ (n <= List.length
               (filter (expires_within_week
                          (clock running_world (S (ticks running_world))))
                       (inventory running_world)))%nat.
Proof.
  apply (expiring_soon_between_readings running_world).
  vm_compute. discriminate.
Defined.

Section MoreStats.

Context {rt : Runtime}.

Lemma zone_stats_length (zones : list pyval) (w : world)
    (entries : list pyval) (w' : world) :
  zone_stats zones w = (Ok entries, w') ->
  List.length entries = List.length zones.
Proof.
  revert entries w'. induction zones as [| zone zones IH];
    intros entries w'; simpl.
  - intros E. injection E as <- _. reflexivity.
  - unfold bind, gets, lift. simpl.
    destruct (field_filter zone) as [in_zone |]; simpl; [| discriminate].
    destruct (accumulate _ _) as [totals |]; simpl; [| discriminate].
    destruct (utilization_percent _ _) as [u |]; simpl; [| discriminate].
    destruct (py_format_1f u) as [shown |]; simpl; [| discriminate].
    destruct (zone_stats zones w) as [[others |] w1] eqn:E; simpl;
      [| discriminate].
    intros E'. injection E' as <- _. simpl. f_equal.
    eapply IH. reflexivity.
Qed.

(** X13.  What a successful statistics answer holds: [total_items] is the
    number of items in the inventory, [expiring_soon] lies between 0 and
    that number, and [zones] has one entry for each distinct [zone_id] of
    the layout. *)
Theorem get_warehouse_stats_counts (w w' : world) (body : pyval) :
  get_warehouse_stats w = (Jsonify 200 body, w') ->
  py_getitem body "total_items"
  = Ok (VInt (Z.of_nat (List.length (inventory w))))
  /\ (exists n, py_getitem body "expiring_soon" = Ok (VInt n)
                /\ 0 <= n <= Z.of_nat (List.length (inventory w)))
  /\ (exists zones, py_getitem body "zones" = Ok (VList zones)
                    /\ List.length zones
                       = List.length (distinct "zone_id"
                                               (warehouse_layout w))).
Proof.
  unfold get_warehouse_stats, handle.
  unfold bind at 1. unfold gets at 1.
  unfold bind at 1.
  pose proof (zone_stats_reads_only
                (distinct "zone_id" (warehouse_layout w)) w) as Z0.
  destruct (zone_stats _ w) as [[zones | e] w0] eqn:Zs; simpl in Z0;
    subst w0; [| discriminate].
  apply zone_stats_length in Zs.
  unfold bind at 1. unfold gets at 1.
  unfold bind at 1.
  pose proof (expiring_soon_two_readings w) as Count.
  destruct (expiring_soon w) as [[soon | e] w1] eqn:Es; simpl in Count;
    [| discriminate].
  injection Count as ->.
  assert (inventory w1 = inventory w) as Inv.
  { unfold expiring_soon, bind, datetime_now, lift, gets in Es. simpl in Es.
    injection Es as _ <-. reflexivity. }
  unfold bind, lift, gets, ret.
  destruct (parse_json _) as [categories |]; [| discriminate].
  intros E. injection E as <- _. simpl.
  unfold count_documents. rewrite find_everything, Inv.
  split; [reflexivity | split].
  - eexists. split; [reflexivity |].
    split; [lia |]. apply inj_le. apply filter_length_le.
  - eexists. split; [reflexivity | exact Zs].
Qed.

End MoreStats.

Lemma get_warehouse_stats_counts_witness :
  py_getitem
    (VDict [(VStr "zones",
             VList [VDict [(VStr "name", VStr "A");
                           (VStr "utilization", VStr "25.0");
                           (VStr "bins", VInt 1)]]);
            (VStr "categories",
             VList [VDict [(VStr "_id", VStr "tools"); (VStr "count", VInt 2)];
                    VDict [(VStr "_id", VStr "misc"); (VStr "count", VInt 1)]]);
            (VStr "total_items", VInt 3);
            (VStr "expiring_soon", VInt 1)])
    "total_items"
  = Ok (VInt (Z.of_nat (List.length (inventory small_world)))).
Proof.
  apply (proj1 (@get_warehouse_stats_counts CPython.runtime small_world
                  (mkWorld (inventory small_world)
                           (warehouse_layout small_world)
                           (movement_logs small_world)
                           (clock small_world) 2 (oid_supply small_world))
                  _ ltac:(vm_compute; reflexivity))).
Defined.

(** ** Location keys *)

Lemma split_on_nonempty (sep : ascii) (s : string) : split_on sep s <> [].
Proof.
  destruct s as [| c rest]; simpl; [discriminate |].
  destruct (Ascii.eqb c sep); [discriminate |].
  destruct (split_on sep rest); discriminate.
Qed.

Lemma split_on_lacking (sep : ascii) (s : string) :
  lacks sep s = true -> split_on sep s = [s].
Proof.
  induction s as [| c rest IH]; simpl; [reflexivity |].
  destruct (Ascii.eqb c sep); simpl; [discriminate |].
  intros L. now rewrite (IH L).
Qed.

Lemma split_on_key (sep : ascii) (a b : string) :
  lacks sep a = true ->
  split_on sep (a ++ String sep b) = a :: split_on sep b.
Proof.
  induction a as [| c rest IH]; simpl.
  - intros _. now rewrite Ascii.eqb_refl.
  - destruct (Ascii.eqb c sep); simpl; [discriminate |].
    intros L. now rewrite (IH L).
Qed.

Lemma concat_cons (sep x : string) (xs : list string) :
  xs <> [] -> String.concat sep (x :: xs) = (x ++ sep ++ String.concat sep xs)%string.
Proof. destruct xs; [contradiction | reflexivity]. Qed.

(** X14.  Splitting a location and joining it again.  For every string,
    joining the parts of [split('-')] with dashes gives the string back,
    no part contains a dash, and there is one part more than there are
    dashes (so fewer than three parts means fewer than two dashes).  A
    key built as [zone-rack-bin] from three dash-free names splits into
    exactly those three names. *)
Theorem location_split_join :
  (forall s, String.concat "-" (split_on "-" s) = s)
  /\ (forall s, Forall (fun part => lacks "-" part = true) (split_on "-" s))
  /\ (forall s, List.length (split_on "-" s) = S (count_char "-" s))
  /\ (forall zone rack bin,
        lacks "-" zone = true -> lacks "-" rack = true ->
        lacks "-" bin = true ->
        split_on "-" (location_key zone rack bin) = [zone; rack; bin]).
Proof.
  split; [| split; [| split]].
  - induction s as [| c rest IH]; [reflexivity |].
    simpl split_on. destruct (Ascii.eqb_spec c "-"%char) as [-> | Hne].
    + rewrite concat_cons by apply split_on_nonempty.
      rewrite IH. reflexivity.
    + pose proof (split_on_nonempty "-"%char rest) as Hn.
      destruct (split_on "-" rest) as [| part parts]; [contradiction |].
      destruct parts as [| p parts].
      * simpl in *. now rewrite IH.
      * change (String.concat "-" (String c part :: p :: parts))
          with (String c (String.concat "-" (part :: p :: parts))).
        now rewrite IH.
  - induction s as [| c rest IH]; simpl; [repeat constructor |].
    destruct (Ascii.eqb c "-"%char) eqn:E.
    + constructor; [reflexivity | exact IH].
    + destruct (split_on "-" rest) as [| part parts]; simpl.
      * repeat constructor. simpl. now rewrite E.
      * inversion IH as [| ? ? Hp Hps]; subst.
        constructor; [| exact Hps]. simpl. now rewrite E, Hp.
  - induction s as [| c rest IH]; simpl; [reflexivity |].
    destruct (Ascii.eqb c "-"%char); simpl; [now rewrite IH |].
    pose proof (split_on_nonempty "-"%char rest) as Hn.
    destruct (split_on "-" rest) as [| part parts]; [contradiction |].
    exact IH.
  - intros zone rack bin Lz Lr Lb. unfold location_key.
    change (zone ++ "-" ++ rack ++ "-" ++ bin)%string
      with (zone ++ String "-" (rack ++ String "-" bin))%string.
    rewrite (split_on_key _ _ _ Lz), (split_on_key _ _ _ Lr).
    now rewrite (split_on_lacking _ _ Lb).
Qed.

(** ** The capacity parser once more *)

(** X15.  The only errors that leave [parse_capacity] are errors the
    literal evaluator raised on a string, and never a [ValueError] or a
    [SyntaxError]. *)
Theorem parse_capacity_raises_only `{Runtime} (capacity : pyval) (e : exn) :
  parse_capacity capacity = Raise e ->
  exists s,
    capacity = VStr s
    /\ ast_literal_eval s = Raise e
    /\ e <> ValueError /\ e <> SyntaxError.
Proof.
  destruct capacity; simpl; try discriminate.
  intros E. exists s. split; [reflexivity |].
  destruct (ast_literal_eval s) as [v | e0]; simpl in E; [discriminate |].
  destruct e0; simpl in E; try discriminate; injection E as <-;
    repeat split; discriminate.
Qed.

Lemma parse_capacity_raises_only_witness :
  exists s,
    VStr "{[1]: 2}" = VStr s
    /\ CPython.literal_eval s = Raise TypeError
    /\ TypeError <> ValueError /\ TypeError <> SyntaxError.
Proof.
  apply (@parse_capacity_raises_only CPython.runtime (VStr "{[1]: 2}")).
  vm_compute. reflexivity.
Defined.

(** ** Adding, looking up, deleting *)

Lemma py_float_value `{Runtime} (v x : pyval) :
  py_float v = Ok x -> exists f, x = VFloat f.
Proof.
  unfold py_float. destruct v; simpl;
    repeat match goal with
           | |- context [float_of_str ?s] => destruct (float_of_str s); simpl
           | |- context [float_of_int ?z] => destruct (float_of_int z); simpl
           end;
    intros E; try discriminate; injection E as <-; eauto.
Qed.

Lemma py_fromisoformat_value `{Runtime} (v x : pyval) :
  py_fromisoformat v = Ok x -> exists t, x = VDatetime t.
Proof.
  unfold py_fromisoformat. destruct v; simpl; try discriminate.
  destruct (datetime_fromisoformat s); simpl; [| discriminate].
  intros E. injection E as <-. eauto.
Qed.

Section Compose.

Context {rt : Runtime}.

Lemma new_item_fields_full (body fields : document) :
  new_item_fields (VDict body) = Ok fields ->
  exists item_id item_name category length width height weight expiry_date
         current_location,
    dict_get body "item_id" = Some item_id
    /\ dict_get body "item_name" = Some item_name
    /\ dict_get body "category" = Some category
    /\ dict_get body "current_location" = Some current_location
    /\ (expiry_date = VNone \/ exists t, expiry_date = VDatetime t)
    /\ (forall s, dict_get body "fragility" = Some (VStr s) ->
          fragility_of body = negb (String.eqb s ""))
    /\ fields
       = [(VStr "item_id", item_id);
          (VStr "item_name", item_name);
          (VStr "category", category);
          (VStr "dimensions", VDict [(VStr "length", VFloat length);
                                     (VStr "width", VFloat width);
                                     (VStr "height", VFloat height)]);
          (VStr "weight", VFloat weight);
          (VStr "fragility", VBool (fragility_of body));
          (VStr "expiry_date", expiry_date);
          (VStr "current_location", current_location)].
Proof.
  unfold new_item_fields, dimension, fragility_of. simpl py_getitem.
  simpl py_get. intros H.
  destruct (dict_get body "item_id") as [item_id |]; simpl in H;
    [| discriminate].
  destruct (dict_get body "item_name") as [item_name |]; simpl in H;
    [| discriminate].
  destruct (dict_get body "category") as [category |]; simpl in H;
    [| discriminate].
  destruct (dict_get body "dimensions") as [dims |]; simpl in H;
    [| discriminate].
  destruct (py_getitem dims "length") as [l0 |]; simpl in H; [| discriminate].
  destruct (py_float l0) as [l1 |] eqn:El; simpl in H; [| discriminate].
  destruct (py_getitem dims "width") as [w0 |]; simpl in H; [| discriminate].
  destruct (py_float w0) as [w1 |] eqn:Ew; simpl in H; [| discriminate].
  destruct (py_getitem dims "height") as [h0 |]; simpl in H; [| discriminate].
  destruct (py_float h0) as [h1 |] eqn:Eh; simpl in H; [| discriminate].
  destruct (dict_get body "weight") as [wt0 |]; simpl in H; [| discriminate].
  destruct (py_float wt0) as [wt1 |] eqn:Ewt; simpl in H; [| discriminate].
  apply py_float_value in El, Ew, Eh, Ewt.
  destruct El as [length ->], Ew as [width ->], Eh as [height ->],
    Ewt as [weight ->].
  assert (exists expiry_date,
             (expiry_date = VNone \/ exists t, expiry_date = VDatetime t)
             /\ (x <- match dict_get body "current_location" with
                      | Some x => Ok x
                      | None => Raise KeyError
                      end ;;
                 Ok [(VStr "item_id", item_id);
                     (VStr "item_name", item_name);
                     (VStr "category", category);
                     (VStr "dimensions",
                      VDict [(VStr "length", VFloat length);
                             (VStr "width", VFloat width);
                             (VStr "height", VFloat height)]);
                     (VStr "weight", VFloat weight);
                     (VStr "fragility",
                      VBool (truthy match dict_get body "fragility" with
                                    | Some x => x
                                    | None => VBool false
                                    end));
                     (VStr "expiry_date", expiry_date);
                     (VStr "current_location", x)])%result
                = Ok fields) as (expiry_date & Hexp & H').
  { destruct (dict_get body "fragility"), (dict_get body "expiry_date")
      as [raw |]; simpl in H.
    - destruct (truthy raw); simpl in H.
      + destruct (py_fromisoformat raw) as [d |] eqn:Ed; simpl in H;
          [| discriminate].
        apply py_fromisoformat_value in Ed. destruct Ed as [t ->]. eauto.
      + eauto.
    - eauto.
    - destruct (truthy raw); simpl in H.
      + destruct (py_fromisoformat raw) as [d |] eqn:Ed; simpl in H;
          [| discriminate].
        apply py_fromisoformat_value in Ed. destruct Ed as [t ->]. eauto.
      + eauto.
    - eauto. }
  destruct (dict_get body "current_location") as [location |]; simpl in H';
    [| discriminate].
  injection H' as <-.
  exists item_id, item_name, category, length, width, height, weight,
    expiry_date, location.
  repeat split; auto.
  - intros s ->. simpl. reflexivity.
  - destruct (dict_get body "fragility"); reflexivity.
Qed.

(** X16.  The shape of a stored item.  Whatever the request held, the
    record [add_item] builds has the request's [item_id], [item_name],
    [category] and [current_location] as they came, floats for the three
    dimensions and the weight, a boolean fragility that is the truth
    value of the field (false when absent, true for every non-empty
    string), and an expiry that is a date or [None]. *)
Theorem new_item_fields_typed (body fields : document) :
  new_item_fields (VDict body) = Ok fields ->
  exists item_id item_name category length width height weight expiry_date
         current_location,
    dict_get body "item_id" = Some item_id
    /\ dict_get body "item_name" = Some item_name
    /\ dict_get body "category" = Some category
    /\ dict_get body "current_location" = Some current_location
    /\ (expiry_date = VNone \/ exists t, expiry_date = VDatetime t)
    /\ (forall s, dict_get body "fragility" = Some (VStr s) ->
          fragility_of body = negb (String.eqb s ""))
    /\ fields
       = [(VStr "item_id", item_id);
          (VStr "item_name", item_name);
          (VStr "category", category);
          (VStr "dimensions", VDict [(VStr "length", VFloat length);
                                     (VStr "width", VFloat width);
                                     (VStr "height", VFloat height)]);
          (VStr "weight", VFloat weight);
          (VStr "fragility", VBool (fragility_of body));
          (VStr "expiry_date", expiry_date);
          (VStr "current_location", current_location)].
Proof. apply new_item_fields_full. Qed.

(** The run of [add_item] on a request that has every required field and
    goes through the coercions. *)
Lemma add_item_run (req : request) (w : world) (body fields : document) :
  is_json req = true ->
  get_json req = Ok (VDict body) ->
  Forall (fun f => dict_get body f <> None) required_fields ->
  new_item_fields (VDict body) = Ok fields ->
  exists item_id location,
    add_item req w
    = (Jsonify 200 (success_message "Item added successfully"),
       mkWorld
         (inventory w
          ++ [(VStr "_id", VObjectId (oid_bytes (oid_supply w)))
              :: fields
              ++ [(VStr "entry_date", VDatetime (clock w (ticks w)))]])
         (warehouse_layout w)
         (movement_logs w
          ++ [(VStr "_id", VObjectId (oid_bytes (oid_supply w + 1)))
              :: system_add_entry item_id
                   (VDatetime (clock w (S (ticks w)))) location])
         (clock w) (S (S (ticks w))) (oid_supply w + 1 + 1)).
Proof.
  intros J G Present F.
  destruct (new_item_fields_shape _ _ F)
    as (item_id & item_name & category & length & width & height & weight
        & fragility & expiry_date & location & _ & _ & ->).
  exists item_id, location.
  unfold add_item, handle, bind, lift. rewrite J, G.
  rewrite first_missing_dict, (find_all_present _ _ Present), F.
  reflexivity.
Qed.

(** X17.  Deleting twice.  When the identifier requested is the [_id] of
    exactly one item, the first [delete_item] removes it and a second
    one with the same request is answered 404 and changes nothing. *)
Theorem delete_item_twice (req : request) (w : world) (v : pyval)
    (o : list Byte.byte)
    (before after : list document) (d : document) :
  requested_item_id req = Ok v ->
  py_ObjectId v = Ok (VObjectId o) ->
  inventory w = before ++ d :: after ->
  Forall (fun x => dict_get x "_id" <> Some (VObjectId o)) before ->
  dict_get d "_id" = Some (VObjectId o) ->
  Forall (fun x => dict_get x "_id" <> Some (VObjectId o)) after ->
  fst (delete_item req w) = Jsonify 200 (success_message "Item deleted")
  /\ delete_item req (snd (delete_item req w))
     = (Jsonify 404 (error_body "Item not found"), snd (delete_item req w)).
Proof.
  intros Ev Eo Inv Before Hd After.
  assert (Forall (fun x => matches (by_id o) x = false) before) as Hb.
  { eapply Forall_impl; [| exact Before]. intros x. apply not_matches_by_id. }
  assert (Forall (fun x => matches (by_id o) x = false) after) as Ha.
  { eapply Forall_impl; [| exact After]. intros x. apply not_matches_by_id. }
  apply matches_by_id in Hd.
  rewrite (delete_item_run _ _ _ _ Ev Eo), Inv.
  destruct (remove_first_split _ before after d Hb Hd) as [-> ->].
  split; [reflexivity |]. simpl snd.
  rewrite (delete_item_run _ _ _ _ Ev Eo). simpl inventory.
  assert (Forall (fun x => matches (by_id o) x = false) (before ++ after))
    as Hboth by (apply Forall_app; auto).
  rewrite (existsb_none _ _ Hboth), (remove_first_none _ _ Hboth).
  reflexivity.
Qed.

(** X18.  Adding, then deleting.  After a successful [add_item], a delete
    request for the identifier the new record was given (no older record
    having it) is answered with success and leaves the inventory exactly
    as it was before the item was added, while the movement log keeps the
    entry the addition wrote: it is one entry longer than before. *)
Theorem add_then_delete (req del : request) (w : world)
    (body fields : document) (v : pyval) :
  is_json req = true ->
  get_json req = Ok (VDict body) ->
  Forall (fun f => dict_get body f <> None) required_fields ->
  new_item_fields (VDict body) = Ok fields ->
  Forall (fun x => dict_get x "_id"
                   <> Some (VObjectId (oid_bytes (oid_supply w))))
         (inventory w) ->
  requested_item_id del = Ok v ->
  py_ObjectId v = Ok (VObjectId (oid_bytes (oid_supply w))) ->
  fst (delete_item del (snd (add_item req w)))
  = Jsonify 200 (success_message "Item deleted")
  /\ inventory (snd (delete_item del (snd (add_item req w)))) = inventory w
  /\ List.length (movement_logs (snd (delete_item del (snd (add_item req w)))))
     = S (List.length (movement_logs w)).
Proof.
  intros J G Present F Fresh Ev Eo.
  destruct (add_item_run req w body fields J G Present F)
    as (item_id & location & ->).
  simpl snd. rewrite (delete_item_run _ _ _ _ Ev Eo). simpl inventory.
  assert (Forall (fun x => matches (by_id (oid_bytes (oid_supply w))) x = false)
                 (inventory w)) as Hb.
  { eapply Forall_impl; [| exact Fresh]. intros x. apply not_matches_by_id. }
  match goal with
  | |- context [remove_first ?p ?l] =>
      match l with
      | _ ++ [?d] =>
          assert (p d = true) as Hd by (apply matches_by_id; reflexivity);
          destruct (remove_first_split p (inventory w) [] d Hb Hd) as [R X];
          replace (remove_first p l) with (inventory w ++ [])
            by (symmetry; exact R);
          replace (existsb p l) with true by (symmetry; exact X)
      end
  end.
  simpl. rewrite app_nil_r, length_app. simpl. repeat split; lia.
Qed.

(** X19.  Adding, then looking up.  After a successful [add_item] of an
    item whose name is a string no older item bears, a lookup by that
    name finds the new record: the answer is never 404 (nor 400); it is
    200 or, when the record's location or the platform fails the lookup,
    500. *)
Theorem add_then_lookup (req lookup : request) (w : world)
    (body fields lookup_body : document) (name : string) :
  is_json req = true ->
  get_json req = Ok (VDict body) ->
  Forall (fun f => dict_get body f <> None) required_fields ->
  new_item_fields (VDict body) = Ok fields ->
  dict_get body "item_name" = Some (VStr name) ->
  Forall (fun d => dict_get d "item_name" <> Some (VStr name)) (inventory w) ->
  get_json lookup = Ok (VDict lookup_body) ->
  dict_get lookup_body "item_name" = Some (VStr name) ->
  find_one (by_name name) (inventory (snd (add_item req w)))
  = Some ((VStr "_id", VObjectId (oid_bytes (oid_supply w)))
          :: fields ++ [(VStr "entry_date", VDatetime (clock w (ticks w)))])
  /\ In (status_code (fst (get_item lookup (snd (add_item req w)))))
        [200; 500].
Proof.
  intros J G Present F Hname Nobody GL NL.
  destruct (add_item_run req w body fields J G Present F)
    as (item_id & location & ->).
  simpl snd.
  destruct (new_item_fields_full _ _ F)
    as (i & n & c & l & wd & h & wt & ex & loc
        & _ & Hn & _ & _ & _ & _ & ->).
  rewrite Hname in Hn. injection Hn as <-.
  set (stored := (VStr "_id", VObjectId (oid_bytes (oid_supply w))) :: _).
  assert (dict_get stored "item_name" = Some (VStr name)) as Hit
    by reflexivity.
  split.
  - simpl inventory.
    apply (find_one_first _ _ [] stored (no_name_no_match _ _ Nobody)).
    now apply matches_by_name.
  - match goal with
    | |- context [get_item lookup ?w1] =>
        rewrite (get_item_found lookup w1 lookup_body name (inventory w) []
                   stored GL NL eq_refl Nobody Hit)
    end.
    apply (handle_answers [200; 500]).
    + answers_steps.
    + intros e. unfold code_in. simpl. tauto.
Qed.

End Compose.

Lemma new_item_fields_typed_witness :
  exists item_id item_name category length width height weight expiry_date
         current_location,
    dict_get nut_body "item_id" = Some item_id
    /\ dict_get nut_body "item_name" = Some item_name
    /\ dict_get nut_body "category" = Some category
    /\ dict_get nut_body "current_location" = Some current_location
    /\ (expiry_date = VNone \/ exists t, expiry_date = VDatetime t)
    /\ (forall s, dict_get nut_body "fragility" = Some (VStr s) ->
          fragility_of nut_body = negb (String.eqb s ""))
    /\ nut_fields
       = [(VStr "item_id", item_id);
          (VStr "item_name", item_name);
          (VStr "category", category);
          (VStr "dimensions", VDict [(VStr "length", VFloat length);
                                     (VStr "width", VFloat width);
                                     (VStr "height", VFloat height)]);
          (VStr "weight", VFloat weight);
          (VStr "fragility", VBool (fragility_of nut_body));
          (VStr "expiry_date", expiry_date);
          (VStr "current_location", current_location)].
Proof.
  apply (@new_item_fields_typed CPython.runtime nut_body nut_fields).
  vm_compute. reflexivity.
Defined.

Lemma delete_item_twice_witness :
  fst (@delete_item CPython.runtime
         (json_request (VDict [(VStr "item_id",
                                VStr "000000000000000000000002")]))
         small_world)
  = Jsonify 200 (success_message "Item deleted")
  /\ @delete_item CPython.runtime
       (json_request (VDict [(VStr "item_id",
                              VStr "000000000000000000000002")]))
       (snd (@delete_item CPython.runtime
               (json_request (VDict [(VStr "item_id",
                                      VStr "000000000000000000000002")]))
               small_world))
     = (Jsonify 404 (error_body "Item not found"),
        snd (@delete_item CPython.runtime
               (json_request (VDict [(VStr "item_id",
                                      VStr "000000000000000000000002")]))
               small_world)).
Proof.
  apply (@delete_item_twice CPython.runtime _ small_world
           (VStr "000000000000000000000002") (oid_bytes 2)
           [item_widget] [item_loose] item_gadget);
    first [reflexivity | repeat constructor; discriminate].
Defined.

Lemma add_then_delete_witness :
  fst (@delete_item CPython.runtime delete_fresh
         (snd (@add_item CPython.runtime (json_request (VDict nut_body))
                 small_world)))
  = Jsonify 200 (success_message "Item deleted")
  /\ inventory
       (snd (@delete_item CPython.runtime delete_fresh
               (snd (@add_item CPython.runtime
                       (json_request (VDict nut_body)) small_world))))
     = inventory small_world
  /\ List.length
       (movement_logs
          (snd (@delete_item CPython.runtime delete_fresh
                  (snd (@add_item CPython.runtime
                          (json_request (VDict nut_body)) small_world)))))
     = S (List.length (movement_logs small_world)).
Proof.
  apply (@add_then_delete CPython.runtime (json_request (VDict nut_body))
           delete_fresh small_world nut_body nut_fields
           (VStr "000000000000000000000064"));
    first [reflexivity | repeat constructor; discriminate
          | vm_compute; reflexivity].
Defined.

Lemma add_then_lookup_witness :
  find_one (by_name "nut")
    (inventory (snd (@add_item CPython.runtime
                       (json_request (VDict nut_body)) small_world)))
  = Some ((VStr "_id", VObjectId (oid_bytes (oid_supply small_world)))
          :: nut_fields
          ++ [(VStr "entry_date",
               VDatetime (clock small_world (ticks small_world)))])
  /\ In (status_code
          (fst (@get_item CPython.runtime
                  (json_request (VDict [(VStr "item_name", VStr "nut")]))
                  (snd (@add_item CPython.runtime
                          (json_request (VDict nut_body)) small_world)))))
        [200; 500].
Proof.
  apply (@add_then_lookup CPython.runtime (json_request (VDict nut_body))
           (json_request (VDict [(VStr "item_name", VStr "nut")]))
           small_world nut_body nut_fields
           [(VStr "item_name", VStr "nut")] "nut");
    first [reflexivity | repeat constructor; discriminate
          | vm_compute; reflexivity].
Defined.

(** ** Requests the handlers turn down *)

Lemma bson_eq_str_left (z : string) (x : pyval) :
  bson_eq (VStr z) x = true -> x = VStr z.
Proof.
  destruct x; simpl; try discriminate.
  intros E. apply String.eqb_eq in E. congruence.
Qed.

Lemma dedup_keeps_str (z : string) (l : list pyval) :
  In (VStr z) l -> In (VStr z) (dedup l).
Proof.
  induction l as [| x l IH]; simpl; [tauto |].
  intros [-> | Hin]; [auto |].
  destruct (bson_eq (VStr z) x) eqn:E.
  - left. now apply bson_eq_str_left.
  - right. apply filter_In. split; [now apply IH |]. now rewrite E.
Qed.

Lemma distinct_has_zone (z : string) (b : document) (coll : list document) :
  In b coll -> dict_get b "zone_id" = Some (VStr z) ->
  In (VStr z) (distinct "zone_id" coll).
Proof.
  intros Hin Hz. unfold distinct. apply dedup_keeps_str.
  apply in_flat_map. exists b. split; [exact Hin |]. rewrite Hz. simpl. auto.
Qed.

Section BadRequests.

Context {rt : Runtime}.

Lemma zone_stats_fails (zones : list pyval) (w : world) (z : string)
    (b : document) (e : exn) :
  In (VStr z) zones ->
  In b (warehouse_layout w) ->
  dict_get b "zone_id" = Some (VStr z) ->
  spec_volume b = Raise e ->
  exists e', fst (zone_stats zones w) = Raise e'.
Proof.
  intros Hz Hin Hb Hv. induction zones as [| zone zones IH]; [destruct Hz |].
  simpl. unfold bind, gets, lift. simpl.
  destruct Hz as [-> | Hz].
  - simpl.
    assert (In b (find [("zone_id", Equals (VStr z))] (warehouse_layout w)))
      as Hf.
    { unfold find. apply filter_In. split; [exact Hin |].
      unfold matches. simpl. rewrite Hb. simpl. now rewrite String.eqb_refl. }
    destruct (accumulate_fails _ (VInt 0, VInt 0) b e Hf Hv) as [e' E].
    rewrite E. simpl. eauto.
  - destruct (field_filter zone) as [in_zone |]; simpl; [| eauto].
    destruct (accumulate _ _) as [totals |] eqn:A; simpl; [| eauto].
    destruct (utilization_percent _ _) as [u |]; simpl; [| eauto].
    destruct (py_format_1f u) as [shown |]; simpl; [| eauto].
    destruct (IH Hz) as [e' E].
    pose proof (zone_stats_reads_only zones w) as R.
    destruct (zone_stats zones w) as [[others | e0] w1]; simpl in *;
      [discriminate | eauto].
Qed.

(** X20.  One bad bin fails the statistics too: when some bin of a named
    zone has no [capacity] field, or its volume cannot be computed, the
    statistics endpoint answers 500 for the whole warehouse, and changes
    nothing. *)
Theorem get_warehouse_stats_fails_on_bad_bin (w : world) (b : document)
    (z : string) :
  In b (warehouse_layout w) ->
  dict_get b "zone_id" = Some (VStr z) ->
  (dict_get b "capacity" = None \/ exists e, spec_volume b = Raise e) ->
  exists e',
    get_warehouse_stats w = (Jsonify 500 (error_body (exn_str e')), w).
Proof.
  intros Hin Hz Bad.
  assert (exists e, spec_volume b = Raise e) as [e Hb].
  { destruct Bad as [C | H]; [| exact H].
    exists KeyError. unfold spec_volume. simpl. now rewrite C. }
  destruct (zone_stats_fails (distinct "zone_id" (warehouse_layout w)) w z b e
              (distinct_has_zone z b _ Hin Hz) Hin Hz Hb) as [e' E].
  exists e'. unfold get_warehouse_stats, handle.
  unfold bind at 1. unfold gets at 1. unfold bind at 1.
  pose proof (zone_stats_reads_only
                (distinct "zone_id" (warehouse_layout w)) w) as R.
  destruct (zone_stats _ w) as [[zones | e0] w0]; simpl in *; subst w0;
    [discriminate |].
  injection E as ->. reflexivity.
Qed.

(** X21.  How [add_item] turns a request down.  A body not declared as
    JSON gets 400 "Request must be JSON"; a body Flask cannot read gets
    500; a JSON [null] or number fails the membership test and gets 500;
    a JSON array that does not hold the text [item_id] gets 400 naming
    [item_id]; and when a coercion of the fields raises, the answer is
    500 with the text of that error.  Nothing is stored in any of these
    cases. *)
Theorem add_item_bad_request (req : request) (w : world) :
  (is_json req = false ->
   add_item req w = (Jsonify 400 (error_body "Request must be JSON"), w))
  /\ (forall e, is_json req = true -> get_json req = Raise e ->
        add_item req w = (Jsonify 500 (error_body (exn_str e)), w))
  /\ (forall data, is_json req = true -> get_json req = Ok data ->
        data = VNone \/ (exists n, as_num data = Some n) ->
        add_item req w = (Jsonify 500 (error_body (exn_str TypeError)), w))
  /\ (forall l, is_json req = true -> get_json req = Ok (VList l) ->
        existsb (key_is "item_id") l = false ->
        add_item req w
        = (Jsonify 400 (error_body "Missing required field: item_id"), w))
  /\ (forall body e, is_json req = true -> get_json req = Ok (VDict body) ->
        Forall (fun f => dict_get body f <> None) required_fields ->
        new_item_fields (VDict body) = Raise e ->
        add_item req w = (Jsonify 500 (error_body (exn_str e)), w)).
Proof.
  unfold add_item, handle, bind, lift.
  split; [| split; [| split; [| split]]].
  - intros ->. reflexivity.
  - intros e -> ->. reflexivity.
  - intros data -> -> [-> | [n Hn]]; [reflexivity |].
    destruct data; try discriminate; reflexivity.
  - intros l -> -> E. simpl. rewrite E. reflexivity.
  - intros body e -> -> Present F.
    rewrite first_missing_dict, (find_all_present _ _ Present), F.
    reflexivity.
Qed.

(** X22.  How [delete_item] turns a request down.  A JSON body that is
    not an object has no [get] and gets 500; a non-empty string that
    [ObjectId] refuses gets 500 with the driver's [InvalidId], and
    [ObjectId] refuses exactly the strings that do not have 24 characters
    or do not go through [bytes.fromhex]; an identifier that is a number
    (other than 0) or a non-empty list gets 500 with a [TypeError].
    Nothing is deleted in any of these cases.  (A string of 24 characters
    with blanks between its pairs of digits is not refused: it gives an
    identifier of fewer than twelve bytes, which no stored item has, and
    the answer is 404.) *)
Theorem delete_item_bad_request (req : request) (w : world) :
  (forall data, is_json req = true -> get_json req = Ok data ->
     is_dict data = false ->
     delete_item req w
     = (Jsonify 500 (error_body (exn_str AttributeError)), w))
  /\ (forall s, requested_item_id req = Ok (VStr s) -> s <> "" ->
        py_ObjectId (VStr s) = Raise InvalidId ->
        delete_item req w = (Jsonify 500 (error_body (exn_str InvalidId)), w))
  /\ (forall s,
        py_ObjectId (VStr s) = Raise InvalidId
        <-> (String.length s <> 24%nat \/ bytes_fromhex s = None))
  /\ (forall v, requested_item_id req = Ok v -> truthy v = true ->
        is_str v = false -> (forall o, v <> VObjectId o) ->
        delete_item req w
        = (Jsonify 500 (error_body (exn_str TypeError)), w))
  /\ py_ObjectId (VStr "0000 0000 0000 0000 0002")
     = Ok (VObjectId (be_bytes 10 2 []))
  /\ py_ObjectId (VStr "00000000000000000000000g") = Raise InvalidId
  /\ @delete_item CPython.runtime
       (json_request (VDict [(VStr "item_id",
                              VStr "0000 0000 0000 0000 0002")]))
       small_world
     = (Jsonify 404 (error_body "Item not found"), small_world).
Proof.
  split; [| split; [| split; [| split; [| split; [| split]]]]].
  - intros data J G D. unfold delete_item, handle, bind, lift.
    unfold requested_item_id. rewrite J, G.
    destruct data; try discriminate; reflexivity.
  - intros s Ev Ne Eo. unfold delete_item, handle, bind, lift.
    rewrite Ev. destruct s; [contradiction |]. simpl truthy. cbv iota.
    rewrite Eo. reflexivity.
  - intros s. simpl.
    destruct (Nat.eqb_spec (String.length s) 24) as [L | L];
      destruct (bytes_fromhex s); split; intros H;
      try discriminate; try reflexivity; auto.
    destruct H as [H | H]; [contradiction | discriminate].
  - intros v Ev T S O. unfold delete_item, handle, bind, lift.
    rewrite Ev, T.
    destruct v; try discriminate; try reflexivity.
    exfalso. eapply O. reflexivity.
  - vm_compute. reflexivity.
  - vm_compute. reflexivity.
  - vm_compute. reflexivity.
Qed.

End BadRequests.

Lemma get_warehouse_stats_fails_on_bad_bin_witness :
  exists e',
    @get_warehouse_stats CPython.runtime broken_layout_world
    = (Jsonify 500 (error_body (CPython.class_name e')), broken_layout_world).
Proof.
  apply (@get_warehouse_stats_fails_on_bad_bin CPython.runtime
           broken_layout_world [(VStr "zone_id", VStr "B")] "B").
  - simpl. auto.
  - reflexivity.
  - left. reflexivity.
Defined.
